(** * BLE fuzzing harness: response analyzer and retry/recovery campaigns

    A shallow embedding of [length_unexpected_state.py]
    (classes [IntelligentBLEResponseAnalyzer] and [SmartBLETester], the
    report of [analyze_test_results]) and of [pairing_max_key_size_test.py]
    (class [EnhancedBLEPairingTester]: the retry loops, the pairing test and
    the sweep over the key sizes), with the argument handling of both [main]
    functions.

    Conventions of the embedding:
    - a Python [str] is a [string] of ASCII characters; a response object is
      [option string] ([None] is Python's [None], [Some s] an object whose
      [str()] is [s]);
    - Python dictionaries with a fixed set of keys are records, keys that may
      be absent are [option] fields;
    - the BLE engine [FuzzingBLESUL] is an interface ([BLESUL]) whose calls
      either return or raise; every call and every [time.sleep] is logged in
      a trace;
    - wall-clock readings ([time.time()], [datetime.now()]) are not modelled;
      the only thing kept of [elapsed_time] is whether the local variable has
      been assigned. *)

From Stdlib Require Import String Ascii List ZArith Lia Bool Arith DecimalString QArith Sorted.
Import ListNotations.
Local Open Scope string_scope.
Local Open Scope nat_scope.

(** ** Python string primitives *)

Module PyStr.

(** [needle in hay] *)
Fixpoint contains (needle hay : string) : bool :=
  if prefix needle hay then true
  else match hay with
       | EmptyString => false
       | String _ rest => contains needle rest
       end.

Definition lower_ascii (c : ascii) : ascii :=
  let n := nat_of_ascii c in
  if (65 <=? n) && (n <=? 90) then ascii_of_nat (n + 32) else c.

(** [s.lower()] *)
Fixpoint lower (s : string) : string :=
  match s with
  | EmptyString => EmptyString
  | String c rest => String (lower_ascii c) (lower rest)
  end.

(** [c.isspace()] on the ASCII range *)
Definition is_space (c : ascii) : bool :=
  let n := nat_of_ascii c in
  ((9 <=? n) && (n <=? 13)) || ((28 <=? n) && (n <=? 32)).

Fixpoint lstrip (s : string) : string :=
  match s with
  | EmptyString => EmptyString
  | String c rest => if is_space c then lstrip rest else s
  end.

Fixpoint rev (s : string) : string :=
  match s with
  | EmptyString => EmptyString
  | String c rest => rev rest ++ String c EmptyString
  end.

Definition rstrip (s : string) : string := rev (lstrip (rev s)).

(** [s.strip()] *)
Definition strip (s : string) : string := rstrip (lstrip s).

(** truth value of a [str] *)
Definition truthy (s : string) : bool :=
  match s with EmptyString => false | _ => true end.

(** [s.endswith(suffix)] is not needed; [str(n)] for integers: *)
Definition str_of_nat (n : nat) : string :=
  NilEmpty.string_of_uint (Nat.to_uint n).

Definition str_of_Z (z : Z) : string :=
  NilZero.string_of_int (Z.to_int z).

(** *** The regular expression [0x[0-9a-fA-F]{2,4}] *)

Definition is_hex_digit (c : ascii) : bool :=
  let n := nat_of_ascii c in
  ((48 <=? n) && (n <=? 57)) || ((97 <=? n) && (n <=? 102))
  || ((65 <=? n) && (n <=? 70)).

(** the longest run of at most [n] hexadecimal digits at the head of [s] *)
Fixpoint take_hex (n : nat) (s : string) : string :=
  match n, s with
  | S n', String c rest =>
      if is_hex_digit c then String c (take_hex n' rest) else EmptyString
  | _, _ => EmptyString
  end.

(** the match of the pattern anchored at the head of [s], if any *)
Definition match_hex_here (s : string) : option string :=
  match s with
  | String "0" (String "x" rest) =>
      let digits := take_hex 4 rest in
      if 2 <=? String.length digits then Some ("0x" ++ digits) else None
  | _ => None
  end.

(** [re.findall(pattern, s)]: leftmost, non-overlapping matches.  [skip]
    counts the characters of the current match still to be passed over. *)
Fixpoint findall_from (skip : nat) (s : string) : list string :=
  match s with
  | EmptyString => []
  | String _ rest =>
      match skip with
      | S k => findall_from k rest
      | O =>
          match match_hex_here s with
          | Some m => m :: findall_from (String.length m - 1) rest
          | None => findall_from 0 rest
          end
      end
  end.

Definition findall_hex (s : string) : list string := findall_from 0 s.

(** the value of a hexadecimal digit; the pattern only lets digits through *)
Definition hex_digit_value (c : ascii) : nat :=
  let n := nat_of_ascii c in
  if (48 <=? n) && (n <=? 57) then n - 48
  else if (97 <=? n) && (n <=? 102) then n - 87
  else if (65 <=? n) && (n <=? 70) then n - 55
  else 0.

Fixpoint hex_value (acc : nat) (s : string) : nat :=
  match s with
  | EmptyString => acc
  | String c rest => hex_value (16 * acc + hex_digit_value c) rest
  end.

(** [int(code, 16)] for a string [0x...] produced by the pattern above *)
Definition int16 (code : string) : nat :=
  match code with
  | String "0" (String "x" digits) => hex_value 0 digits
  | _ => hex_value 0 code
  end.

End PyStr.

(** ** [IntelligentBLEResponseAnalyzer] *)

Definition response := option string.

Inductive error_detail :=
| ErrText (text : string)
| ErrCode (code : string) (decimal : nat) (description : string).

(** the dictionary built by [intelligent_analyze_response]; the keys
    [timestamp] and [response_type] are left out, [response_summary] is
    absent when there was no response *)
Record analysis := mk_analysis {
  operation : string;
  raw_response : string;
  status : string;
  protocol_layer : string;
  is_error : bool;
  error_details : list error_detail;
  success_indicators : list string;
  warning_indicators : list string;
  vulnerability_hints : list string;
  recommended_action : option string;
  context : option string;
  response_summary : option string
}.

(** the dictionary returned by the operation-specific analysers; only
    [_analyze_length_response] has the key [vulnerability_hints] *)
Record op_result := mk_op_result {
  r_status : string;
  r_success_indicators : list string;
  r_warning_indicators : list string;
  r_vulnerability_hints : option (list string)
}.

Definition HCI_ERROR_CODES : list (nat * string) :=
  [ (0, "Success");
    (1, "Unknown HCI Command");
    (2, "Unknown Connection Identifier");
    (3, "Hardware Failure");
    (4, "Page Timeout");
    (5, "Authentication Failure");
    (6, "Pin or Key Missing");
    (7, "Memory Capacity Exceeded");
    (8, "Connection Timeout");
    (9, "Connection Limit Exceeded");
    (10, "Synchronous Connection Limit Exceeded");
    (11, "ACL Connection Already Exists");
    (12, "Command Disallowed");
    (13, "Connection Rejected due to Limited Resources");
    (14, "Connection Rejected due to Security Reasons");
    (15, "Connection Rejected due to Unacceptable BD_ADDR");
    (16, "Connection Accept Timeout Exceeded");
    (17, "Unsupported Feature or Parameter Value");
    (18, "Invalid HCI Command Parameters");
    (19, "Remote User Terminated Connection");
    (20, "Remote Device Terminated Connection due to Low Resources");
    (21, "Remote Device Terminated Connection due to Power Off");
    (22, "Connection Terminated by Local Host");
    (23, "Repeated Attempts");
    (24, "Pairing Not Allowed");
    (25, "Unknown LMP PDU");
    (26, "Unsupported Remote Feature / Unsupported LMP Feature");
    (27, "SCO Offset Rejected");
    (28, "SCO Interval Rejected");
    (29, "SCO Air Mode Rejected");
    (30, "Invalid LMP Parameters / Invalid LL Parameters");
    (31, "Unspecified Error");
    (32, "Unsupported LMP Parameter Value / Unsupported LL Parameter Value");
    (33, "Role Change Not Allowed");
    (34, "LMP Response Timeout / LL Response Timeout");
    (35, "LMP Error Transaction Collision / LL Procedure Collision");
    (36, "LMP PDU Not Allowed");
    (37, "Encryption Mode Not Acceptable");
    (38, "Link Key Cannot be Changed");
    (39, "Requested QoS Not Supported");
    (40, "Instant Passed");
    (41, "Pairing with Unit Key Not Supported");
    (42, "Different Transaction Collision");
    (43, "Reserved");
    (44, "QoS Unacceptable Parameter");
    (45, "QoS Rejected");
    (46, "Channel Classification Not Supported");
    (47, "Insufficient Security");
    (48, "Parameter Out Of Mandatory Range");
    (49, "Reserved");
    (50, "Role Switch Pending");
    (51, "Reserved");
    (52, "Reserved Slot Violation");
    (53, "Role Switch Failed");
    (54, "Extended Inquiry Response Too Large");
    (55, "Secure Simple Pairing Not Supported by Host");
    (56, "Host Busy - Pairing");
    (57, "Connection Rejected due to No Suitable Channel Found");
    (58, "Controller Busy");
    (59, "Unacceptable Connection Parameters");
    (60, "Advertising Timeout");
    (61, "Connection Terminated due to MIC Failure");
    (62, "Connection Failed to be Established");
    (63, "MAC Connection Failed") ].

(** insertion order of the dictionary is the iteration order of its keys *)
Definition LL_CONNECTION_PDUS : list (string * string) :=
  [ ("LL_SLAVE_FEATURE_REQ", "Slave Feature Request - Connection established");
    ("LL_FEATURE_RSP", "Feature Response");
    ("LL_VERSION_IND", "Version Indication");
    ("LL_PING_REQ", "Ping Request");
    ("LL_PING_RSP", "Ping Response");
    ("LL_LENGTH_REQ", "Length Request");
    ("LL_LENGTH_RSP", "Length Response");
    ("LL_ENC_REQ", "Encryption Request");
    ("LL_ENC_RSP", "Encryption Response");
    ("LL_START_ENC_REQ", "Start Encryption Request");
    ("LL_START_ENC_RSP", "Start Encryption Response");
    ("LL_TERMINATE_IND", "Connection Termination Indication") ].

Definition CONNECTION_SUCCESS_INDICATORS : list string :=
  [ "LL_SLAVE_FEATURE_REQ"; "LL_FEATURE_RSP"; "LL_VERSION_IND";
    "ATT_Exchange_MTU_Request"; "ATT_Exchange_MTU_Response";
    "connected"; "connection"; "CONNECTED"; "CONNECTION" ].

Definition CONNECTION_FAILURE_INDICATORS : list string :=
  [ "ERROR"; "error"; "FAILED"; "failed"; "REJECT"; "reject";
    "TIMEOUT"; "timeout" ].

(** [dict.get(key, default)] on an association list *)
Fixpoint dict_get {V : Type} (d : list (nat * V)) (key : nat) (default : V) : V :=
  match d with
  | [] => default
  | (k, v) :: rest => if k =? key then v else dict_get rest key default
  end.

Fixpoint sdict_get {V : Type} (d : list (string * V)) (key : string) (default : V) : V :=
  match d with
  | [] => default
  | (k, v) :: rest => if String.eqb k key then v else sdict_get rest key default
  end.

(** [for x in xs: if x in text: ...; break]: the element the loop stops at *)
Fixpoint first_match (xs : list string) (text : string) : option string :=
  match xs with
  | [] => None
  | x :: rest => if PyStr.contains x text then Some x else first_match rest text
  end.

(** The module [constant] of the fuzzing engine is not part of the sources;
    its error sentinel is a parameter of the development. *)
Class Constant := { constant_ERROR : string }.

Module Analyzer.
Import PyStr.

Definition _detect_protocol_layer (resp : response) (op : string) : string :=
  match resp with
  | None => "unknown"
  | Some response_str =>
      if negb (truthy response_str) then "unknown"
      else if contains "LL_" response_str then "LL (Link Layer)"
      else if contains "ATT_" response_str then "ATT"
      else if contains "L2CAP" response_str then "L2CAP"
      else if contains "HCI" response_str then "HCI"
      else if String.eqb op "scan_req" then "HCI"
      else if String.eqb op "connection_request" then "HCI/L2CAP/LL"
      else if String.eqb op "length_request" then "LL (Link Layer)"
      else if String.eqb op "mtu_request" then "ATT/L2CAP"
      else if String.eqb op "pairing_request" then "SM (Security Manager)"
      else if String.eqb op "feature_request" then "LL (Link Layer)"
      else if String.eqb op "version_request" then "LL (Link Layer)"
      else "unknown"
  end.

Definition _summarize_response (response_str : string) : string :=
  if 100 <? String.length response_str
  then substring 0 100 response_str ++ "..."
  else response_str.

(** [response_str == "Empty" or not response_str.strip()] *)
Definition is_empty_response (response_str : string) : bool :=
  String.eqb response_str "Empty" || negb (truthy (strip response_str)).

Definition has_zero_length_field (response_str : string) : bool :=
  contains "max_rx_bytes=0" response_str || contains "max_tx_bytes=0" response_str.

Definition unknown_result : op_result :=
  mk_op_result "unknown" [] [] None.

Definition _analyze_connection_response (response_str : string) : op_result :=
  (* success indicators, first match wins *)
  let result :=
    match first_match CONNECTION_SUCCESS_INDICATORS response_str with
    | Some indicator =>
        mk_op_result "success"
          (("Found connection success indicator: " ++ indicator)
             :: (if String.eqb indicator "LL_SLAVE_FEATURE_REQ"
                 then ["Link Layer Feature Request - Connection established successfully"]
                 else []))
          [] None
    | None => unknown_result
    end in
  (* failure indicators *)
  let result :=
    if String.eqb (r_status result) "unknown" then
      match first_match CONNECTION_FAILURE_INDICATORS response_str with
      | Some indicator =>
          mk_op_result "error" (r_success_indicators result)
            (r_warning_indicators result
               ++ ["Found connection failure indicator: " ++ indicator])
            None
      | None => result
      end
    else result in
  (* any link-layer PDU *)
  let result :=
    if String.eqb (r_status result) "unknown" then
      match first_match (map fst LL_CONNECTION_PDUS) response_str with
      | Some ll_pdu =>
          mk_op_result "success"
            (r_success_indicators result
               ++ ["Link Layer interaction: " ++ ll_pdu ++ " - "
                     ++ sdict_get LL_CONNECTION_PDUS ll_pdu ""])
            (r_warning_indicators result
               ++ ["Connection response format non-standard, but Link Layer interaction exists"])
            None
      | None => result
      end
    else result in
  (* bare BLE framing *)
  if String.eqb (r_status result) "unknown"
     && (contains "BTLE" response_str || contains "BLE" response_str)
  then mk_op_result "partial_success" (r_success_indicators result)
         (r_warning_indicators result
            ++ ["Received BLE frame packet, but no clear connection status"])
         None
  else result.

Definition _analyze_length_response (response_str : string) : op_result :=
  if contains "LL_LENGTH_RSP" response_str then
    if has_zero_length_field response_str then
      mk_op_result "success" ["Received length response"]
        ["Length response contains zero value - may not comply with specifications"]
        (Some ["SweynTooth-like vulnerability: zero length response"])
    else
      mk_op_result "success" ["Received length response"] [] (Some [])
  else if is_empty_response response_str then
    mk_op_result "no_response" [] ["No response to length request"]
      (Some ["Device may not handle abnormal length requests"])
  else if contains "LL_" response_str then
    mk_op_result "partial_success" [] ["Received unexpected Link Layer response"]
      (Some [])
  else if contains "ERROR" response_str || contains "error" response_str then
    mk_op_result "error" [] ["Length request returned error"] (Some [])
  else
    mk_op_result "unknown" [] [] (Some []).

Definition _analyze_by_operation `{Constant} (response_str op : string) : op_result :=
  let response_lower := lower response_str in
  if String.eqb op "connection_request" then
    _analyze_connection_response response_str
  else if String.eqb op "scan_req" then
    if contains "scanning" response_lower || contains "advertising" response_lower
    then mk_op_result "success" ["Scan operation normal"] [] None
    else if contains "error" response_lower || truthy constant_ERROR
    then mk_op_result "error" [] ["Scan failed"] None
    else mk_op_result "partial_success" [] ["Ambiguous scan response"] None
  else if String.eqb op "length_request" then
    _analyze_length_response response_str
  else if String.eqb op "mtu_request" then
    if contains "mtu" response_lower || contains "exchange" response_lower
    then mk_op_result "success" ["MTU exchange normal"] [] None
    else if is_empty_response response_str
    then mk_op_result "no_response" [] ["No response to MTU request"] None
    else mk_op_result "unknown_response" [] [] None
  else if String.eqb op "pairing_request" then
    if contains "pairing" response_lower || contains "security" response_lower
    then mk_op_result "success" ["Pairing process started"] [] None
    else if contains "reject" response_lower || contains "invalid" response_lower
    then mk_op_result "rejected" [] ["Pairing request rejected"] None
    else mk_op_result "unknown_response" [] [] None
  else unknown_result.

Definition _extract_error_codes (response_str : string) : list error_detail :=
  map (fun hex_code =>
         let code_int := int16 hex_code in
         ErrCode hex_code code_int
           (dict_get HCI_ERROR_CODES code_int "Unknown error code"))
      (findall_hex response_str).

Definition _detect_vulnerability_hints
    (response_str op : string) (ctx : option string) : list string :=
  (if String.eqb op "length_request" then
     (if is_empty_response response_str
      then ["Device has no response to abnormal length request - may trigger SweynTooth vulnerability"]
      else [])
     ++ (if has_zero_length_field response_str
         then ["Device accepts zero value length parameters - potential protocol stack vulnerability"]
         else [])
   else [])
  ++ (if contains "connection" (lower op) && contains "LL_TERMINATE_IND" response_str
      then match ctx with
           | Some c =>
               if truthy c && contains "attack" c
               then ["Abnormal connection termination after attack - may trigger denial of service"]
               else []
           | None => []
           end
      else [])
  ++ (if contains "LL_SLAVE_FEATURE_REQ" response_str && contains "length_request" op
      then ["Received feature request after length request - state machine may be abnormal"]
      else []).

Definition nonempty {A : Type} (l : list A) : bool :=
  match l with [] => false | _ => true end.

Definition _determine_final_status (a : analysis) : string :=
  if is_error a then "error"
  else if String.eqb (status a) "success" || String.eqb (status a) "partial_success"
  then status a
  else if nonempty (success_indicators a) then "success"
  else if nonempty (warning_indicators a) then "warning"
  else "unknown".

Definition suggestions : list (string * string) :=
  [ ("success", "Proceed to next operation");
    ("partial_success", "Observe device behavior, consider retrying");
    ("error", "Check device status and connection parameters");
    ("no_response", "Wait for device recovery or restart device");
    ("unknown", "Further analysis required") ].

Definition _suggest_action (a : analysis) : string :=
  if String.eqb (operation a) "connection_request" && String.eqb (status a) "error"
  then "Check if device is in advertising state, adjust scan parameters"
  else if contains "length_request" (operation a) && String.eqb (status a) "no_response"
  then "Device may be sensitive to abnormal length requests, try testing with normal values"
  else sdict_get suggestions (status a) "No suggestions".

(** [analysis.update(result)] *)
Definition update (a : analysis) (r : op_result) : analysis :=
  mk_analysis (operation a) (raw_response a) (r_status r) (protocol_layer a)
    (is_error a) (error_details a)
    (r_success_indicators r) (r_warning_indicators r)
    (match r_vulnerability_hints r with
     | Some hints => hints
     | None => vulnerability_hints a
     end)
    (recommended_action a) (context a) (response_summary a).

Definition initial_analysis (resp : response) (op : string) (ctx : option string)
  : analysis :=
  mk_analysis op
    (match resp with
     | Some s => if truthy s then s else "None"
     | None => "None"
     end)
    "unknown" (_detect_protocol_layer resp op) false [] [] [] [] None ctx None.

Definition set_status (a : analysis) (s : string) : analysis :=
  mk_analysis (operation a) (raw_response a) s (protocol_layer a)
    (is_error a) (error_details a) (success_indicators a) (warning_indicators a)
    (vulnerability_hints a) (recommended_action a) (context a) (response_summary a).

Definition set_recommended_action (a : analysis) (s : string) : analysis :=
  mk_analysis (operation a) (raw_response a) (status a) (protocol_layer a)
    (is_error a) (error_details a) (success_indicators a) (warning_indicators a)
    (vulnerability_hints a) (Some s) (context a) (response_summary a).

(** The body of [intelligent_analyze_response].  The second component tells
    whether the analysis was appended to [self.protocol_analysis]: the early
    return on a missing response skips the append. *)
Definition classify `{Constant} (resp : response) (op : string) (ctx : option string)
  : analysis * bool :=
  let a := initial_analysis resp op ctx in
  match resp with
  | None =>
      (mk_analysis (operation a) (raw_response a) "no_response" (protocol_layer a)
         true (error_details a ++ [ErrText "No response from device"])
         (success_indicators a) (warning_indicators a) (vulnerability_hints a)
         (Some "Check if device is online or restart the device")
         (context a) (response_summary a),
       false)
  | Some response_str =>
      let a := mk_analysis (operation a) (raw_response a) (status a) (protocol_layer a)
                 (is_error a) (error_details a) (success_indicators a)
                 (warning_indicators a) (vulnerability_hints a)
                 (recommended_action a) (context a)
                 (Some (_summarize_response response_str)) in
      (* 1. operation-specific status *)
      let a := update a (_analyze_by_operation response_str op) in
      (* 2. error codes *)
      let error_codes := _extract_error_codes response_str in
      let a := if nonempty error_codes
               then mk_analysis (operation a) (raw_response a) (status a)
                      (protocol_layer a) true (error_details a ++ error_codes)
                      (success_indicators a) (warning_indicators a)
                      (vulnerability_hints a) (recommended_action a) (context a)
                      (response_summary a)
               else a in
      (* 3. vulnerability hints *)
      let hints := _detect_vulnerability_hints response_str op ctx in
      let a := mk_analysis (operation a) (raw_response a) (status a)
                 (protocol_layer a) (is_error a) (error_details a)
                 (success_indicators a) (warning_indicators a)
                 (vulnerability_hints a ++ hints) (recommended_action a)
                 (context a) (response_summary a) in
      (* 4. final status *)
      let a := if negb (truthy (status a)) || String.eqb (status a) "unknown"
               then set_status a (_determine_final_status a)
               else a in
      (* 5. recommended action *)
      (set_recommended_action a (_suggest_action a), true)
  end.

Definition status_codes : list (string * nat) :=
  [ ("success", 0); ("partial_success", 1); ("warning", 2);
    ("error", 3); ("no_response", 4); ("unknown", 5) ].

(** the value returned by [print_analysis] (the printing itself is left out) *)
Definition print_analysis (a : analysis) : nat :=
  sdict_get status_codes (status a) 5.

End Analyzer.

(** ** The BLE engine and the state of a test session *)

Inductive exn :=
| CollaboratorFault (msg : string)
| UnboundLocalError (name : string).

(** [str(e)] *)
Definition exn_message (e : exn) : string :=
  match e with
  | CollaboratorFault msg => msg
  | UnboundLocalError name =>
      "cannot access local variable '" ++ name
        ++ "' where it is not associated with a value"
  end.

Inductive res (A : Type) :=
| Val (a : A)
| Exc (e : exn).
Arguments Val {A} a.
Arguments Exc {A} e.

Record fuzzed_param := FuzzedParam { param_name : string; param_value : Z }.

(** The methods of [FuzzingBLESUL] used by the testers.  A call returns a
    response or raises, and moves the engine (and the device behind it) to a
    new state. *)
Class BLESUL (Dev : Type) := {
  connection_request : Dev -> res response * Dev;
  scan_req : Dev -> res response * Dev;
  length_request_fuzzed : fuzzed_param -> Dev -> res response * Dev;
  termination_indication : Dev -> res unit * Dev
}.

Inductive event :=
| EvConnectionRequest
| EvScanReq
| EvLengthRequestFuzzed (p : fuzzed_param)
| EvTerminationIndication
| EvSleep (seconds : Q).

(** [self.connection_stats]; [avg_time] holds a wall-clock reading and is
    left out *)
Record stats := mk_stats {
  total_attempts : nat;
  successful : nat;
  failed : nat
}.

(** an element of [recovery_results] *)
Record recovery_entry := mk_entry {
  attempt : nat;
  entry_status : string;
  entry_analysis : option analysis;
  entry_error : option string
}.

(** The session: the engine, the log of engine calls and sleeps, the tester's
    counters, the analyzer's history, and the two locals that are mutated
    inside [try] blocks (whether [elapsed_time] of [smart_connection_test] is
    assigned, and the list object [recovery_results] of
    [test_length_vulnerability]). *)
Record world (Dev : Type) := mk_world {
  ble : Dev;
  trace : list event;
  connection_stats : stats;
  protocol_analysis : list analysis;
  elapsed_time_assigned : bool;
  recovery_results : list recovery_entry
}.
Arguments mk_world {Dev}.
Arguments ble {Dev}.
Arguments trace {Dev}.
Arguments connection_stats {Dev}.
Arguments protocol_analysis {Dev}.
Arguments elapsed_time_assigned {Dev}.
Arguments recovery_results {Dev}.

(** *** A monad for state and exceptions *)

Module Py.
Section Monad.
Context {Dev : Type} `{BLESUL Dev}.

Definition M (A : Type) : Type := world Dev -> res A * world Dev.

Definition ret {A} (a : A) : M A := fun w => (Val a, w).

Definition bind {A B} (m : M A) (k : A -> M B) : M B :=
fun w => match m w with
         | (Val a, w') => k a w'
         | (Exc e, w') => (Exc e, w')
         end.

Definition raise {A} (e : exn) : M A := fun w => (Exc e, w).

(** [try: body except Exception as e: handler(e)]; the state changes made
  by the body before it raised are kept *)
Definition try_except {A} (body : M A) (handler : exn -> M A) : M A :=
fun w => match body w with
         | (Val a, w') => (Val a, w')
         | (Exc e, w') => handler e w'
         end.

Definition log (e : event) : M unit :=
fun w => (Val tt,
          mk_world (ble w) (trace w ++ [e]) (connection_stats w)
            (protocol_analysis w) (elapsed_time_assigned w) (recovery_results w)).

(** [time.sleep(seconds)] *)
Definition sleep (seconds : Q) : M unit := log (EvSleep seconds).

(** a call of an engine method: logged, then performed *)
Definition call {A} (e : event) (method : Dev -> res A * Dev) : M A :=
fun w => let (r, d) := method (ble w) in
         (r, mk_world d (trace w ++ [e]) (connection_stats w)
               (protocol_analysis w) (elapsed_time_assigned w)
               (recovery_results w)).

Definition ble_connection_request : M response :=
call EvConnectionRequest connection_request.
Definition ble_scan_req : M response :=
call EvScanReq scan_req.
Definition ble_length_request_fuzzed (p : fuzzed_param) : M response :=
call (EvLengthRequestFuzzed p) (length_request_fuzzed p).
Definition ble_termination_indication : M unit :=
call EvTerminationIndication termination_indication.

Definition get_stats : M stats := fun w => (Val (connection_stats w), w).

Definition modify_stats (f : stats -> stats) : M unit :=
fun w => (Val tt,
          mk_world (ble w) (trace w) (f (connection_stats w))
            (protocol_analysis w) (elapsed_time_assigned w) (recovery_results w)).

Definition record_analysis (a : analysis) : M unit :=
fun w => (Val tt,
          mk_world (ble w) (trace w) (connection_stats w)
            (protocol_analysis w ++ [a]) (elapsed_time_assigned w)
            (recovery_results w)).

Definition set_elapsed_time (b : bool) : M unit :=
fun w => (Val tt,
          mk_world (ble w) (trace w) (connection_stats w)
            (protocol_analysis w) b (recovery_results w)).

Definition get_elapsed_time : M bool :=
fun w => (Val (elapsed_time_assigned w), w).

Definition set_recovery_results (l : list recovery_entry) : M unit :=
fun w => (Val tt,
          mk_world (ble w) (trace w) (connection_stats w)
            (protocol_analysis w) (elapsed_time_assigned w) l).

Definition get_recovery_results : M (list recovery_entry) :=
fun w => (Val (recovery_results w), w).

(** [recovery_results.append(entry)] *)
Definition append_recovery (entry : recovery_entry) : M unit :=
fun w => (Val tt,
          mk_world (ble w) (trace w) (connection_stats w)
            (protocol_analysis w) (elapsed_time_assigned w)
            (recovery_results w ++ [entry])).

End Monad.
Arguments M Dev A : clear implicits.
End Py.

Declare Scope py_scope.
Delimit Scope py_scope with py.
Notation "x <- c1 ;; c2" := (Py.bind c1 (fun x => c2))
  (at level 61, c1 at next level, right associativity) : py_scope.
Notation "c1 ;; c2" := (Py.bind c1 (fun _ => c2))
  (at level 61, right associativity) : py_scope.

Definition incr_total (s : stats) : stats :=
  mk_stats (total_attempts s + 1) (successful s) (failed s).
Definition incr_successful (s : stats) : stats :=
  mk_stats (total_attempts s) (successful s + 1) (failed s).
Definition incr_failed (s : stats) : stats :=
  mk_stats (total_attempts s) (successful s) (failed s + 1).

(** [self.analyzer.intelligent_analyze_response(response, operation, context)] *)
Definition intelligent_analyze_response {Dev} `{BLESUL Dev} `{Constant}
    (resp : response) (op : string) (ctx : option string) : Py.M Dev analysis :=
  (let (a, recorded) := Analyzer.classify resp op ctx in
   if recorded then (Py.record_analysis a ;; Py.ret a) else Py.ret a)%py.

(** ** [SmartBLETester] *)

(** the dictionary returned by [test_length_vulnerability]; [request_time]
    (a wall-clock reading) is left out *)
Record test_result := mk_test_result {
  test : string;
  max_rx_bytes : Z;
  result : option string;
  details : option string;
  response_analysis : option analysis;
  vulnerability_indicated : option bool;
  error : option string;
  recovery_tests : option (list recovery_entry);
  overall_result : option string;
  vulnerability : option string
}.

Module SmartBLETester.
Import PyStr Py.
Local Open Scope py_scope.

(** [status_code <= 1] in [smart_connection_test] *)
Definition connection_ok (a : analysis) : bool :=
  Analyzer.print_analysis a <=? 1.

(** ["success" if reconnect_analysis.get("status") == "success" else "failed"] *)
Definition recovery_status (a : analysis) : string :=
  if String.eqb (status a) "success" then "success" else "failed".

(** [sum(1 for r in recovery_results if r.get("status") == "success")] *)
Definition successful_recoveries (recovery_results : list recovery_entry) : nat :=
  length (filter (fun r => String.eqb (entry_status r) "success") recovery_results).

(** the end of [test_length_vulnerability]: [recovery_tests] is stored and
    the overall result is judged *)
Definition judge (r : test_result) (recovery_results : list recovery_entry)
  : test_result :=
  let with_verdict (overall vuln : string) :=
    mk_test_result (test r) (max_rx_bytes r) (result r) (details r)
      (response_analysis r) (vulnerability_indicated r) (error r)
      (Some recovery_results) (Some overall) (Some vuln) in
  if successful_recoveries recovery_results =? 0 then
    with_verdict "device_crashed" "Confirmed - Denial of Service vulnerability"
  else if successful_recoveries recovery_results <? length recovery_results then
    with_verdict "partial_recovery" "Suspected - Partial Denial of Service"
  else
    with_verdict "full_recovery" "No vulnerability".

(** [result.get("overall_result", "unknown")] in [analyze_test_results] *)
Definition reported_overall_result (r : test_result) : string :=
  match overall_result r with
  | Some s => s
  | None => "unknown"
  end.

Section Tester.
Context {Dev : Type} `{BLESUL Dev} `{Constant}.

(** The [try] statement in the loop of [smart_connection_test].
    [Some r]: the function returns [r] from inside the loop. *)
Definition connection_attempt (attempt : nat)
  : M Dev (option (bool * response * option analysis)) :=
  try_except
    (response <- ble_connection_request ;;
     set_elapsed_time true ;;
     analysis <- intelligent_analyze_response response "connection_request"
                   (Some ("attempt_" ++ str_of_nat attempt)) ;;
     modify_stats incr_total ;;
     if connection_ok analysis then
       (modify_stats incr_successful ;;
        sleep (1#2) ;;
        ret (Some (true, response, Some analysis)))
     else
       (modify_stats incr_failed ;;
        ret None))
    (fun e =>
       modify_stats incr_failed ;;
       ret None).

(** [for attempt in range(1, max_retries + 1)], from [attempt] on *)
Fixpoint smart_connection_loop (remaining attempt max_retries : nat)
  : M Dev (option (bool * response * option analysis)) :=
  match remaining with
  | O => ret None
  | S r =>
      x <- connection_attempt attempt ;;
      match x with
      | Some returned => ret (Some returned)
      | None =>
          (if attempt <? max_retries then sleep 2 else ret tt) ;;
          smart_connection_loop r (S attempt) max_retries
      end
  end.

Definition smart_connection_test (max_retries : nat)
  : M Dev (bool * response * option analysis) :=
  set_elapsed_time false ;;
  x <- smart_connection_loop max_retries 1 max_retries ;;
  match x with
  | Some returned => ret returned
  | None =>
      st <- get_stats ;;
      (if 0 <? total_attempts st then
         (assigned <- get_elapsed_time ;;
          if assigned then ret tt   (* avg_time = elapsed_time *)
          else raise (UnboundLocalError "elapsed_time"))
       else ret tt) ;;
      ret (false, None, None)
  end.

(** one pass through the recovery loop of [test_length_vulnerability] *)
Definition recovery_probe (i : nat) : M Dev unit :=
  sleep 4 ;;
  try_except
    (reconnect_response <- ble_connection_request ;;
     reconnect_analysis <- intelligent_analyze_response reconnect_response
                             "post_attack_connection"
                             (Some ("recovery_attempt_" ++ str_of_nat (i + 1))) ;;
     let status := recovery_status reconnect_analysis in
     append_recovery (mk_entry (i + 1) status (Some reconnect_analysis) None) ;;
     if String.eqb status "success" then
       (ble_termination_indication ;;
        sleep (1#2))
     else ret tt)
    (fun e =>
       append_recovery (mk_entry (i + 1) "exception" None (Some (exn_message e)))).

(** [for i in range(7)], from [i] on *)
Fixpoint recovery_loop (remaining i : nat) : M Dev unit :=
  match remaining with
  | O => ret tt
  | S r => recovery_probe i ;; recovery_loop r (S i)
  end.

Definition failed_pre_connection (max_rx : Z) : test_result :=
  mk_test_result "length_vulnerability" max_rx
    (Some "failed_pre_connection") (Some "Cannot establish initial connection")
    None None None None None None.

(** Phase 2 of [test_length_vulnerability]: the fuzzed length request *)
Definition send_length_request (max_rx : Z) : M Dev test_result :=
  try_except
    (let param := FuzzedParam "max_rx_bytes" max_rx in
     response <- ble_length_request_fuzzed param ;;
     analysis <- intelligent_analyze_response response "length_request"
                   (Some ("attack_max_rx_" ++ str_of_Z max_rx)) ;;
     sleep 3 ;;
     ret (mk_test_result "length_vulnerability" max_rx None None
            (Some analysis)
            (Some (0 <? length (vulnerability_hints analysis)))
            None None None None))
    (fun e =>
       ret (mk_test_result "length_vulnerability" max_rx
              (Some "exception") None None None
              (Some (exn_message e)) None None None)).

(** Phase 3 of [test_length_vulnerability]: the recovery probes and the
    overall result *)
Definition test_recovery (r : test_result) : M Dev test_result :=
  set_recovery_results [] ;;
  recovery_loop 7 0 ;;
  recovery_results <- get_recovery_results ;;
  ret (judge r recovery_results).

Definition test_length_vulnerability (max_rx : Z) : M Dev test_result :=
  (* Phase 1 *)
  c <- smart_connection_test 7 ;;
  let '(connected, connect_response, connect_analysis) := c in
  if negb connected then ret (failed_pre_connection max_rx)
  else
    r <- send_length_request max_rx ;;
    test_recovery r.

(** The three campaigns of [comprehensive_vulnerability_test]; saving the
    capture and printing the report come after them and are left out. *)
Definition comprehensive_vulnerability_test : M Dev (list test_result) :=
  result1 <- test_length_vulnerability 0 ;;
  sleep 5 ;;
  result2 <- test_length_vulnerability 3000 ;;
  sleep 5 ;;
  result3 <- test_length_vulnerability 251 ;;
  ret [result1; result2; result3].

End Tester.
End SmartBLETester.

(** ** [EnhancedBLEPairingTester]: the retry loops *)

Module PairingTester.
Import Py.
Local Open Scope py_scope.

(** [x == constant.ERROR] *)
Definition is_ERROR `{Constant} (x : response) : bool :=
  match x with
  | Some s => String.eqb s constant_ERROR
  | None => false
  end.

Section Tester.
Context {Dev : Type} `{BLESUL Dev} `{Constant}.

(** [for attempt in range(1, max_retries + 1)] of [robust_scan], from
    [attempt] on *)
Fixpoint robust_scan_loop (remaining attempt max_retries : nat) (retry_delay : Q)
  : M Dev (bool * response) :=
  match remaining with
  | O => ret (false, None)
  | S r =>
      x <- try_except
             (scan_result <- ble_scan_req ;;
              if is_ERROR scan_result then
                ((if attempt <? max_retries then sleep retry_delay else ret tt) ;;
                 ret None)
              else ret (Some (true, scan_result)))
             (fun e =>
                (if attempt <? max_retries then sleep retry_delay else ret tt) ;;
                ret None) ;;
      match x with
      | Some returned => ret returned
      | None => robust_scan_loop r (S attempt) max_retries retry_delay
      end
  end.

Definition robust_scan (max_retries : nat) (retry_delay : Q)
  : M Dev (bool * response) :=
  robust_scan_loop max_retries 1 max_retries retry_delay.

(** the loop of [robust_connect] *)
Fixpoint robust_connect_loop (remaining attempt max_retries : nat) (retry_delay : Q)
  : M Dev (bool * response) :=
  match remaining with
  | O => ret (false, None)
  | S r =>
      x <- try_except
             (connect_result <- ble_connection_request ;;
              if is_ERROR connect_result then
                ((if attempt <? max_retries then sleep retry_delay else ret tt) ;;
                 ret None)
              else ret (Some (true, connect_result)))
             (fun e =>
                (if attempt <? max_retries then sleep retry_delay else ret tt) ;;
                ret None) ;;
      match x with
      | Some returned => ret returned
      | None => robust_connect_loop r (S attempt) max_retries retry_delay
      end
  end.

Definition robust_connect (max_retries : nat) (retry_delay : Q)
  : M Dev (bool * response) :=
  robust_connect_loop max_retries 1 max_retries retry_delay.

End Tester.
End PairingTester.

(** ** A scripted engine, for running the testers on concrete sessions *)

Record script := mk_script {
  connect_script : list (res response);
  scan_script : list (res response);
  length_script : list (res response);
  terminate_script : list (res unit)
}.

(** a call answers with the next entry of its script; an exhausted script
    answers with [None] (no response object) *)
Definition pop {A} (l : list (res A)) (default : A) : res A * list (res A) :=
  match l with
  | [] => (Val default, [])
  | r :: rest => (r, rest)
  end.

#[export] Instance scripted_BLESUL : BLESUL script := {
  connection_request s :=
    let (r, rest) := pop (connect_script s) None in
    (r, mk_script rest (scan_script s) (length_script s) (terminate_script s));
  scan_req s :=
    let (r, rest) := pop (scan_script s) None in
    (r, mk_script (connect_script s) rest (length_script s) (terminate_script s));
  length_request_fuzzed _ s :=
    let (r, rest) := pop (length_script s) None in
    (r, mk_script (connect_script s) (scan_script s) rest (terminate_script s));
  termination_indication s :=
    let (r, rest) := pop (terminate_script s) tt in
    (r, mk_script (connect_script s) (scan_script s) (length_script s) rest)
}.

(** the value of [constant.ERROR] used in the concrete sessions *)
Definition sample_constant : Constant := {| constant_ERROR := "Error" |}.

Definition fresh_world (s : script) : world script :=
  mk_world s [] (mk_stats 0 0 0) [] false [].

Definition count_event (p : event -> bool) (w : world script) : nat :=
  length (filter p (trace w)).

(** ** Vocabulary of the statements *)

(** the answers of the engine to [n] successive calls of a method *)
Fixpoint outcomes {Dev A : Type} (method : Dev -> res A * Dev) (n : nat) (d : Dev)
  : list (res A) :=
  match n with
  | O => []
  | S k => let (r, d') := method d in r :: outcomes method k d'
  end.

(** the engine after [n] successive calls of a method *)
Fixpoint after_calls {Dev A : Type} (method : Dev -> res A * Dev) (n : nat) (d : Dev)
  : Dev :=
  match n with
  | O => d
  | S k => after_calls method k (snd (method d))
  end.

(** [n] calls of an engine method with a pause between two consecutive calls *)
Fixpoint retry_trace (ev : event) (delay : Q) (n : nat) : list event :=
  match n with
  | O => []
  | S O => [ev]
  | S k => ev :: EvSleep delay :: retry_trace ev delay k
  end.

(** a failed attempt of a retry loop: a raised fault or the error sentinel *)
Definition attempt_failed `{Constant} (o : res response) : bool :=
  match o with
  | Val x => PairingTester.is_ERROR x
  | Exc _ => true
  end.

(** the analysis [smart_connection_test] makes of the answer to attempt number
    [attempt] *)
Definition connection_analysis `{Constant} (attempt : nat) (resp : response) : analysis :=
  fst (Analyzer.classify resp "connection_request"
         (Some ("attempt_" ++ PyStr.str_of_nat attempt))).

(** the attempts numbered from [attempt] on are all unsuccessful: the call
    raised, or the classified status has a code above 1 *)
Fixpoint all_attempts_fail `{Constant} (attempt : nat) (os : list (res response)) : bool :=
  match os with
  | [] => true
  | Exc _ :: rest => all_attempts_fail (S attempt) rest
  | Val resp :: rest =>
      negb (SmartBLETester.connection_ok (connection_analysis attempt resp))
      && all_attempts_fail (S attempt) rest
  end.

Definition returned {A : Type} (o : res A) : bool :=
  match o with Val _ => true | Exc _ => false end.

(** no counter of [s'] is below the one of [s] *)
Definition stats_le (s s' : stats) : Prop :=
  total_attempts s <= total_attempts s'
  /\ successful s <= successful s'
  /\ failed s <= failed s'.

(** what [intelligent_analyze_response] appends to [self.protocol_analysis] *)
Definition recorded `{Constant} (resp : response) (op : string) (ctx : option string)
  : list analysis :=
  if snd (Analyzer.classify resp op ctx) then [fst (Analyzer.classify resp op ctx)] else [].

(** the analysis of the answer to recovery probe [i] (counted from 0) *)
Definition recovery_analysis `{Constant} (i : nat) (resp : response) : analysis :=
  fst (Analyzer.classify resp "post_attack_connection"
         (Some ("recovery_attempt_" ++ PyStr.str_of_nat (i + 1)))).

(** the status [intelligent_analyze_response] ends with, from the result of
    the operation-specific analysis and the extracted error codes *)
Definition final_status_of (r : op_result) (codes : list error_detail) : string :=
  if negb (PyStr.truthy (r_status r)) || String.eqb (r_status r) "unknown" then
    if Analyzer.nonempty codes then "error"
    else if String.eqb (r_status r) "success" || String.eqb (r_status r) "partial_success"
    then r_status r
    else if Analyzer.nonempty (r_success_indicators r) then "success"
    else if Analyzer.nonempty (r_warning_indicators r) then "warning"
    else "unknown"
  else r_status r.

(** the statuses the operation-specific analysers can set *)
Definition op_statuses : list string :=
  [ "success"; "partial_success"; "error"; "no_response"; "unknown";
    "rejected"; "unknown_response" ].

(** the statuses a classified response can carry *)
Definition final_statuses : list string :=
  [ "success"; "partial_success"; "warning"; "error"; "no_response"; "unknown";
    "rejected"; "unknown_response" ].

(** the session after a call of an engine method logged as [ev] has moved the
    engine to [d] *)
Definition called {Dev : Type} (ev : event) (w : world Dev) (d : Dev) : world Dev :=
  mk_world d (trace w ++ [ev]) (connection_stats w) (protocol_analysis w)
    (elapsed_time_assigned w) (recovery_results w).

(** The two retry loops of [EnhancedBLEPairingTester] differ in the engine
    method they call; this is their common shape, used to state and prove
    their contract once. *)
Section RetryLoop.
Import Py.
Local Open Scope py_scope.
Context {Dev : Type} `{BLESUL Dev} `{Constant}.
Variable ble_call : M Dev response.

Fixpoint retry_loop (remaining attempt max_retries : nat) (retry_delay : Q)
  : M Dev (bool * response) :=
  match remaining with
  | O => ret (false, None)
  | S r =>
      x <- try_except
             (call_result <- ble_call ;;
              if PairingTester.is_ERROR call_result then
                ((if attempt <? max_retries then sleep retry_delay else ret tt) ;;
                 ret None)
              else ret (Some (true, call_result)))
             (fun e =>
                (if attempt <? max_retries then sleep retry_delay else ret tt) ;;
                ret None) ;;
      match x with
      | Some returned => ret returned
      | None => retry_loop r (S attempt) max_retries retry_delay
      end
  end.
End RetryLoop.

(** The contract of a retry loop over an engine method [method], logged as
    [ev]: it stops at the first attempt that neither raises nor answers with
    the error sentinel and returns that answer; a fault and a sentinel both
    cost one attempt and are followed by the same pause; when every attempt
    fails it returns [(False, None)]; it never raises. *)
Definition retry_contract {Dev : Type} `{BLESUL Dev} `{Constant}
    (method : Dev -> res response * Dev) (ev : event)
    (robust : nat -> Q -> Py.M Dev (bool * response)) : Prop :=
  forall (max_retries : nat) (retry_delay : Q) (w : world Dev),
    let os := outcomes method max_retries (ble w) in
    (forall (k : nat) (v : response),
        nth_error os k = Some (Val v) ->
        PairingTester.is_ERROR v = false ->
        forallb attempt_failed (firstn k os) = true ->
        exists w',
          robust max_retries retry_delay w = (Val (true, v), w')
          /\ trace w' = (trace w ++ retry_trace ev retry_delay (S k))%list
          /\ ble w' = after_calls method (S k) (ble w))
    /\ (forallb attempt_failed os = true ->
        exists w',
          robust max_retries retry_delay w = (Val (false, None), w')
          /\ trace w' = (trace w ++ retry_trace ev retry_delay max_retries)%list
          /\ ble w' = after_calls method max_retries (ble w))
    /\ (exists r w', robust max_retries retry_delay w = (Val r, w')).

(** ** Concrete sessions *)

(** the device answers every connection request with the error sentinel *)
Definition silent_script : script :=
  mk_script (repeat (Val (Some "Error")) 7) [] [] [].

(** the engine raises on every connection request *)
Definition faulty_script : script :=
  mk_script (repeat (Exc (CollaboratorFault "serial port closed")) 7) [] [] [].

(** the device answers every connection request with a feature response and
    the fuzzed length request with a length response *)
Definition healthy_script : script :=
  mk_script (repeat (Val (Some "BTLE_DATA / LL_FEATURE_RSP")) 8) []
    [Val (Some "BTLE_DATA / LL_LENGTH_RSP")] [].

(** a fault, then the sentinel, then an answer *)
Definition flaky_script : script :=
  mk_script
    [Exc (CollaboratorFault "timeout"); Val (Some "Error"); Val (Some "BTLE_ADV")]
    [Exc (CollaboratorFault "timeout"); Val (Some "Error"); Val (Some "BTLE_ADV")]
    [] [].

(** a session in which an earlier campaign has made one successful connection *)
Definition later_world (s : script) : world script :=
  mk_world s [] (mk_stats 1 1 0) [] false [].

Definition is_connection_request (ev : event) : bool :=
  match ev with EvConnectionRequest => true | _ => false end.

Definition sample_entries : list recovery_entry :=
  [ mk_entry 1 "success" None None; mk_entry 2 "failed" None None;
    mk_entry 3 "success" None None; mk_entry 4 "exception" None (Some "timeout");
    mk_entry 5 "failed" None None; mk_entry 6 "success" None None;
    mk_entry 7 "failed" None None ].

(** ** Vocabulary for the further properties *)

(** every character of [s] satisfies [p] *)
Fixpoint all_chars (p : ascii -> bool) (s : string) : bool :=
  match s with
  | EmptyString => true
  | String c rest => p c && all_chars p rest
  end.

(** a token of the pattern: [0x] and two to four hexadecimal digits *)
Definition hex_token (m : string) : Prop :=
  exists digits,
    m = "0x" ++ digits
    /\ 2 <= String.length digits <= 4
    /\ all_chars PyStr.is_hex_digit digits = true.

(** [c] is a decimal digit *)
Definition is_digit (c : ascii) : bool :=
  let n := nat_of_ascii c in (48 <=? n) && (n <=? 57).

(** the record of a recovery probe, from the answer of the engine *)
Definition probe_entry `{Constant} (i : nat) (o : res response) : recovery_entry :=
  match o with
  | Val resp => mk_entry (i + 1) "failed" (Some (recovery_analysis i resp)) None
  | Exc e => mk_entry (i + 1) "exception" None (Some (exn_message e))
  end.

(** the records of the probes numbered from [i] on *)
Fixpoint probe_entries `{Constant} (i : nat) (os : list (res response))
  : list recovery_entry :=
  match os with
  | [] => []
  | o :: rest => probe_entry i o :: probe_entries (S i) rest
  end.

(** the pauses and calls of [n] recovery probes *)
Fixpoint probe_trace (n : nat) : list event :=
  match n with
  | O => []
  | S k => EvSleep 4 :: EvConnectionRequest :: probe_trace k
  end.

(** the result of Phase 2, from the answer of the engine to the fuzzed
    length request *)
Definition length_request_result `{Constant} (max_rx : Z) (o : res response)
  : test_result :=
  match o with
  | Val resp =>
      let a := fst (Analyzer.classify resp "length_request"
                      (Some ("attack_max_rx_" ++ PyStr.str_of_Z max_rx))) in
      mk_test_result "length_vulnerability" max_rx None None (Some a)
        (Some (0 <? length (vulnerability_hints a))) None None None None
  | Exc e =>
      mk_test_result "length_vulnerability" max_rx (Some "exception") None None None
        (Some (exn_message e)) None None None
  end.

(** ** [analyze_test_results]

    The function prints; what is kept is the two lists it builds and which of
    the three assessments it prints. *)

Inductive assessment :=
| SecurityVulnerabilitiesFound
| AbnormalBehaviorFound
| DeviceSecurityGood.

Record vulnerability_entry := mk_vulnerability_entry {
  v_test : string;
  v_max_rx_bytes : Z;
  v_status : string
}.

(** the loop over [test_results] *)
Fixpoint collect_findings (test_results : list test_result)
    (vulnerabilities_found : list vulnerability_entry) (warnings : list string)
  : list vulnerability_entry * list string :=
  match test_results with
  | [] => (vulnerabilities_found, warnings)
  | r :: rest =>
      let vulnerabilities_found :=
        match vulnerability r with
        | Some vuln_status =>
            if PyStr.contains "Confirmed" vuln_status
               || PyStr.contains "Suspected" vuln_status
            then (vulnerabilities_found
                    ++ [mk_vulnerability_entry (test r) (max_rx_bytes r) vuln_status])%list
            else vulnerabilities_found
        | None => vulnerabilities_found
        end in
      let warnings :=
        match recovery_tests r with
        | Some recovery_tests =>
            let successful := SmartBLETester.successful_recoveries recovery_tests in
            if successful =? 0
            then (warnings ++ [(test r ++ ": Device completely unresponsive")%string])%list
            else if successful <? length recovery_tests
            then (warnings ++ [(test r ++ ": Device partially recovered")%string])%list
            else warnings
        | None => warnings
        end in
      collect_findings rest vulnerabilities_found warnings
  end.

Definition analyze_test_results (test_results : list test_result) : assessment :=
  let (vulnerabilities_found, warnings) := collect_findings test_results [] [] in
  if Analyzer.nonempty vulnerabilities_found then SecurityVulnerabilitiesFound
  else if Analyzer.nonempty warnings then AbnormalBehaviorFound
  else DeviceSecurityGood.

(** a result as [test_length_vulnerability] builds it: the early return, or a
    result completed by the verdict *)
Definition from_campaign (r : test_result) : Prop :=
  r = SmartBLETester.failed_pre_connection (max_rx_bytes r)
  \/ exists r0 entries, r = SmartBLETester.judge r0 entries.

Definition is_finding (r : test_result) : bool :=
  match overall_result r with
  | Some o => String.eqb o "device_crashed" || String.eqb o "partial_recovery"
  | None => false
  end.

(** ** More Python string primitives, for the command lines and the serial
    port *)

Module PyStrMore.

Definition upper_ascii (c : ascii) : ascii :=
  let n := nat_of_ascii c in
  if (97 <=? n) && (n <=? 122) then ascii_of_nat (n - 32) else c.

(** [s.upper()] on ASCII text: the letters [a] to [z] are mapped, every other
    character is kept.  (Python also maps letters outside ASCII, some of them
    to more than one character; those are outside the embedding.) *)
Fixpoint upper (s : string) : string :=
  match s with
  | EmptyString => EmptyString
  | String c rest => String (upper_ascii c) (upper rest)
  end.

(** [s.isascii()]: every character has a code below 128 *)
Definition isascii (s : string) : bool :=
  all_chars (fun c => nat_of_ascii c <? 128) s.

(** [s.replace(old, new)] for one-character [old] and [new] *)
Fixpoint replace_char (old new : ascii) (s : string) : string :=
  match s with
  | EmptyString => EmptyString
  | String c rest =>
      String (if Ascii.eqb c old then new else c) (replace_char old new rest)
  end.

(** [s.endswith(suffix)] *)
Fixpoint endswith (s suffix : string) : bool :=
  if String.eqb s suffix then true
  else match s with
       | EmptyString => false
       | String _ rest => endswith rest suffix
       end.

(** [s.startswith(p)] *)
Definition startswith (s p : string) : bool := prefix p s.

(** [s.isdigit()]: not empty, decimal digits only *)
Definition isdigit (s : string) : bool :=
  PyStr.truthy s && all_chars is_digit s.

(** [''.join(filter(str.isdigit, s))] *)
Fixpoint digits_of (s : string) : string :=
  match s with
  | EmptyString => EmptyString
  | String c rest => if is_digit c then String c (digits_of rest) else digits_of rest
  end.

End PyStrMore.

(** ** The command lines *)

(** a string, character by character *)
Fixpoint map_chars (f : ascii -> ascii) (s : string) : string :=
  match s with
  | EmptyString => EmptyString
  | String c rest => String (f c) (map_chars f rest)
  end.

(** [c] is a lower-case letter *)
Definition is_lower (c : ascii) : bool :=
  let n := nat_of_ascii c in (97 <=? n) && (n <=? 122).

(** a character a normalised address can have: no dash, no lower-case letter *)
Definition address_char_ok (c : ascii) : bool :=
  negb (Ascii.eqb c "-") && negb (is_lower c).

(** what the normalisation of an address does to one character *)
Definition address_char (c : ascii) : ascii :=
  if Ascii.eqb (PyStrMore.upper_ascii c) "-" then ":"%char
  else PyStrMore.upper_ascii c.

(** [sys.argv[2].upper().replace('-', ':')], in both [main] functions; exact
    for an ASCII argument (see [PyStrMore.upper]) *)
Definition normalize_address (arg : string) : string :=
  PyStrMore.replace_char "-" ":" (PyStrMore.upper arg).

(** the capture file name of [main] in [pairing_max_key_size_test.py]:
    [arg] is [sys.argv[3]] when it is given *)
Definition pairing_pcap_filename (arg : option string) (ble_address : string) : string :=
  match arg with
  | Some pcap_filename =>
      if negb (PyStrMore.endswith pcap_filename ".pcap")
      then pcap_filename ++ ".pcap"
      else pcap_filename
  | None =>
      "pairing_test_" ++ PyStrMore.replace_char ":" "_" ble_address ++ ".pcap"
  end.

(** the file name [SmartBLETester.save_pcap] hands to the engine;
    [timestamp] is the formatted current time *)
Definition smart_pcap_filename (filename : option string) (timestamp : string) : string :=
  let filename :=
    match filename with
    | None => "ble_smart_test_" ++ timestamp
    | Some f => f
    end in
  if negb (PyStrMore.endswith filename ".pcap") then filename ++ ".pcap" else filename.

(** ** [EnhancedBLEPairingTester]: the serial port and the pairing tests *)

(** [_fix_serial_port]; [system] is the value of [platform.system()] *)
Definition _fix_serial_port (system port : string) : string :=
  if String.eqb system "Windows" then
    if PyStrMore.isdigit port then "COM" ++ port
    else if negb (PyStrMore.startswith (PyStrMore.upper port) "COM") then "COM" ++ port
    else PyStrMore.upper port
  else if String.eqb system "Linux" then
    if PyStrMore.startswith (PyStrMore.upper port) "COM"
    then "/dev/ttyACM" ++ PyStrMore.digits_of port
    else port
  else port.

(** a response object of the security manager: a [str], or another object
    with its [str()] *)
Inductive py_value :=
| PyString (s : string)
| PyObject (text : string).

(** the pairing method of [FuzzingBLESUL] *)
Class BLESUL_SM (Dev : Type) := {
  pairing_request_fuzzed : fuzzed_param -> Dev -> res (option py_value) * Dev
}.

(** the dictionary returned with the verdict of [robust_pairing_test]; the
    key [pairing_response] is absent from the early returns *)
Record pairing_details := mk_pairing_details {
  scan_success : bool;
  connect_success : bool;
  pairing_response : option (option py_value)
}.

(** [test_stats] of [run_comprehensive_pairing_test] *)
Record test_stats := mk_test_stats {
  total_tests : nat;
  successful_tests : nat;
  failed_tests : nat;
  scan_failures : nat;
  connect_failures : nat;
  pairing_rejections : nat;
  no_response : nat
}.

Module PairingTest.
Import Py PairingTester.
Local Open Scope py_scope.

(** step 5 of [robust_pairing_test]: does the response count as an accepted
    pairing *)
Definition response_accepted (pairing_response : option py_value) : bool :=
  match pairing_response with
  | None => false
  | Some (PyString s) =>
      if PyStr.contains "SM_Pairing_Response" s then true
      else existsb (fun keyword => PyStr.contains keyword s)
             ["Pairing"; "pairing"; "Security"]
  | Some (PyObject resp_text) =>
      PyStr.contains "SM_Pairing_Response" resp_text
      || PyStr.contains "Pairing_Response" resp_text
  end.

(** [non_standard] in [main] *)
Definition non_standard (accepted_sizes : list Z) : list Z :=
  filter (fun size => (size <? 7)%Z || (size >? 16)%Z) accepted_sizes.

Section Tester.
Context {Dev : Type} `{BLESUL Dev} `{BLESUL_SM Dev} `{Constant}.

(** the call of the pairing method; the trace has no entry for it *)
Definition ble_pairing_request_fuzzed (p : fuzzed_param) : M Dev (option py_value) :=
  fun w => let (r, d) := pairing_request_fuzzed p (ble w) in
           (r, mk_world d (trace w) (connection_stats w) (protocol_analysis w)
                 (elapsed_time_assigned w) (recovery_results w)).

Definition robust_pairing_test (key_size : Z) (max_scan_retries max_connect_retries : nat)
  : M Dev (bool * pairing_details) :=
  (* 1. scan *)
  s <- robust_scan max_scan_retries 1 ;;
  let '(scan_ok, scan_result) := s in
  if negb scan_ok then ret (false, mk_pairing_details false false None)
  else
    (* 2. connect *)
    c <- robust_connect max_connect_retries 1 ;;
    let '(connect_ok, connect_result) := c in
    if negb connect_ok then ret (false, mk_pairing_details true false None)
    else
      (* 3. wait *)
      sleep (1#2) ;;
      (* 4. and 5. pairing request and check, 6. disconnect in [finally] *)
      x <- try_except
             (let key_size_param := FuzzedParam "max_key_size" key_size in
              response <- ble_pairing_request_fuzzed key_size_param ;;
              sleep 2 ;;
              ret (response_accepted response, response))
             (fun e => ret (false, None)) ;;
      try_except
        (ble_termination_indication ;;
         sleep (3#10))
        (fun e => ret tt) ;;
      let '(pairing_accepted, response) := x in
      ret (pairing_accepted, mk_pairing_details true true (Some response)).

(** the update of the statistics after one test *)
Definition count_test (current_key_size : Z) (pairing_accepted : bool)
    (test_details : pairing_details) (accepted_key_sizes : list Z) (st : test_stats)
  : list Z * test_stats :=
  if negb (scan_success test_details) then
    (accepted_key_sizes,
     mk_test_stats (total_tests st) (successful_tests st) (failed_tests st + 1)
       (scan_failures st + 1) (connect_failures st) (pairing_rejections st)
       (no_response st))
  else if negb (connect_success test_details) then
    (accepted_key_sizes,
     mk_test_stats (total_tests st) (successful_tests st) (failed_tests st + 1)
       (scan_failures st) (connect_failures st + 1) (pairing_rejections st)
       (no_response st))
  else if pairing_accepted then
    ((accepted_key_sizes ++ [current_key_size])%list,
     mk_test_stats (total_tests st) (successful_tests st + 1) (failed_tests st)
       (scan_failures st) (connect_failures st) (pairing_rejections st)
       (no_response st))
  else
    (accepted_key_sizes,
     mk_test_stats (total_tests st) (successful_tests st) (failed_tests st + 1)
       (scan_failures st) (connect_failures st) (pairing_rejections st + 1)
       (no_response st)).

(** [while current_key_size >= end_key_size]; [None] is returned when [fuel]
    passes through the loop do not reach its end *)
Fixpoint pairing_loop (fuel : nat) (current_key_size end_key_size : Z)
    (accepted_key_sizes : list Z) (st : test_stats)
  : M Dev (option (list Z * test_stats)) :=
  if (current_key_size >=? end_key_size)%Z then
    match fuel with
    | O => ret None
    | S fuel' =>
        let st := mk_test_stats (total_tests st + 1) (successful_tests st)
                    (failed_tests st) (scan_failures st) (connect_failures st)
                    (pairing_rejections st) (no_response st) in
        t <- robust_pairing_test current_key_size 7 7 ;;
        let '(pairing_accepted, test_details) := t in
        let '(accepted_key_sizes, st) :=
          count_test current_key_size pairing_accepted test_details
            accepted_key_sizes st in
        (if (current_key_size >? end_key_size)%Z then sleep 2 else ret tt) ;;
        pairing_loop fuel' (current_key_size - 1)%Z end_key_size accepted_key_sizes st
    end
  else ret (Some (accepted_key_sizes, st)).

Definition run_comprehensive_pairing_test (start_key_size end_key_size : Z)
  : M Dev (option (list Z * test_stats)) :=
  let '(start_key_size, end_key_size) :=
    if (start_key_size <? end_key_size)%Z then (end_key_size, start_key_size)
    else (start_key_size, end_key_size) in
  pairing_loop (Z.to_nat (start_key_size - end_key_size + 1)) start_key_size
    end_key_size [] (mk_test_stats 0 0 0 0 0 0 0).

End Tester.
End PairingTest.

Definition is_termination_indication (ev : event) : bool :=
  match ev with EvTerminationIndication => true | _ => false end.

(** ** More concrete sessions *)

(** a fault, then the sentinel, then a version indication; the fuzzed length
    request gets no answer text *)
Definition contested_script : script :=
  mk_script
    [ Exc (CollaboratorFault "timeout"); Val (Some "Error");
      Val (Some "BTLE_DATA / LL_VERSION_IND") ]
    [] [Val (Some "Empty")] [].

(** a security manager that answers every pairing request with a pairing
    response *)
#[export] Instance scripted_BLESUL_SM : BLESUL_SM script := {
  pairing_request_fuzzed _ s := (Val (Some (PyString "SM_Pairing_Response")), s)
}.

(** scanning works at once, connecting never does *)
Definition unreachable_script : script :=
  mk_script (repeat (Val (Some "Error")) 14) [] [] [].

(** the device answers the first connection request; from then on every call
    of the engine raises *)
Definition lost_script : script :=
  mk_script
    (Val (Some "BTLE_DATA / LL_FEATURE_RSP")
       :: repeat (Exc (CollaboratorFault "serial port closed")) 14)
    []
    [Exc (CollaboratorFault "serial port closed")]
    [].

(** * Properties *)

Module AnalyzerFacts.
Import PyStr Analyzer.

Lemma first_match_some (xs : list string) (text x : string) :
  In x xs -> contains x text = true -> exists y, first_match xs text = Some y.
Proof.
  induction xs as [|z zs IH]; simpl; [tauto|].
  intros [-> | Hin] Hc.
  - rewrite Hc. eauto.
  - destruct (contains z text); eauto.
Qed.

Lemma first_match_in (xs : list string) (text y : string) :
  first_match xs text = Some y -> In y xs /\ contains y text = true.
Proof.
  induction xs as [|z zs IH]; simpl; [discriminate|].
  destruct (contains z text) eqn:E.
  - intros [= <-]. auto.
  - intros Hm. destruct (IH Hm). auto.
Qed.

Section WithConstant.
Context `{Constant}.

Lemma classify_status (text op : string) (ctx : option string) :
  status (fst (classify (Some text) op ctx))
  = final_status_of (_analyze_by_operation text op) (_extract_error_codes text).
Proof.
  unfold classify, final_status_of.
  destruct (_analyze_by_operation text op) as [st si wi vh].
  destruct (nonempty (_extract_error_codes text)); cbn [fst update initial_analysis r_status r_success_indicators r_warning_indicators status is_error set_status set_recommended_action _determine_final_status success_indicators warning_indicators];
  destruct (negb (truthy st) || String.eqb st "unknown"); reflexivity.
Qed.

Lemma classify_is_error (text op : string) (ctx : option string) :
  is_error (fst (classify (Some text) op ctx))
  = nonempty (_extract_error_codes text).
Proof.
  unfold classify.
  destruct (_analyze_by_operation text op) as [st si wi vh].
  destruct (nonempty (_extract_error_codes text));
    cbn [fst update initial_analysis r_status status is_error set_status
         set_recommended_action];
    destruct (negb (truthy st) || String.eqb st "unknown"); reflexivity.
Qed.

Lemma classify_lists (text op : string) (ctx : option string) :
  let a := fst (classify (Some text) op ctx) in
  let r := _analyze_by_operation text op in
  success_indicators a = r_success_indicators r
  /\ warning_indicators a = r_warning_indicators r
  /\ vulnerability_hints a
     = (match r_vulnerability_hints r with Some h => h | None => [] end
          ++ _detect_vulnerability_hints text op ctx)%list.
Proof.
  unfold classify.
  destruct (_analyze_by_operation text op) as [st si wi vh].
  destruct (nonempty (_extract_error_codes text));
    cbn [fst update initial_analysis r_status status is_error set_status
         set_recommended_action];
    destruct (negb (truthy st) || String.eqb st "unknown");
    destruct vh; cbn; auto.
Qed.

Lemma connection_status (text : string) :
  In (r_status (_analyze_connection_response text))
     [ "success"; "partial_success"; "error"; "unknown" ].
Proof.
  unfold _analyze_connection_response.
  set (m1 := first_match CONNECTION_SUCCESS_INDICATORS text).
  set (m2 := first_match CONNECTION_FAILURE_INDICATORS text).
  set (m3 := first_match (map fst LL_CONNECTION_PDUS) text).
  set (b := contains "BTLE" text || contains "BLE" text).
  clearbody m1 m2 m3 b.
  destruct m1, m2, m3, b; cbn; auto 6.
Qed.

Lemma length_status (text : string) :
  In (r_status (_analyze_length_response text))
     [ "success"; "partial_success"; "error"; "no_response"; "unknown" ].
Proof.
  unfold _analyze_length_response.
  repeat match goal with
         | |- context [if ?b then _ else _] => destruct b
         end; cbn; auto 8.
Qed.

Lemma analyze_by_operation_status (text op : string) :
  In (r_status (_analyze_by_operation text op)) op_statuses.
Proof.
  unfold _analyze_by_operation, op_statuses.
  destruct (String.eqb op "connection_request").
  { pose proof (connection_status text) as Hc. cbn in Hc |- *. intuition. }
  destruct (String.eqb op "scan_req").
  { repeat match goal with
           | |- context [if ?b then _ else _] => destruct b
           end; cbn; auto 8. }
  destruct (String.eqb op "length_request").
  { pose proof (length_status text) as Hc. cbn in Hc |- *. intuition. }
  repeat match goal with
         | |- context [if ?b then _ else _] => destruct b
         end; cbn; auto 10.
Qed.
End WithConstant.
End AnalyzerFacts.

Section ClassifierClaims.
Import PyStr Analyzer AnalyzerFacts.
Context `{Constant}.

Lemma connection_first_match (text ind : string) :
  first_match CONNECTION_SUCCESS_INDICATORS text = Some ind ->
  _analyze_connection_response text
  = mk_op_result "success"
      (("Found connection success indicator: " ++ ind)
         :: (if String.eqb ind "LL_SLAVE_FEATURE_REQ"
             then ["Link Layer Feature Request - Connection established successfully"]
             else []))
      [] None.
Proof.
  intros Hm. unfold _analyze_connection_response. rewrite Hm.
  set (m2 := first_match CONNECTION_FAILURE_INDICATORS text).
  set (m3 := first_match (map fst LL_CONNECTION_PDUS) text).
  set (b := contains "BTLE" text || contains "BLE" text).
  clearbody m2 m3 b. reflexivity.
Qed.

(** success indicators are scanned first: a failure token elsewhere in the
    text does not change the outcome *)
Lemma success_indicators_take_priority (text : string) (ctx : option string) :
  (exists ind, In ind CONNECTION_SUCCESS_INDICATORS /\ contains ind text = true) ->
  exists ind,
    first_match CONNECTION_SUCCESS_INDICATORS text = Some ind
    /\ status (fst (classify (Some text) "connection_request" ctx)) = "success"
    /\ success_indicators (fst (classify (Some text) "connection_request" ctx))
       = ("Found connection success indicator: " ++ ind)
           :: (if String.eqb ind "LL_SLAVE_FEATURE_REQ"
               then ["Link Layer Feature Request - Connection established successfully"]
               else []).
Proof.
  intros (ind & Hin & Hc).
  destruct (first_match_some _ _ _ Hin Hc) as (y & Hy).
  exists y. split; [exact Hy|].
  pose proof (connection_first_match _ _ Hy) as Hr.
  assert (Hop : _analyze_by_operation text "connection_request"
                = _analyze_connection_response text) by reflexivity.
  split.
  - rewrite classify_status, Hop, Hr. reflexivity.
  - destruct (classify_lists text "connection_request" ctx) as (Hs & _).
    cbv zeta in Hs. rewrite Hs, Hop, Hr. reflexivity.
Qed.

Lemma feature_req_is_first_match (text : string) :
  first_match CONNECTION_SUCCESS_INDICATORS text = Some "LL_SLAVE_FEATURE_REQ"
  <-> contains "LL_SLAVE_FEATURE_REQ" text = true.
Proof.
  split.
  - intros Hm. apply first_match_in in Hm. tauto.
  - intros Hc. unfold CONNECTION_SUCCESS_INDICATORS. cbn [first_match].
    rewrite Hc. reflexivity.
Qed.

(** C1.  For a connection attempt, the success indicators are scanned
    first: a response text that contains one of them (the feature-request
    token [LL_SLAVE_FEATURE_REQ] included) and no failure token is
    classified [success], the first matching indicator is reported, and
    when it is the feature-request token the special annotation follows
    it. *)
Theorem connection_success_is_recognised (text : string) (ctx : option string) :
  (exists ind, In ind CONNECTION_SUCCESS_INDICATORS /\ contains ind text = true) ->
  (forall tok, In tok CONNECTION_FAILURE_INDICATORS -> contains tok text = false) ->
  let a := fst (classify (Some text) "connection_request" ctx) in
  status a = "success"
  /\ (exists ind,
        first_match CONNECTION_SUCCESS_INDICATORS text = Some ind
        /\ hd_error (success_indicators a)
           = Some ("Found connection success indicator: " ++ ind))
  /\ (contains "LL_SLAVE_FEATURE_REQ" text = true ->
      first_match CONNECTION_SUCCESS_INDICATORS text = Some "LL_SLAVE_FEATURE_REQ"
      /\ success_indicators a
         = [ "Found connection success indicator: LL_SLAVE_FEATURE_REQ";
             "Link Layer Feature Request - Connection established successfully" ]).
Proof.
  intros Hs _ a.
  destruct (success_indicators_take_priority text ctx Hs) as (ind & Hm & Hst & Hsi).
  subst a. split; [exact Hst|]. split.
  - exists ind. split; [exact Hm|]. rewrite Hsi. reflexivity.
  - intros Hf. apply feature_req_is_first_match in Hf.
    split; [exact Hf|].
    rewrite Hf in Hm. injection Hm as <-. rewrite Hsi. reflexivity.
Qed.
End ClassifierClaims.

(** C1 on a link-layer response carrying the feature request *)
Lemma connection_success_is_recognised_witness :
  let text := "BTLE_DATA / BTLE_CTRL / LL_SLAVE_FEATURE_REQ" in
  let a := fst (@Analyzer.classify sample_constant (Some text) "connection_request"
                  (Some "attempt_1")) in
  status a = "success"
  /\ success_indicators a
     = [ "Found connection success indicator: LL_SLAVE_FEATURE_REQ";
         "Link Layer Feature Request - Connection established successfully" ].
Proof.
  intros text a.
  destruct (@connection_success_is_recognised sample_constant text (Some "attempt_1"))
    as (Hst & _ & Hf).
  - exists "LL_SLAVE_FEATURE_REQ". split; [simpl; tauto | vm_compute; reflexivity].
  - intros tok Hin. simpl in Hin.
    repeat (destruct Hin as [<- | Hin]; [vm_compute; reflexivity|]).
    destruct Hin.
  - split; [exact Hst|]. apply Hf. vm_compute. reflexivity.
Defined.

Section ClassifierClaims2.
Import PyStr Analyzer AnalyzerFacts.
Context `{Constant}.

(** C2.  A missing response is classified at once, whatever the operation:
    the status is [no_response], [is_error] is set, the recommended action
    is the fixed one, and nothing else happens (no indicator, no hint, no
    entry in the analyzer's history, the session is unchanged). *)
Theorem absent_response_short_circuits {Dev : Type} `{BLESUL Dev}
    (op : string) (ctx : option string) (w : world Dev) :
  exists a,
    intelligent_analyze_response None op ctx w = (Val a, w)
    /\ a = fst (classify None op ctx)
    /\ status a = "no_response"
    /\ is_error a = true
    /\ error_details a = [ErrText "No response from device"]
    /\ recommended_action a = Some "Check if device is online or restart the device"
    /\ success_indicators a = []
    /\ warning_indicators a = []
    /\ vulnerability_hints a = [].
Proof.
  eexists. split; [reflexivity|].
  repeat split.
Qed.

(** C3, as amended.  When an error code was extracted ([is_error] is
    true), the final status is [error] if the operation-specific analysis
    left the status [unknown]; any status that analysis did set (success,
    partial_success, but also error, no_response, rejected and
    unknown_response) is kept. *)
Theorem error_code_forces_error_only_when_undetermined
    (text op : string) (ctx : option string) :
  let a := fst (classify (Some text) op ctx) in
  let r := _analyze_by_operation text op in
  is_error a = true ->
  (r_status r = "unknown" -> status a = "error")
  /\ (r_status r <> "unknown" -> status a = r_status r).
Proof.
  intros a r He. subst a r.
  rewrite classify_is_error in He.
  rewrite classify_status. unfold final_status_of. rewrite He.
  pose proof (analyze_by_operation_status text op) as Hin.
  split.
  - intros ->. reflexivity.
  - intros Hne. unfold op_statuses in Hin. cbn [In] in Hin.
    destruct Hin as [E|[E|[E|[E|[E|[E|[E|[]]]]]]]]; rewrite <- E in *;
      try reflexivity.
    congruence.
Qed.

(** C6, as amended.  A response to a length request whose text has a
    zero-valued receive or transmit byte count always gets a vulnerability
    hint; when the text also carries the length-response marker
    [LL_LENGTH_RSP] the status is [success], the zero-value warning is
    recorded and the second hint is present. *)
Theorem zero_length_field_gives_hint (text : string) (ctx : option string) :
  has_zero_length_field text = true ->
  let a := fst (classify (Some text) "length_request" ctx) in
  vulnerability_hints a <> []
  /\ In "Device accepts zero value length parameters - potential protocol stack vulnerability"
       (vulnerability_hints a)
  /\ (contains "LL_LENGTH_RSP" text = true ->
      status a = "success"
      /\ success_indicators a = ["Received length response"]
      /\ warning_indicators a
         = ["Length response contains zero value - may not comply with specifications"]
      /\ In "SweynTooth-like vulnerability: zero length response"
           (vulnerability_hints a)).
Proof.
  intros Hz a. subst a.
  destruct (classify_lists text "length_request" ctx) as (Hs & Hw & Hv).
  cbv zeta in Hs, Hw, Hv.
  assert (Hop : _analyze_by_operation text "length_request"
                = _analyze_length_response text) by reflexivity.
  rewrite Hop in *.
  assert (Hd : In "Device accepts zero value length parameters - potential protocol stack vulnerability"
                 (_detect_vulnerability_hints text "length_request" ctx)).
  { unfold _detect_vulnerability_hints.
    change (String.eqb "length_request" "length_request") with true.
    cbv iota. rewrite Hz.
    apply in_or_app. left. apply in_or_app. right. left. reflexivity. }
  assert (Hin : In "Device accepts zero value length parameters - potential protocol stack vulnerability"
                  (vulnerability_hints (fst (classify (Some text) "length_request" ctx)))).
  { rewrite Hv. apply in_or_app. right. exact Hd. }
  split; [|split].
  - intros E. rewrite E in Hin. destruct Hin.
  - exact Hin.
  - intros Hl.
    assert (Hr : _analyze_length_response text
                 = mk_op_result "success" ["Received length response"]
                     ["Length response contains zero value - may not comply with specifications"]
                     (Some ["SweynTooth-like vulnerability: zero length response"])).
    { unfold _analyze_length_response. rewrite Hl, Hz. reflexivity. }
    rewrite classify_status, Hop, Hs, Hw, Hv, Hr.
    repeat split. left. reflexivity.
Qed.

Lemma classify_status_in (resp : response) (op : string) (ctx : option string) :
  In (status (fst (classify resp op ctx))) final_statuses.
Proof.
  destruct resp as [text|]; [|cbn; auto 10].
  rewrite classify_status. unfold final_status_of.
  pose proof (analyze_by_operation_status text op) as Hin.
  unfold op_statuses in Hin. cbn [In] in Hin.
  destruct Hin as [E|[E|[E|[E|[E|[E|[E|[]]]]]]]]; rewrite <- E;
    try (cbn; auto 10; fail).
  cbn [truthy negb orb String.eqb Ascii.eqb Bool.eqb].
  repeat match goal with
         | |- context [if ?b then _ else _] => destruct b
         end; cbn; auto 10.
Qed.

(** C7, as amended.  The status of a classified response is one of eight
    values: success, partial_success, warning, error, no_response, unknown,
    and also rejected and unknown_response.  The status code is 0 for
    success up to 5 for unknown, one code per status among the first six;
    rejected and unknown_response get the code 5 as well. *)
Theorem status_is_one_of_eight (resp : response) (op : string) (ctx : option string) :
  let a := fst (classify resp op ctx) in
  In (status a) final_statuses
  /\ print_analysis a <= 5
  /\ (print_analysis a = 0 <-> status a = "success")
  /\ (print_analysis a = 1 <-> status a = "partial_success")
  /\ (print_analysis a = 2 <-> status a = "warning")
  /\ (print_analysis a = 3 <-> status a = "error")
  /\ (print_analysis a = 4 <-> status a = "no_response")
  /\ (print_analysis a = 5 <->
      status a = "unknown" \/ status a = "rejected" \/ status a = "unknown_response").
Proof.
  intros a. pose proof (classify_status_in resp op ctx) as Hin.
  fold a in Hin. split; [exact Hin|].
  unfold print_analysis. unfold final_statuses in Hin. cbn [In] in Hin.
  destruct Hin as [E|[E|[E|[E|[E|[E|[E|[E|[]]]]]]]]]; rewrite <- E; cbn;
    repeat split; try lia; try discriminate; try tauto;
    try (intros [?|[?|?]]; discriminate); auto.
Qed.
End ClassifierClaims2.

(** C3 fails as stated: an error code is extracted, the operation-specific
    status is neither success nor partial_success, and the final status is
    not [error] *)
Lemma error_code_does_not_force_error :
  let a := fst (@Analyzer.classify sample_constant (Some "0x12") "mtu_request" None) in
  let r := @Analyzer._analyze_by_operation sample_constant "0x12" "mtu_request" in
  is_error a = true
  /\ error_details a = [ErrCode "0x12" 18 "Invalid HCI Command Parameters"]
  /\ r_status r = "unknown_response"
  /\ status a = "unknown_response"
  /\ status a <> "error".
Proof.
  vm_compute. repeat split. discriminate.
Qed.

(** C3 as amended, on a text with an error code and an operation without a
    specific analysis *)
Lemma error_code_forces_error_only_when_undetermined_witness :
  let a := fst (@Analyzer.classify sample_constant (Some "status 0x3e")
                  "post_attack_connection" None) in
  is_error a = true /\ status a = "error".
Proof.
  intros a.
  assert (He : is_error a = true) by (vm_compute; reflexivity).
  destruct (@error_code_forces_error_only_when_undetermined sample_constant
              "status 0x3e" "post_attack_connection" None He) as (Hu & _).
  split; [exact He|].
  exact (Hu ltac:(vm_compute; reflexivity)).
Defined.

(** C6 fails as stated: a zero-valued field without the length-response
    marker *)
Lemma zero_length_field_without_marker :
  let a := fst (@Analyzer.classify sample_constant (Some "max_rx_bytes=0")
                  "length_request" None) in
  Analyzer.has_zero_length_field "max_rx_bytes=0" = true
  /\ status a = "unknown"
  /\ status a <> "success"
  /\ warning_indicators a = [].
Proof.
  vm_compute. repeat split. discriminate.
Qed.

(** C6 as amended, on a length response with a zero receive count *)
Lemma zero_length_field_gives_hint_witness :
  let text := "BTLE_DATA / LL_LENGTH_RSP max_rx_bytes=0 max_tx_bytes=27" in
  let a := fst (@Analyzer.classify sample_constant (Some text) "length_request"
                  (Some "attack_max_rx_0")) in
  Analyzer.has_zero_length_field text = true
  /\ vulnerability_hints a <> []
  /\ status a = "success".
Proof.
  intros text a.
  assert (Hz : Analyzer.has_zero_length_field text = true) by (vm_compute; reflexivity).
  destruct (@zero_length_field_gives_hint sample_constant text (Some "attack_max_rx_0") Hz)
    as (Hne & _ & Hl).
  split; [exact Hz|]. split; [exact Hne|].
  exact (proj1 (Hl ltac:(vm_compute; reflexivity))).
Defined.

(** C7 fails as stated: a status outside the six values *)
Lemma status_outside_the_six :
  let a := fst (@Analyzer.classify sample_constant (Some "hello") "mtu_request" None) in
  status a = "unknown_response"
  /\ ~ In (status a)
       [ "success"; "partial_success"; "warning"; "error"; "no_response"; "unknown" ].
Proof.
  vm_compute. split; [reflexivity|].
  intros Hin. repeat (destruct Hin as [Hin|Hin]; [discriminate|]). exact Hin.
Qed.

(** ** The verdict of a recovery campaign *)

Section Verdict.
Import SmartBLETester.

Lemma successful_recoveries_le (rs : list recovery_entry) :
  successful_recoveries rs <= length rs.
Proof. unfold successful_recoveries. apply filter_length_le. Qed.

Lemma one_failure_is_counted (rs : list recovery_entry) (e : recovery_entry) :
  In e rs -> entry_status e <> "success" ->
  successful_recoveries rs < length rs.
Proof.
  unfold successful_recoveries.
  induction rs as [|x xs IH]; simpl; [tauto|].
  intros [-> | Hin] Hne.
  - destruct (String.eqb_spec (entry_status e) "success") as [E|_]; [contradiction|].
    pose proof (filter_length_le (fun r => String.eqb (entry_status r) "success") xs).
    lia.
  - specialize (IH Hin Hne).
    destruct (String.eqb (entry_status x) "success"); simpl; lia.
Qed.

Lemma judge_overall (r : test_result) (rs : list recovery_entry) :
  overall_result (judge r rs)
  = Some (if successful_recoveries rs =? 0 then "device_crashed"
          else if successful_recoveries rs <? length rs then "partial_recovery"
          else "full_recovery").
Proof.
  unfold judge.
  destruct (successful_recoveries rs =? 0); [reflexivity|].
  destruct (successful_recoveries rs <? length rs); reflexivity.
Qed.

Lemma judge_recovery_tests (r : test_result) (rs : list recovery_entry) :
  recovery_tests (judge r rs) = Some rs.
Proof.
  unfold judge.
  destruct (successful_recoveries rs =? 0); [reflexivity|].
  destruct (successful_recoveries rs <? length rs); reflexivity.
Qed.

Lemma failure_excludes_full_recovery
    (r : test_result) (rs : list recovery_entry) (e : recovery_entry) :
  In e rs -> entry_status e <> "success" ->
  overall_result (judge r rs) <> Some "full_recovery".
Proof.
  intros Hin Hne. rewrite judge_overall.
  pose proof (one_failure_is_counted rs e Hin Hne) as Hlt.
  destruct (Nat.eqb_spec (successful_recoveries rs) 0); [discriminate|].
  destruct (Nat.ltb_spec (successful_recoveries rs) (length rs)); [discriminate|lia].
Qed.

(** The verdict code by itself (lines 773-783), on any seven recovery
    records: the overall result is a function of the number [S] of records
    whose status is [success]: [device_crashed] for [S = 0],
    [partial_recovery] for [0 < S < 7], [full_recovery] for [S = 7]; one
    record that is not a success rules out [full_recovery]. *)
Lemma recovery_verdict_is_exact (r : test_result) (rs : list recovery_entry) :
  length rs = 7 ->
  let S := successful_recoveries rs in
  let v := judge r rs in
  recovery_tests v = Some rs
  /\ S <= 7
  /\ (S = 0 -> overall_result v = Some "device_crashed")
  /\ (0 < S < 7 -> overall_result v = Some "partial_recovery")
  /\ (S = 7 -> overall_result v = Some "full_recovery")
  /\ ((exists e, In e rs /\ entry_status e <> "success") ->
      overall_result v <> Some "full_recovery").
Proof.
  intros Hlen S v. subst S v.
  pose proof (successful_recoveries_le rs) as Hle.
  rewrite judge_overall, judge_recovery_tests, Hlen in *.
  split; [reflexivity|]. split; [exact Hle|].
  split; [|split; [|split]].
  - intros ->. reflexivity.
  - intros [Hpos Hlt].
    destruct (Nat.eqb_spec (successful_recoveries rs) 0); [lia|].
    destruct (Nat.ltb_spec (successful_recoveries rs) 7); [reflexivity|lia].
  - intros ->. reflexivity.
  - intros (e & Hin & Hne).
    pose proof (one_failure_is_counted rs e Hin Hne) as Hlt. rewrite Hlen in Hlt.
    destruct (Nat.eqb_spec (successful_recoveries rs) 0); [discriminate|].
    destruct (Nat.ltb_spec (successful_recoveries rs) 7); [discriminate|lia].
Qed.

Lemma connection_ok_iff (a : analysis) :
  connection_ok a = true <-> status a = "success" \/ status a = "partial_success".
Proof.
  unfold connection_ok, Analyzer.print_analysis, Analyzer.status_codes.
  cbn [sdict_get].
  destruct (String.eqb_spec "success" (status a)) as [E|N1]; [cbn; intuition|].
  destruct (String.eqb_spec "partial_success" (status a)) as [E|N2]; [cbn; intuition|].
  assert (Hgt : forall n, 1 < n -> (n <=? 1) = true <-> False).
  { intros n Hn. destruct (Nat.leb_spec n 1); [lia|]. split; [discriminate|tauto]. }
  repeat match goal with
         | |- context [if String.eqb ?x ?y then _ else _] => destruct (String.eqb x y)
         end;
    (rewrite Hgt by lia); intuition congruence.
Qed.

Lemma recovery_status_iff (a : analysis) :
  recovery_status a = "success" <-> status a = "success".
Proof.
  unfold recovery_status.
  destruct (String.eqb_spec (status a) "success"); split; intros; congruence.
Qed.
End Verdict.

(** ** Runs of the testers *)

Section Runs.
Import Py SmartBLETester.
Context {Dev : Type} `{BLESUL Dev} `{Constant}.

Lemma analyze_run (resp : response) (op : string) (ctx : option string) (w : world Dev) :
  intelligent_analyze_response resp op ctx w
  = (Val (fst (Analyzer.classify resp op ctx)),
     mk_world (ble w) (trace w) (connection_stats w)
       (protocol_analysis w ++ recorded resp op ctx)
       (elapsed_time_assigned w) (recovery_results w)).
Proof.
  unfold intelligent_analyze_response, recorded.
  destruct (Analyzer.classify resp op ctx) as [a [|]]; destruct w; cbn;
    rewrite ?app_nil_r; reflexivity.
Qed.

(** a reconnection analysed under the operation tag of the recovery probes
    is never classified as a success *)
Lemma post_attack_status (resp : response) (ctx : option string) :
  In (status (fst (Analyzer.classify resp "post_attack_connection" ctx)))
     [ "no_response"; "error"; "unknown" ].
Proof.
  destruct resp as [text|]; [|cbn; auto].
  rewrite AnalyzerFacts.classify_status.
  change (Analyzer._analyze_by_operation text "post_attack_connection")
    with Analyzer.unknown_result.
  unfold final_status_of.
  destruct (Analyzer.nonempty (Analyzer._extract_error_codes text)); cbn; auto.
Qed.

Lemma recovery_status_failed (i : nat) (resp : response) :
  recovery_status (recovery_analysis i resp) = "failed".
Proof.
  unfold recovery_status, recovery_analysis.
  pose proof (post_attack_status resp
                (Some ("recovery_attempt_" ++ PyStr.str_of_nat (i + 1)))) as Hin.
  cbn [In] in Hin.
  destruct Hin as [E|[E|[E|[]]]]; rewrite <- E; reflexivity.
Qed.

(** one pass through the loop of [smart_connection_test] *)
Lemma connection_attempt_run (attempt : nat) (w : world Dev) :
  connection_attempt attempt w
  = match connection_request (ble w) with
    | (Val resp, d) =>
        let a := connection_analysis attempt resp in
        let history := (protocol_analysis w
                          ++ recorded resp "connection_request"
                               (Some ("attempt_" ++ PyStr.str_of_nat attempt)%string))%list in
        if connection_ok a then
          (Val (Some (true, resp, Some a)),
           mk_world d ((trace w ++ [EvConnectionRequest]) ++ [EvSleep (1#2)])
             (incr_successful (incr_total (connection_stats w)))
             history true (recovery_results w))
        else
          (Val None,
           mk_world d (trace w ++ [EvConnectionRequest])
             (incr_failed (incr_total (connection_stats w)))
             history true (recovery_results w))
    | (Exc e, d) =>
        (Val None,
         mk_world d (trace w ++ [EvConnectionRequest])
           (incr_failed (connection_stats w))
           (protocol_analysis w) (elapsed_time_assigned w) (recovery_results w))
    end.
Proof.
  unfold connection_attempt, try_except, bind, ble_connection_request, call.
  destruct (connection_request (ble w)) as [[resp|e] d]; [|reflexivity].
  unfold set_elapsed_time. cbn [ble trace connection_stats protocol_analysis
                                elapsed_time_assigned recovery_results].
  rewrite analyze_run. unfold connection_analysis.
  cbn [ble trace connection_stats protocol_analysis elapsed_time_assigned
       recovery_results modify_stats].
  destruct (connection_ok _); reflexivity.
Qed.

(** one recovery probe *)
Lemma recovery_probe_run (i : nat) (w : world Dev) :
  recovery_probe i w
  = match connection_request (ble w) with
    | (Val resp, d) =>
        (Val tt,
         mk_world d ((trace w ++ [EvSleep 4]) ++ [EvConnectionRequest])
           (connection_stats w)
           (protocol_analysis w
              ++ recorded resp "post_attack_connection"
                   (Some ("recovery_attempt_" ++ PyStr.str_of_nat (i + 1))))
           (elapsed_time_assigned w)
           (recovery_results w
              ++ [mk_entry (i + 1) "failed" (Some (recovery_analysis i resp)) None]))
    | (Exc e, d) =>
        (Val tt,
         mk_world d ((trace w ++ [EvSleep 4]) ++ [EvConnectionRequest])
           (connection_stats w) (protocol_analysis w) (elapsed_time_assigned w)
           (recovery_results w
              ++ [mk_entry (i + 1) "exception" None (Some (exn_message e))]))
    end.
Proof.
  unfold recovery_probe, try_except, bind, sleep, log, ble_connection_request, call.
  cbn [ble trace connection_stats protocol_analysis elapsed_time_assigned
       recovery_results].
  destruct (connection_request (ble w)) as [[resp|e] d]; [|reflexivity].
  rewrite analyze_run.
  cbn [ble trace connection_stats protocol_analysis elapsed_time_assigned
       recovery_results].
  fold (recovery_analysis i resp).
  rewrite recovery_status_failed. reflexivity.
Qed.
End Runs.

Section ConnectionLoop.
Import Py SmartBLETester.
Context {Dev : Type} `{BLESUL Dev} `{Constant}.

Lemma smart_loop_step (r attempt max_retries : nat) (w : world Dev) :
  smart_connection_loop (S r) attempt max_retries w
  = match connection_attempt attempt w with
    | (Val (Some returned), w1) => (Val (Some returned), w1)
    | (Val None, w1) =>
        smart_connection_loop r (S attempt) max_retries
          (if attempt <? max_retries then snd (sleep 2 w1) else w1)
    | (Exc e, w1) => (Exc e, w1)
    end.
Proof.
  cbn [smart_connection_loop]. unfold bind.
  destruct (connection_attempt attempt w) as [[[x|]|e] w1];
    destruct (attempt <? max_retries); reflexivity.
Qed.

Lemma retry_trace_S (ev : event) (delay : Q) (n : nat) :
  retry_trace ev delay (S (S n)) = ev :: EvSleep delay :: retry_trace ev delay (S n).
Proof. reflexivity. Qed.

(** when every attempt fails the loop runs to its end: one call per
    attempt, a pause of two seconds between two attempts *)
Lemma smart_loop_all_fail (remaining : nat) :
  forall (attempt max_retries : nat) (w : world Dev),
    attempt + remaining = S max_retries ->
    all_attempts_fail attempt (outcomes connection_request remaining (ble w)) = true ->
    exists w',
      smart_connection_loop remaining attempt max_retries w = (Val None, w')
      /\ ble w' = after_calls connection_request remaining (ble w)
      /\ trace w' = (trace w ++ retry_trace EvConnectionRequest 2 remaining)%list
      /\ elapsed_time_assigned w'
         = elapsed_time_assigned w
           || existsb returned (outcomes connection_request remaining (ble w))
      /\ total_attempts (connection_stats w')
         = total_attempts (connection_stats w)
           + length (filter returned (outcomes connection_request remaining (ble w)))
      /\ successful (connection_stats w') = successful (connection_stats w)
      /\ failed (connection_stats w') = failed (connection_stats w) + remaining
      /\ recovery_results w' = recovery_results w.
Proof.
  induction remaining as [|r IH]; intros attempt max_retries w Hsum Hfail.
  - exists w. cbn. rewrite app_nil_r, orb_false_r.
    repeat split; lia.
  - rewrite smart_loop_step, connection_attempt_run.
    cbn [outcomes after_calls] in *.
    destruct (connection_request (ble w)) as [[resp|e] d] eqn:Hreq;
      cbn [all_attempts_fail snd] in *.
    + apply andb_true_iff in Hfail. destruct Hfail as [Hno Hrest].
      apply negb_true_iff in Hno. cbv zeta. rewrite Hno.
      destruct r as [|r'].
      * assert (Hlt : (attempt <? max_retries) = false)
          by (apply Nat.ltb_ge; lia).
        rewrite Hlt. eexists. split; [reflexivity|].
        cbn. rewrite orb_true_r. repeat split; lia.
      * assert (Hlt : (attempt <? max_retries) = true)
          by (apply Nat.ltb_lt; lia).
        rewrite Hlt.
        match goal with
        | |- context [smart_connection_loop _ _ _ ?w1] =>
            destruct (IH (S attempt) max_retries w1 ltac:(lia) Hrest)
              as (w' & Hrun & Hble & Htr & Hel & Htot & Hsuc & Hfl & Hrec)
        end.
        exists w'. split; [exact Hrun|].
        cbn [sleep log snd ble trace connection_stats elapsed_time_assigned
             recovery_results incr_failed incr_total total_attempts successful
             failed] in *.
        rewrite retry_trace_S.
        repeat split; try assumption;
          try (rewrite Htr, <- !app_assoc; reflexivity);
          try (rewrite Hel, orb_true_r; reflexivity);
          cbn [filter returned length]; lia.
    + destruct r as [|r'].
      * assert (Hlt : (attempt <? max_retries) = false)
          by (apply Nat.ltb_ge; lia).
        rewrite Hlt. eexists. split; [reflexivity|].
        cbn. rewrite orb_false_r. repeat split; lia.
      * assert (Hlt : (attempt <? max_retries) = true)
          by (apply Nat.ltb_lt; lia).
        rewrite Hlt.
        match goal with
        | |- context [smart_connection_loop _ _ _ ?w1] =>
            destruct (IH (S attempt) max_retries w1 ltac:(lia) Hfail)
              as (w' & Hrun & Hble & Htr & Hel & Htot & Hsuc & Hfl & Hrec)
        end.
        exists w'. split; [exact Hrun|].
        cbn [sleep log snd ble trace connection_stats elapsed_time_assigned
             recovery_results incr_failed incr_total total_attempts successful
             failed] in *.
        rewrite retry_trace_S.
        repeat split; try assumption;
          try (rewrite Htr, <- !app_assoc; reflexivity);
          try (rewrite Hel, orb_true_r; reflexivity);
          cbn [filter returned length]; lia.
Qed.
End ConnectionLoop.

Section Campaign.
Import Py SmartBLETester.
Context {Dev : Type} `{BLESUL Dev} `{Constant}.

(** the recovery loop makes one call and records one entry per probe,
    never a success, and leaves the counters alone *)
Lemma recovery_loop_run (n : nat) :
  forall (i : nat) (w : world Dev),
  exists w' entries,
    recovery_loop n i w = (Val tt, w')
    /\ recovery_results w' = (recovery_results w ++ entries)%list
    /\ length entries = n
    /\ Forall (fun e => entry_status e = "failed" \/ entry_status e = "exception")
         entries
    /\ connection_stats w' = connection_stats w
    /\ ble w' = after_calls connection_request n (ble w)
    /\ (exists evs,
          trace w' = (trace w ++ evs)%list
          /\ length (filter (fun ev => match ev with
                                        | EvConnectionRequest => true
                                        | _ => false
                                        end) evs) = n
          /\ Forall (fun ev => ev = EvConnectionRequest \/ ev = EvSleep 4) evs).
Proof.
  induction n as [|n IH]; intros i w.
  - exists w, []. cbn. rewrite !app_nil_r.
    repeat split; auto. exists []. rewrite app_nil_r. auto.
  - cbn [recovery_loop after_calls]. unfold bind at 1.
    rewrite recovery_probe_run.
    destruct (connection_request (ble w)) as [[resp|e] d];
      match goal with
      | |- context [recovery_loop n (S i) ?w1] =>
          destruct (IH (S i) w1)
            as (w' & entries & Hrun & Hrec & Hlen & Hall & Hst & Hble
                & evs & Htr & Hcnt & Hevs)
      end;
      cbn [ble trace connection_stats recovery_results snd] in *;
      exists w';
      eexists (_ :: entries);
      (split; [exact Hrun|]);
      (split; [rewrite Hrec, <- app_assoc; reflexivity|]);
      (split; [cbn; lia|]);
      (split; [constructor; [cbn; auto|exact Hall]|]);
      (split; [exact Hst|]);
      (split; [exact Hble|]);
      exists (EvSleep 4 :: EvConnectionRequest :: evs);
      (split; [rewrite Htr, <- !app_assoc; reflexivity|]);
      (split; [cbn; lia|]);
      (constructor; [right; reflexivity|]);
      (constructor; [left; reflexivity|exact Hevs]).
Qed.

Lemma no_success_among (entries : list recovery_entry) :
  Forall (fun e => entry_status e = "failed" \/ entry_status e = "exception") entries ->
  successful_recoveries entries = 0.
Proof.
  unfold successful_recoveries.
  induction 1 as [|e l [E|E] _ IH]; cbn; [reflexivity| |]; rewrite E; exact IH.
Qed.

(** Phase 3 always ends with seven records and the verdict of a crash *)
Lemma test_recovery_run (r : test_result) (w : world Dev) :
  exists w' entries,
    test_recovery r w = (Val (judge r entries), w')
    /\ length entries = 7
    /\ successful_recoveries entries = 0
    /\ overall_result (judge r entries) = Some "device_crashed"
    /\ connection_stats w' = connection_stats w.
Proof.
  unfold test_recovery, bind at 1, set_recovery_results. unfold bind at 1.
  match goal with
  | |- context [recovery_loop 7 0 ?w1] =>
      destruct (recovery_loop_run 7 0 w1)
        as (w' & entries & Hrun & Hrec & Hlen & Hall & Hst & _)
  end.
  rewrite Hrun. unfold bind, get_recovery_results, ret.
  cbn [recovery_results connection_stats] in *. cbn [app] in Hrec.
  exists w', entries. rewrite Hrec.
  pose proof (no_success_among entries Hall) as Hz.
  repeat split; auto.
  rewrite judge_overall, Hz. reflexivity.
Qed.

(** Phase 2 returns a result and leaves the counters alone *)
Lemma send_length_request_run (max_rx : Z) (w : world Dev) :
  exists r w',
    send_length_request max_rx w = (Val r, w')
    /\ connection_stats w' = connection_stats w
    /\ overall_result r = None.
Proof.
  unfold send_length_request, try_except, bind, ble_length_request_fuzzed, call.
  destruct (length_request_fuzzed _ (ble w)) as [[resp|e] d].
  - rewrite analyze_run. cbn.
    do 2 eexists. split; [reflexivity|]. split; reflexivity.
  - cbn. do 2 eexists. split; [reflexivity|]. split; reflexivity.
Qed.

Lemma test_length_vulnerability_run (max_rx : Z) (w : world Dev) :
  test_length_vulnerability max_rx w
  = match smart_connection_test 7 w with
    | (Val (true, _, _), w1) =>
        match send_length_request max_rx w1 with
        | (Val r, w2) => test_recovery r w2
        | (Exc e, w2) => (Exc e, w2)
        end
    | (Val (false, _, _), w1) => (Val (failed_pre_connection max_rx), w1)
    | (Exc e, w1) => (Exc e, w1)
    end.
Proof.
  unfold test_length_vulnerability, bind.
  destruct (smart_connection_test 7 w) as [[[[[|] resp] a]|e] w1]; reflexivity.
Qed.
End Campaign.

Section CampaignClaims.
Import Py SmartBLETester.
Context {Dev : Type} `{BLESUL Dev} `{Constant}.

Lemma filter_none {A : Type} (f : A -> bool) (l : list A) :
  existsb f l = false -> filter f l = [].
Proof.
  induction l as [|x xs IH]; cbn; [reflexivity|].
  destruct (f x); cbn; [discriminate|exact IH].
Qed.

Lemma stats_le_refl (s : stats) : stats_le s s.
Proof. unfold stats_le. lia. Qed.

Lemma stats_le_trans (s1 s2 s3 : stats) :
  stats_le s1 s2 -> stats_le s2 s3 -> stats_le s1 s3.
Proof. unfold stats_le. lia. Qed.

Lemma connection_attempt_stats_le (attempt : nat) (w : world Dev) :
  stats_le (connection_stats w) (connection_stats (snd (connection_attempt attempt w))).
Proof.
  rewrite connection_attempt_run.
  destruct (connection_request (ble w)) as [[resp|e] d]; cbv zeta;
    [destruct (connection_ok _)|]; unfold stats_le; cbn; lia.
Qed.

Lemma smart_loop_stats_le (remaining : nat) :
  forall (attempt max_retries : nat) (w : world Dev),
    stats_le (connection_stats w)
      (connection_stats (snd (smart_connection_loop remaining attempt max_retries w))).
Proof.
  induction remaining as [|r IH]; intros attempt max_retries w.
  - apply stats_le_refl.
  - rewrite smart_loop_step.
    pose proof (connection_attempt_stats_le attempt w) as Hle.
    destruct (connection_attempt attempt w) as [[[x|]|e] w1]; cbn [snd] in *; auto.
    eapply stats_le_trans; [exact Hle|].
    destruct (attempt <? max_retries);
      [exact (IH (S attempt) max_retries (snd (sleep 2 w1))) | apply IH].
Qed.

Lemma smart_connection_test_stats_le (max_retries : nat) (w : world Dev) :
  stats_le (connection_stats w)
    (connection_stats (snd (smart_connection_test max_retries w))).
Proof.
  unfold smart_connection_test, bind at 1, set_elapsed_time. unfold bind at 1.
  match goal with
  | |- context [smart_connection_loop _ _ _ ?w0] =>
      pose proof (smart_loop_stats_le max_retries 1 max_retries w0) as Hle;
      destruct (smart_connection_loop max_retries 1 max_retries w0)
        as [[[x|]|e] w1]
  end; cbn [snd connection_stats] in *; auto.
  unfold bind, get_stats, get_elapsed_time, ret, raise.
  destruct (0 <? total_attempts (connection_stats w1));
    [destruct (elapsed_time_assigned w1)|]; exact Hle.
Qed.

(** the perturbation and the recovery probes leave the counters as the
    connection test left them *)
Lemma campaign_stats (max_rx : Z) (w : world Dev) :
  connection_stats (snd (test_length_vulnerability max_rx w))
  = connection_stats (snd (smart_connection_test 7 w)).
Proof.
  rewrite test_length_vulnerability_run.
  destruct (smart_connection_test 7 w) as [[[[[|] resp] a]|e] w1]; try reflexivity.
  destruct (send_length_request_run max_rx w1) as (r & w2 & Hrun & Hst & _).
  rewrite Hrun.
  destruct (test_recovery_run r w2) as (w3 & entries & Hrun3 & _ & _ & _ & Hst3).
  rewrite Hrun3. cbn [snd]. congruence.
Qed.

Lemma campaign_stats_le (max_rx : Z) (w : world Dev) :
  stats_le (connection_stats w)
    (connection_stats (snd (test_length_vulnerability max_rx w))).
Proof. rewrite campaign_stats. apply smart_connection_test_stats_le. Qed.

Lemma sleep_stats (seconds : Q) (w : world Dev) :
  connection_stats (snd (sleep seconds w)) = connection_stats w.
Proof. reflexivity. Qed.

Lemma sweep_stats_le (w : world Dev) :
  stats_le (connection_stats w)
    (connection_stats (snd (comprehensive_vulnerability_test w))).
Proof.
  unfold comprehensive_vulnerability_test.
  unfold bind at 1.
  pose proof (campaign_stats_le 0 w) as H1.
  destruct (test_length_vulnerability 0 w) as [[r1|e1] w1]; cbn [snd] in *; auto.
  unfold bind at 1. cbn [sleep log].
  unfold bind at 1.
  match goal with
  | |- context [test_length_vulnerability 3000 ?w1'] =>
      pose proof (campaign_stats_le 3000 w1') as H2;
      destruct (test_length_vulnerability 3000 w1') as [[r2|e2] w2]
  end; cbn [snd connection_stats] in *;
    [|eapply stats_le_trans; eassumption].
  unfold bind at 1. cbn [sleep log].
  unfold bind at 1.
  match goal with
  | |- context [test_length_vulnerability 251 ?w2'] =>
      pose proof (campaign_stats_le 251 w2') as H3;
      destruct (test_length_vulnerability 251 w2') as [[r3|e3] w3]
  end; cbn [snd connection_stats ret] in *;
    eapply stats_le_trans; [exact H1| |exact H1|];
    eapply stats_le_trans; eassumption.
Qed.

(** When all seven connection attempts of the first phase are unsuccessful
    and the connection test returns (some attempt got an answer, or no
    attempt was counted before), the campaign returns at once
    the record whose [result] is [failed_pre_connection], without an
    overall result and without recovery records; the engine has received
    the seven connection requests and nothing else, in particular no fuzzed
    length request, and no recovery probe was recorded. *)
Lemma failed_pre_connection_aborts (max_rx : Z) (w : world Dev) :
  let os := outcomes connection_request 7 (ble w) in
  all_attempts_fail 1 os = true ->
  (total_attempts (connection_stats w) = 0 \/ exists resp, In (Val resp) os) ->
  exists w',
    test_length_vulnerability max_rx w = (Val (failed_pre_connection max_rx), w')
    /\ result (failed_pre_connection max_rx) = Some "failed_pre_connection"
    /\ overall_result (failed_pre_connection max_rx) = None
    /\ recovery_tests (failed_pre_connection max_rx) = None
    /\ trace w' = (trace w ++ retry_trace EvConnectionRequest 2 7)%list
    /\ (forall p, ~ In (EvLengthRequestFuzzed p) (retry_trace EvConnectionRequest 2 7))
    /\ recovery_results w' = recovery_results w.
Proof.
  intros os Hfail Hnormal. subst os.
  rewrite test_length_vulnerability_run.
  unfold smart_connection_test, bind at 1, set_elapsed_time. unfold bind at 1.
  match goal with
  | |- context [smart_connection_loop 7 1 7 ?w0] =>
      destruct (smart_loop_all_fail 7 1 7 w0 eq_refl Hfail)
        as (w' & Hrun & _ & Htr & Hel & Htot & _ & _ & Hrec)
  end.
  rewrite Hrun.
  cbn [ble trace connection_stats elapsed_time_assigned recovery_results orb] in *.
  unfold bind, get_stats, get_elapsed_time, ret, raise.
  assert (Hok : (0 <? total_attempts (connection_stats w')) = false
                \/ elapsed_time_assigned w' = true).
  { destruct (existsb returned (outcomes connection_request 7 (ble w))) eqn:Hex.
    - right. rewrite Hel. reflexivity.
    - left. apply Nat.ltb_ge. rewrite Htot.
      rewrite (filter_none _ _ Hex). cbn [length].
      destruct Hnormal as [Hz | (resp & Hin)]; [lia|].
      assert (Htrue : existsb returned (outcomes connection_request 7 (ble w)) = true)
        by (apply existsb_exists; exists (Val resp); auto).
      congruence. }
  exists w'.
  split.
  - destruct (0 <? total_attempts (connection_stats w')) eqn:Hpos; [|reflexivity].
    destruct Hok as [Hz | Ha]; [congruence|].
    rewrite Ha. reflexivity.
  - repeat split; auto.
    intros p. cbn. intuition discriminate.
Qed.
End CampaignClaims.

(** ** The retry loops *)

Section Retry.
Import Py PairingTester.
Context {Dev : Type} `{BLESUL Dev} `{Constant}.

Lemma robust_connect_is_retry :
  robust_connect_loop (Dev := Dev) = retry_loop ble_connection_request.
Proof. reflexivity. Qed.

Lemma robust_scan_is_retry :
  robust_scan_loop (Dev := Dev) = retry_loop ble_scan_req.
Proof. reflexivity. Qed.

Section Generic.
Variable method : Dev -> res response * Dev.
Variable ev : event.

Lemma retry_loop_step (r attempt max_retries : nat) (delay : Q) (w : world Dev) :
  retry_loop (call ev method) (S r) attempt max_retries delay w
  = let (o, d) := method (ble w) in
    if attempt_failed o then
      retry_loop (call ev method) r (S attempt) max_retries delay
        (if attempt <? max_retries then snd (sleep delay (called ev w d))
         else called ev w d)
    else
      match o with
      | Val v => (Val (true, v), called ev w d)
      | Exc e => (Exc e, called ev w d)
      end.
Proof.
  cbn [retry_loop]. unfold bind at 1, try_except, bind at 1, call.
  destruct (method (ble w)) as [[v|e] d]; cbn [attempt_failed].
  - destruct (is_ERROR v); [|reflexivity].
    unfold bind. destruct (attempt <? max_retries); reflexivity.
  - unfold bind. destruct (attempt <? max_retries); reflexivity.
Qed.

Lemma retry_exhausted (remaining : nat) :
  forall (attempt max_retries : nat) (delay : Q) (w : world Dev),
    attempt + remaining = S max_retries ->
    forallb attempt_failed (outcomes method remaining (ble w)) = true ->
    exists w',
      retry_loop (call ev method) remaining attempt max_retries delay w
      = (Val (false, None), w')
      /\ trace w' = (trace w ++ retry_trace ev delay remaining)%list
      /\ ble w' = after_calls method remaining (ble w).
Proof.
  induction remaining as [|r IH]; intros attempt max_retries delay w Hsum Hall.
  - exists w. cbn. rewrite app_nil_r. auto.
  - rewrite retry_loop_step. cbn [outcomes after_calls] in *.
    destruct (method (ble w)) as [o d]. cbn [forallb snd] in *.
    apply andb_true_iff in Hall. destruct Hall as [Ho Hrest]. rewrite Ho.
    destruct r as [|r'].
    + assert (Hlt : (attempt <? max_retries) = false) by (apply Nat.ltb_ge; lia).
      rewrite Hlt. eexists. split; [reflexivity|]. split; reflexivity.
    + assert (Hlt : (attempt <? max_retries) = true) by (apply Nat.ltb_lt; lia).
      rewrite Hlt.
      destruct (IH (S attempt) max_retries delay (snd (sleep delay (called ev w d)))
                  ltac:(lia) Hrest) as (w' & Hrun & Htr & Hble).
      exists w'. split; [exact Hrun|]. split; [|exact Hble].
      rewrite Htr. cbn [sleep log snd trace called]. rewrite <- !app_assoc.
      reflexivity.
Qed.

Lemma retry_first_success (k : nat) :
  forall (remaining attempt max_retries : nat) (delay : Q) (w : world Dev)
         (v : response),
    attempt + remaining = S max_retries ->
    nth_error (outcomes method remaining (ble w)) k = Some (Val v) ->
    is_ERROR v = false ->
    forallb attempt_failed (firstn k (outcomes method remaining (ble w))) = true ->
    exists w',
      retry_loop (call ev method) remaining attempt max_retries delay w
      = (Val (true, v), w')
      /\ trace w' = (trace w ++ retry_trace ev delay (S k))%list
      /\ ble w' = after_calls method (S k) (ble w).
Proof.
  induction k as [|k IH];
    intros remaining attempt max_retries delay w v Hsum Hnth Hv Hall;
    (destruct remaining as [|r]; [discriminate|]);
    rewrite retry_loop_step; cbn [outcomes after_calls] in *;
    destruct (method (ble w)) as [o d];
    cbn [nth_error firstn forallb snd] in *.
  - injection Hnth as ->. cbn [attempt_failed]. rewrite Hv.
    eexists. split; [reflexivity|]. split; reflexivity.
  - apply andb_true_iff in Hall. destruct Hall as [Ho Hrest]. rewrite Ho.
    assert (Hr : r <> 0) by (intros ->; destruct k; discriminate).
    assert (Hlt : (attempt <? max_retries) = true) by (apply Nat.ltb_lt; lia).
    rewrite Hlt.
    destruct (IH r (S attempt) max_retries delay (snd (sleep delay (called ev w d))) v
                ltac:(lia) Hnth Hv Hrest) as (w' & Hrun & Htr & Hble).
    exists w'. split; [exact Hrun|]. split; [|exact Hble].
    rewrite Htr. cbn [sleep log snd trace called]. rewrite <- !app_assoc.
    reflexivity.
Qed.

Lemma first_success_or_none (os : list (res response)) :
  forallb attempt_failed os = true
  \/ exists k v,
       nth_error os k = Some (Val v)
       /\ is_ERROR v = false
       /\ forallb attempt_failed (firstn k os) = true.
Proof.
  induction os as [|o os IH]; [left; reflexivity|].
  destruct (attempt_failed o) eqn:Ho.
  - destruct IH as [Hall | (k & v & Hnth & Hv & Hpre)].
    + left. cbn. rewrite Ho. exact Hall.
    + right. exists (S k), v. cbn. rewrite Ho. auto.
  - right. destruct o as [v|e]; [|discriminate].
    exists 0, v. cbn. auto.
Qed.

Lemma retry_loop_contract :
  retry_contract method ev
    (fun max_retries delay =>
       retry_loop (call ev method) max_retries 1 max_retries delay).
Proof.
  intros max_retries delay w os.
  assert (Hfirst : forall k v,
             nth_error os k = Some (Val v) -> is_ERROR v = false ->
             forallb attempt_failed (firstn k os) = true ->
             exists w',
               retry_loop (call ev method) max_retries 1 max_retries delay w
               = (Val (true, v), w')
               /\ trace w' = (trace w ++ retry_trace ev delay (S k))%list
               /\ ble w' = after_calls method (S k) (ble w)).
  { intros k v Hnth Hv Hpre.
    apply retry_first_success; auto. }
  assert (Hnone : forallb attempt_failed os = true ->
             exists w',
               retry_loop (call ev method) max_retries 1 max_retries delay w
               = (Val (false, None), w')
               /\ trace w' = (trace w ++ retry_trace ev delay max_retries)%list
               /\ ble w' = after_calls method max_retries (ble w)).
  { intros Hall. apply retry_exhausted; auto. }
  split; [exact Hfirst|]. split; [exact Hnone|].
  destruct (first_success_or_none os) as [Hall | (k & v & Hnth & Hv & Hpre)].
  - destruct (Hnone Hall) as (w' & Hrun & _). eauto.
  - destruct (Hfirst k v Hnth Hv Hpre) as (w' & Hrun & _). eauto.
Qed.
End Generic.

(** C8.  [robust_connect] and [robust_scan] stop at the first attempt that
    neither raises nor answers with the error sentinel and return
    [(True, answer)]; a raised fault is caught and counts as a failed
    attempt like the sentinel, followed by the same pause before the next
    attempt; when all attempts fail they return [(False, None)]; they never
    raise. *)
Theorem retry_loops_meet_contract :
  retry_contract connection_request EvConnectionRequest robust_connect
  /\ retry_contract scan_req EvScanReq robust_scan
  /\ (forall e, attempt_failed (Exc e) = true)
  /\ attempt_failed (Val (Some constant_ERROR)) = true.
Proof.
  split; [|split; [|split; [reflexivity | apply String.eqb_refl]]].
  - intros max_retries delay w.
    pose proof (retry_loop_contract connection_request EvConnectionRequest
                  max_retries delay w) as Hc.
    cbv zeta in Hc |- *. unfold robust_connect.
    rewrite robust_connect_is_retry. exact Hc.
  - intros max_retries delay w.
    pose proof (retry_loop_contract scan_req EvScanReq max_retries delay w) as Hc.
    cbv zeta in Hc |- *. unfold robust_scan.
    rewrite robust_scan_is_retry. exact Hc.
Qed.
End Retry.

Section CampaignClaims2.
Import Py SmartBLETester.
Context {Dev : Type} `{BLESUL Dev} `{Constant}.

(** C9, as amended.  The counters are updated by the attempts of the
    connection test only: an attempt that gets an answer adds one to
    [total_attempts] and one to [successful] or [failed]; the fuzzed
    request and the reconnections of the recovery probes leave the counters
    as they are; no counter decreases over a campaign or over the three
    campaigns of a sweep. *)
Theorem counters_follow_pre_connect_only (max_rx : Z) (w : world Dev) :
  connection_stats (snd (test_length_vulnerability max_rx w))
  = connection_stats (snd (smart_connection_test 7 w))
  /\ (forall n i (w0 : world Dev),
        connection_stats (snd (recovery_loop n i w0)) = connection_stats w0)
  /\ (forall attempt (w0 : world Dev) resp d,
        connection_request (ble w0) = (Val resp, d) ->
        let s := connection_stats (snd (connection_attempt attempt w0)) in
        total_attempts s = total_attempts (connection_stats w0) + 1
        /\ successful s + failed s
           = successful (connection_stats w0) + failed (connection_stats w0) + 1)
  /\ stats_le (connection_stats w)
       (connection_stats (snd (test_length_vulnerability max_rx w)))
  /\ stats_le (connection_stats w)
       (connection_stats (snd (comprehensive_vulnerability_test w))).
Proof.
  split; [apply campaign_stats|].
  split.
  { intros n i w0.
    destruct (recovery_loop_run n i w0) as (w' & entries & Hrun & _ & _ & _ & Hst & _).
    rewrite Hrun. exact Hst. }
  split.
  { intros attempt w0 resp d Hreq s. subst s.
    rewrite connection_attempt_run, Hreq. cbv zeta.
    destruct (connection_ok _); cbn; lia. }
  split; [apply campaign_stats_le | apply sweep_stats_le].
Qed.

(** C10.  The two connection phases use different criteria: an attempt of
    the connection test succeeds when the status code is at most 1, that
    is for success and partial_success; a recovery probe is recorded as a
    success only for the status success, so a probe classified
    partial_success is recorded as failed and rules out [full_recovery]. *)
Theorem connection_phases_use_different_criteria (a : analysis) :
  (connection_ok a = true <-> status a = "success" \/ status a = "partial_success")
  /\ (recovery_status a = "success" <-> status a = "success")
  /\ (status a = "partial_success" ->
      connection_ok a = true
      /\ recovery_status a = "failed"
      /\ forall r rs i,
           In (mk_entry i (recovery_status a) (Some a) None) rs ->
           overall_result (judge r rs) <> Some "full_recovery")
  /\ (forall attempt (w : world Dev) resp d,
        connection_request (ble w) = (Val resp, d) ->
        a = connection_analysis attempt resp ->
        fst (connection_attempt attempt w)
        = Val (if connection_ok a then Some (true, resp, Some a) else None))
  /\ (forall i (w : world Dev) resp d,
        connection_request (ble w) = (Val resp, d) ->
        a = recovery_analysis i resp ->
        recovery_results (snd (recovery_probe i w))
        = (recovery_results w
             ++ [mk_entry (i + 1) (recovery_status a) (Some a) None])%list).
Proof.
  split; [apply connection_ok_iff|].
  split; [apply recovery_status_iff|].
  split.
  { intros Hp.
    assert (Hf : recovery_status a = "failed")
      by (unfold recovery_status; rewrite Hp; reflexivity).
    split; [apply connection_ok_iff; auto|].
    split; [exact Hf|].
    intros r rs i Hin.
    apply (failure_excludes_full_recovery r rs _ Hin).
    cbn. rewrite Hf. discriminate. }
  split.
  { intros attempt w resp d Hreq ->.
    rewrite connection_attempt_run, Hreq. cbv zeta.
    destruct (connection_ok _); reflexivity. }
  intros i w resp d Hreq ->.
  rewrite recovery_probe_run, Hreq, recovery_status_failed. reflexivity.
Qed.

(** a campaign that gets past the connection test always reports a crash:
    no reconnection of the recovery phase is ever recorded as a success *)
Lemma connected_campaign_reports_crash (max_rx : Z) (w w1 : world Dev)
    (resp : response) (a : option analysis) :
  smart_connection_test 7 w = (Val (true, resp, a), w1) ->
  exists r w',
    test_length_vulnerability max_rx w = (Val r, w')
    /\ overall_result r = Some "device_crashed"
    /\ option_map (@length _) (recovery_tests r) = Some 7.
Proof.
  intros Hc. rewrite test_length_vulnerability_run, Hc.
  destruct (send_length_request_run max_rx w1) as (r & w2 & Hrun & _ & _).
  rewrite Hrun.
  destruct (test_recovery_run r w2) as (w3 & entries & Hrun3 & Hlen & _ & Hov & _).
  rewrite Hrun3. exists (judge r entries), w3.
  split; [reflexivity|]. split; [exact Hov|].
  rewrite judge_recovery_tests. cbn. congruence.
Qed.
End CampaignClaims2.

Section Sessions.
Import Py SmartBLETester PairingTester.
#[local] Existing Instance sample_constant.

(** the verdict code on seven records with three successes *)
Lemma recovery_verdict_is_exact_witness :
  successful_recoveries sample_entries = 3
  /\ overall_result (judge (failed_pre_connection 0) sample_entries)
     = Some "partial_recovery".
Proof.
  destruct (recovery_verdict_is_exact (failed_pre_connection 0) sample_entries eq_refl)
    as (_ & _ & _ & Hpartial & _).
  split; [reflexivity|].
  apply Hpartial. cbn. lia.
Defined.


(** C5.  The code does not do what the claim says on a device that is lost
    after its first connection.  The first campaign of the sweep connects and
    is counted.  In the second campaign all seven connection requests raise,
    so [elapsed_time] is never assigned while [total_attempts] is 1, and the
    connection test raises [UnboundLocalError] when it comes to the average
    time: the campaign, and the sweep with it, ends with that exception and
    not with the record of a failed connection.  The engine has received
    the seven connection requests of that campaign and no fuzzed length
    request. *)
Theorem failed_pre_connection_raises_after_a_connection :
  let w1 := snd (test_length_vulnerability 0 (fresh_world lost_script)) in
  (exists r1,
      fst (test_length_vulnerability 0 (fresh_world lost_script)) = Val r1
      /\ overall_result r1 = Some "device_crashed")
  /\ connection_stats w1 = mk_stats 1 1 0
  /\ all_attempts_fail 1 (outcomes connection_request 7 (ble w1)) = true
  /\ fst (test_length_vulnerability 3000 w1) = Exc (UnboundLocalError "elapsed_time")
  /\ trace (snd (test_length_vulnerability 3000 w1))
     = (trace w1 ++ retry_trace EvConnectionRequest 2 7)%list
  /\ fst (comprehensive_vulnerability_test (fresh_world lost_script))
     = Exc (UnboundLocalError "elapsed_time").
Proof.
  cbv zeta.
  split.
  { eexists. split; vm_compute; reflexivity. }
  split; [vm_compute; reflexivity|].
  split; [vm_compute; reflexivity|].
  split; [vm_compute; reflexivity|].
  split; vm_compute; reflexivity.
Qed.

(** the early return on a device that answers every request with the
    sentinel *)
Lemma failed_pre_connection_aborts_witness :
  exists w',
    test_length_vulnerability 0 (fresh_world silent_script)
    = (Val (failed_pre_connection 0), w')
    /\ trace w' = retry_trace EvConnectionRequest 2 7
    /\ recovery_results w' = [].
Proof.
  destruct (failed_pre_connection_aborts 0 (fresh_world silent_script))
    as (w' & Hrun & _ & _ & _ & Htr & _ & Hrec).
  - vm_compute. reflexivity.
  - left. reflexivity.
  - exists w'. auto.
Defined.

(** C9 fails as stated: eight connection requests are made in the campaign,
    one is counted *)
Lemma recovery_probes_are_not_counted :
  let w' := snd (test_length_vulnerability 0 (fresh_world healthy_script)) in
  length (filter is_connection_request (trace w')) = 8
  /\ connection_stats w' = mk_stats 1 1 0
  /\ total_attempts (connection_stats w')
     <> length (filter is_connection_request (trace w')).
Proof.
  vm_compute. repeat split. discriminate.
Qed.

(** C9 as amended, on the first attempt of a session *)
Lemma counters_follow_pre_connect_only_witness :
  let s := connection_stats
             (snd (connection_attempt 1 (fresh_world healthy_script))) in
  total_attempts s = 1 /\ successful s + failed s = 1.
Proof.
  destruct (counters_follow_pre_connect_only 0 (fresh_world healthy_script))
    as (_ & _ & Hattempt & _).
  exact (Hattempt 1 (fresh_world healthy_script) _ _ eq_refl).
Defined.

(** C10 on a response with a bare BLE frame *)
Lemma connection_phases_use_different_criteria_witness :
  let a := connection_analysis 1 (Some "BTLE_DATA") in
  status a = "partial_success"
  /\ connection_ok a = true
  /\ recovery_status a = "failed".
Proof.
  intros a.
  assert (Hp : status a = "partial_success") by (vm_compute; reflexivity).
  destruct (connection_phases_use_different_criteria (Dev := script) a)
    as (_ & _ & Hpartial & _).
  destruct (Hpartial Hp) as (Hok & Hf & _).
  auto.
Defined.

(** C8 on an engine that raises, answers with the sentinel, then answers *)
Lemma retry_loops_meet_contract_witness :
  exists w',
    robust_connect 3 1 (fresh_world flaky_script) = (Val (true, Some "BTLE_ADV"), w')
    /\ trace w'
       = [ EvConnectionRequest; EvSleep 1; EvConnectionRequest; EvSleep 1;
           EvConnectionRequest ].
Proof.
  destruct (retry_loops_meet_contract (Dev := script)) as (Hconnect & _).
  destruct (Hconnect 3 1%Q (fresh_world flaky_script)) as (Hfirst & _).
  destruct (Hfirst 2 (Some "BTLE_ADV") eq_refl eq_refl eq_refl)
    as (w' & Hrun & Htr & _).
  exists w'. split; [exact Hrun | exact Htr].
Defined.
End Sessions.

(** * Further properties *)

(** ** Substrings *)

Lemma prefix_app (a b : string) :
  prefix a b = true <-> exists c, b = a ++ c.
Proof.
  revert b. induction a as [|x a IH]; intros b.
  - cbn. split; [eauto|]. intros _. destruct b; reflexivity.
  - destruct b as [|y b]; cbn.
    + split; [discriminate|]. intros (c & Hc). discriminate.
    + destruct (Ascii.ascii_dec x y) as [->|Hne].
      * rewrite IH. split; intros (c & Hc); exists c; [subst; reflexivity|].
        injection Hc as ->. reflexivity.
      * split; [discriminate|]. intros (c & Hc). injection Hc as -> _. contradiction.
Qed.

Lemma append_assoc (a b c : string) : (a ++ b) ++ c = a ++ (b ++ c).
Proof. induction a as [|x a IH]; cbn; [reflexivity|]. rewrite IH. reflexivity. Qed.

Lemma append_nil_r (a : string) : a ++ "" = a.
Proof. induction a as [|x a IH]; cbn; [reflexivity|]. rewrite IH. reflexivity. Qed.

Lemma contains_here (needle hay : string) :
  prefix needle hay = true -> PyStr.contains needle hay = true.
Proof. intros Hp. destruct hay; cbn [PyStr.contains]; rewrite Hp; reflexivity. Qed.

Lemma contains_later (needle : string) (c : ascii) (hay : string) :
  PyStr.contains needle hay = true -> PyStr.contains needle (String c hay) = true.
Proof. intros Hc. cbn [PyStr.contains]. rewrite Hc. destruct (prefix _ _); reflexivity. Qed.

(** [needle in hay] holds exactly when [hay] splits around [needle] *)
Lemma contains_split (needle hay : string) :
  PyStr.contains needle hay = true <-> exists pre post, hay = pre ++ needle ++ post.
Proof.
  split.
  - induction hay as [|c hay IH].
    + cbn [PyStr.contains]. destruct (prefix needle "") eqn:Hp; [|discriminate].
      intros _. apply prefix_app in Hp. destruct Hp as (post & Hp).
      exists "", post. exact Hp.
    + cbn [PyStr.contains]. destruct (prefix needle (String c hay)) eqn:Hp.
      * intros _. apply prefix_app in Hp. destruct Hp as (post & Hp).
        exists "", post. exact Hp.
      * intros Hc. destruct (IH Hc) as (pre & post & ->).
        exists (String c pre), post. reflexivity.
  - intros (pre & post & ->). induction pre as [|c pre IH].
    + apply contains_here. apply prefix_app. exists post. reflexivity.
    + cbn [append]. apply contains_later. exact IH.
Qed.

Lemma contains_trans (a b c : string) :
  PyStr.contains a b = true -> PyStr.contains b c = true -> PyStr.contains a c = true.
Proof.
  intros Hab Hbc.
  apply contains_split in Hab. destruct Hab as (p1 & q1 & ->).
  apply contains_split in Hbc. destruct Hbc as (p2 & q2 & ->).
  apply contains_split. exists (p2 ++ p1), (q1 ++ q2).
  rewrite !append_assoc. reflexivity.
Qed.

Lemma contains_false_tail (needle : string) (c : ascii) (hay : string) :
  PyStr.contains needle (String c hay) = false -> PyStr.contains needle hay = false.
Proof.
  intros Hf. destruct (PyStr.contains needle hay) eqn:Hc; [|reflexivity].
  rewrite (contains_later _ c _ Hc) in Hf. discriminate.
Qed.

(** a needle whose first character is excluded from [hay] does not occur *)
Lemma contains_excluded (p : ascii -> bool) (x : ascii) (needle hay : string) :
  p x = false -> all_chars p hay = true ->
  PyStr.contains (String x needle) hay = false.
Proof.
  intros Hx. induction hay as [|c hay IH]; intros Hall; [reflexivity|].
  cbn in Hall. apply andb_true_iff in Hall. destruct Hall as [Hc Hrest].
  cbn [PyStr.contains prefix].
  destruct (Ascii.ascii_dec x c) as [->|_]; [congruence|]. auto.
Qed.

(** ** Error-code extraction *)

Lemma take_hex_spec (n : nat) :
  forall s : string,
    String.length (PyStr.take_hex n s) <= n
    /\ all_chars PyStr.is_hex_digit (PyStr.take_hex n s) = true
    /\ exists rest, s = PyStr.take_hex n s ++ rest.
Proof.
  induction n as [|n IH]; intros s.
  - cbn. repeat split; [lia|]. exists s. reflexivity.
  - destruct s as [|c s]; cbn [PyStr.take_hex].
    + cbn. repeat split; [lia|]. exists "". reflexivity.
    + destruct (PyStr.is_hex_digit c) eqn:Hc.
      * destruct (IH s) as (Hlen & Hall & rest & Hrest).
        cbn [String.length all_chars]. rewrite Hc, Hall.
        repeat split; [lia|]. exists rest. cbn. rewrite <- Hrest. reflexivity.
      * cbn. repeat split; [lia|]. exists (String c s). reflexivity.
Qed.

Lemma match_hex_here_spec (s m : string) :
  PyStr.match_hex_here s = Some m ->
  exists digits rest,
    m = "0x" ++ digits
    /\ s = m ++ rest
    /\ 2 <= String.length digits <= 4
    /\ all_chars PyStr.is_hex_digit digits = true.
Proof.
  unfold PyStr.match_hex_here.
  destruct s as [|c0 s]; [discriminate|].
  destruct (Ascii.ascii_dec c0 "0") as [->|Hn0].
  2:{ destruct c0 as [[|] [|] [|] [|] [|] [|] [|] [|]]; try discriminate.
      contradiction Hn0. reflexivity. }
  destruct s as [|c1 s]; [discriminate|].
  destruct (Ascii.ascii_dec c1 "x") as [->|Hn1].
  2:{ destruct c1 as [[|] [|] [|] [|] [|] [|] [|] [|]]; try discriminate.
      contradiction Hn1. reflexivity. }
  destruct (take_hex_spec 4 s) as (Hlen & Hall & rest & Hrest).
  destruct (Nat.leb_spec 2 (String.length (PyStr.take_hex 4 s))) as [Hge|]; [|discriminate].
  intros [= <-]. exists (PyStr.take_hex 4 s), rest.
  split; [reflexivity|]. split; [|auto].
  change (String "0" (String "x" s)
          = String "0" (String "x" (PyStr.take_hex 4 s ++ rest))).
  rewrite <- Hrest. reflexivity.
Qed.

Lemma findall_from_spec (s : string) :
  forall skip,
    Forall (fun m => hex_token m /\ PyStr.contains m s = true)
      (PyStr.findall_from skip s)
    /\ (skip <= String.length s ->
        4 * length (PyStr.findall_from skip s) + skip <= String.length s)
    /\ (String.length s < skip -> PyStr.findall_from skip s = []).
Proof.
  induction s as [|c s IH]; intros skip.
  - cbn. repeat split; auto; lia.
  - cbn [PyStr.findall_from String.length].
    destruct skip as [|k].
    + destruct (PyStr.match_hex_here (String c s)) as [m|] eqn:Hm.
      * destruct (match_hex_here_spec _ _ Hm) as (digits & rest & Hmd & Hs & Hlen & Hall).
        destruct (IH (String.length m - 1)) as (Hf & Hcount & Hnone).
        assert (Hml : String.length m = 2 + String.length digits)
          by (rewrite Hmd; reflexivity).
        assert (Hsl : S (String.length s) = String.length m + String.length rest).
        { change (S (String.length s)) with (String.length (String c s)).
          rewrite Hs at 1. clear. induction m; cbn; [reflexivity|]. rewrite IHm. reflexivity. }
        split; [|split].
        -- constructor.
           ++ split; [exists digits; auto|].
              apply contains_here, prefix_app. exists rest. exact Hs.
           ++ eapply Forall_impl; [|exact Hf].
              intros x [Hx Hc]. split; [exact Hx|]. apply contains_later. exact Hc.
        -- intros _. cbn [length]. specialize (Hcount ltac:(lia)). lia.
        -- lia.
      * destruct (IH 0) as (Hf & Hcount & Hnone).
        split; [|split].
        -- eapply Forall_impl; [|exact Hf].
           intros x [Hx Hc]. split; [exact Hx|]. apply contains_later. exact Hc.
        -- intros _. specialize (Hcount ltac:(lia)). lia.
        -- lia.
    + destruct (IH k) as (Hf & Hcount & Hnone).
      split; [|split].
      * eapply Forall_impl; [|exact Hf].
        intros x [Hx Hc]. split; [exact Hx|]. apply contains_later. exact Hc.
      * intros Hle. specialize (Hcount ltac:(lia)). lia.
      * intros Hlt. apply Hnone. lia.
Qed.

Lemma hex_digit_value_le (c : ascii) : PyStr.hex_digit_value c <= 15.
Proof.
  unfold PyStr.hex_digit_value.
  repeat match goal with
         | |- context [if ?b then _ else _] => destruct b eqn:?
         end;
    repeat match goal with
           | H : (_ && _) = true |- _ => apply andb_true_iff in H; destruct H
           | H : (_ <=? _) = true |- _ => apply Nat.leb_le in H
           end; lia.
Qed.

Lemma hex_value_bound (s : string) :
  forall acc, PyStr.hex_value acc s + 1 <= 16 ^ String.length s * (acc + 1).
Proof.
  induction s as [|c s IH]; intros acc.
  - cbn. lia.
  - cbn [PyStr.hex_value String.length].
    specialize (IH (16 * acc + PyStr.hex_digit_value c)).
    pose proof (hex_digit_value_le c) as Hd.
    rewrite Nat.pow_succ_r'. nia.
Qed.

Lemma hex_token_value (digits : string) :
  String.length digits <= 4 -> PyStr.hex_value 0 digits < 16 ^ 4.
Proof.
  intros Hlen. pose proof (hex_value_bound digits 0) as Hb.
  assert (H16 : 16 ^ String.length digits <= 16 ^ 4)
    by (apply Nat.pow_le_mono_r; lia).
  lia.
Qed.

(** the table has the codes 0x00 to 0x3F and no other *)
Lemma hci_table_range (n : nat) :
  dict_get HCI_ERROR_CODES n "Unknown error code" = "Unknown error code" <-> 64 <= n.
Proof.
  do 64 (destruct n as [|n]; [vm_compute; split; [discriminate|lia]|]).
  split; [lia|]. intros _. reflexivity.
Qed.

Section ErrorCodes.
Import PyStr Analyzer.
Context `{Constant}.

Lemma classify_error_details (text op : string) (ctx : option string) :
  error_details (fst (classify (Some text) op ctx)) = _extract_error_codes text.
Proof.
  unfold classify.
  destruct (_analyze_by_operation text op) as [st si wi vh].
  destruct (_extract_error_codes text) as [|d ds];
    cbn [fst update initial_analysis r_status status is_error error_details
         set_status set_recommended_action nonempty app];
    destruct (negb (truthy st) || String.eqb st "unknown"); reflexivity.
Qed.

Lemma extract_error_codes_spec (text : string) :
  Forall (fun d =>
            exists digits,
              d = ErrCode ("0x" ++ digits) (hex_value 0 digits)
                    (dict_get HCI_ERROR_CODES (hex_value 0 digits) "Unknown error code")
              /\ 2 <= String.length digits <= 4
              /\ all_chars is_hex_digit digits = true
              /\ contains ("0x" ++ digits) text = true
              /\ hex_value 0 digits < 16 ^ 4)
    (_extract_error_codes text).
Proof.
  unfold _extract_error_codes, findall_hex.
  destruct (findall_from_spec text 0) as (Hf & _ & _).
  induction Hf as [|m ms [(digits & -> & Hlen & Hall) Hc] _ IH]; cbn [map];
    constructor; [|exact IH].
  exists digits. repeat split; auto; try lia.
  apply hex_token_value. lia.
Qed.

(** X1. Every entry of [error_details] comes from a token of the response
    text: [0x] followed by two to four hexadecimal digits.  Its code is that
    token, its decimal value is the value of the digits (below 65536), its
    description is the entry of [HCI_ERROR_CODES] for that value or
    [Unknown error code]; and the tokens do not overlap, so a text of [n]
    characters gives at most [n/4] entries. *)
Theorem error_details_are_hex_tokens (text op : string) (ctx : option string) :
  let a := fst (classify (Some text) op ctx) in
  Forall (fun d =>
            exists digits,
              d = ErrCode ("0x" ++ digits) (hex_value 0 digits)
                    (dict_get HCI_ERROR_CODES (hex_value 0 digits) "Unknown error code")
              /\ 2 <= String.length digits <= 4
              /\ all_chars is_hex_digit digits = true
              /\ contains ("0x" ++ digits) text = true
              /\ hex_value 0 digits < 16 ^ 4)
    (error_details a)
  /\ 4 * length (error_details a) <= String.length text.
Proof.
  intros a. subst a. rewrite classify_error_details.
  split; [apply extract_error_codes_spec|].
  unfold _extract_error_codes, findall_hex. rewrite length_map.
  destruct (findall_from_spec text 0) as (_ & Hcount & _).
  specialize (Hcount ltac:(lia)). lia.
Qed.

(** X2. An extracted error code is described as [Unknown error code]
    exactly when its value is 64 (0x40) or more: the table [HCI_ERROR_CODES]
    covers the values 0x00 to 0x3F without a gap. *)
Theorem unknown_code_label_iff_outside_table
    (text op : string) (ctx : option string) (code : string) (dec : nat) (desc : string) :
  In (ErrCode code dec desc) (error_details (fst (classify (Some text) op ctx))) ->
  (desc = "Unknown error code" <-> 64 <= dec).
Proof.
  rewrite classify_error_details. intros Hin.
  pose proof (extract_error_codes_spec text) as Hf.
  rewrite Forall_forall in Hf.
  destruct (Hf _ Hin) as (digits & Heq & _).
  injection Heq as -> -> ->. apply hci_table_range.
Qed.

Lemma findall_finds (pre : string) :
  forall (d1 d2 : ascii) (post : string),
    is_hex_digit d1 = true -> is_hex_digit d2 = true ->
    findall_from 0 (pre ++ "0x" ++ String d1 (String d2 post)) <> [].
Proof.
  induction pre as [|c pre IH]; intros d1 d2 post H1 H2.
  - assert (Hm : exists m,
               match_hex_here (String "0" (String "x" (String d1 (String d2 post))))
               = Some m).
    { unfold match_hex_here. cbn [take_hex]. rewrite H1, H2.
      cbn [String.length Nat.leb]. eauto. }
    destruct Hm as (m & Hm).
    cbn [append findall_from]. rewrite Hm. discriminate.
  - cbn [append findall_from].
    destruct (match_hex_here _); [discriminate|].
    apply IH; assumption.
Qed.

(** X3. For every response text, operation and context, [is_error] is
    set exactly when the text has [0x] followed by two hexadecimal digits
    somewhere; the operation and the words of the text play no part. *)
Theorem is_error_iff_hex_token (text op : string) (ctx : option string) :
  is_error (fst (classify (Some text) op ctx)) = true
  <-> exists pre d1 d2 post,
        text = pre ++ "0x" ++ String d1 (String d2 post)
        /\ is_hex_digit d1 = true /\ is_hex_digit d2 = true.
Proof.
  rewrite AnalyzerFacts.classify_is_error.
  unfold _extract_error_codes, findall_hex.
  split.
  - destruct (findall_from_spec text 0) as (Hf & _ & _).
    destruct (findall_from 0 text) as [|m ms]; [discriminate|].
    intros _. inversion Hf as [|? ? [(digits & -> & Hlen & Hall) Hc] _]; subst.
    apply contains_split in Hc. destruct Hc as (pre & post & ->).
    destruct digits as [|d1 [|d2 digits]]; cbn in Hlen; try lia.
    cbn in Hall. apply andb_true_iff in Hall. destruct Hall as [H1 Hall].
    apply andb_true_iff in Hall. destruct Hall as [H2 _].
    exists pre, d1, d2, (digits ++ post). auto.
  - intros (pre & d1 & d2 & post & -> & H1 & H2).
    pose proof (findall_finds pre d1 d2 post H1 H2) as Hne.
    destruct (findall_from 0 _); [contradiction|reflexivity].
Qed.
End ErrorCodes.

(** ** Further properties of the classifier *)

Section Classifier.
Import PyStr Analyzer.
Context `{Constant}.

Lemma classify_action (text op : string) (ctx : option string) :
  let a := fst (classify (Some text) op ctx) in
  operation a = op
  /\ recommended_action a = Some (_suggest_action a)
  /\ response_summary a = Some (_summarize_response text)
  /\ context a = ctx.
Proof.
  unfold classify.
  destruct (_analyze_by_operation text op) as [st si wi vh].
  destruct (nonempty (_extract_error_codes text));
    cbn [fst update initial_analysis r_status status is_error set_status
         set_recommended_action operation];
    destruct (negb (truthy st) || String.eqb st "unknown"); cbn; auto.
Qed.

Lemma unhandled_operation_result (text op : string) :
  op <> "connection_request" -> op <> "scan_req" -> op <> "length_request" ->
  op <> "mtu_request" -> op <> "pairing_request" ->
  _analyze_by_operation text op = unknown_result.
Proof.
  intros H1 H2 H3 H4 H5. unfold _analyze_by_operation.
  apply String.eqb_neq in H1, H2, H3, H4, H5.
  rewrite H1, H2, H3, H4, H5. reflexivity.
Qed.

(** X4. For an operation tag other than [connection_request],
    [scan_req], [length_request], [mtu_request] and [pairing_request], a
    response text is never classified as a success: there is no success and
    no warning indicator, the status is [error] when an error code was
    extracted and [unknown] otherwise, with the matching recommended
    action. *)
Theorem unhandled_operation_is_error_or_unknown
    (text op : string) (ctx : option string) :
  op <> "connection_request" -> op <> "scan_req" -> op <> "length_request" ->
  op <> "mtu_request" -> op <> "pairing_request" ->
  let a := fst (classify (Some text) op ctx) in
  success_indicators a = []
  /\ warning_indicators a = []
  /\ status a = (if is_error a then "error" else "unknown")
  /\ recommended_action a
     = Some (if is_error a then "Check device status and connection parameters"
             else "Further analysis required").
Proof.
  intros H1 H2 H3 H4 H5 a.
  pose proof (unhandled_operation_result text op H1 H2 H3 H4 H5) as Hr.
  destruct (AnalyzerFacts.classify_lists text op ctx) as (Hs & Hw & _).
  destruct (classify_action text op ctx) as (Hop & Hact & _).
  cbv zeta in Hs, Hw, Hop, Hact. fold a in Hs, Hw, Hop, Hact.
  assert (Hst : status a = (if is_error a then "error" else "unknown")).
  { subst a. rewrite AnalyzerFacts.classify_status, AnalyzerFacts.classify_is_error, Hr.
    unfold final_status_of.
    destruct (nonempty (_extract_error_codes text)); reflexivity. }
  rewrite Hs, Hw, Hr. split; [reflexivity|]. split; [reflexivity|].
  split; [exact Hst|].
  rewrite Hact. unfold _suggest_action. rewrite Hop, Hst.
  apply String.eqb_neq in H1. rewrite H1. cbn [andb].
  destruct (is_error a).
  - rewrite andb_false_r. reflexivity.
  - rewrite andb_false_r. reflexivity.
Qed.

(** X5. Every classified response text gets a recommended action, and
    the action is the default [No suggestions] exactly for the statuses
    [warning], [rejected] and [unknown_response], which the table of
    suggestions does not have. *)
Theorem recommended_action_is_always_given
    (text op : string) (ctx : option string) :
  let a := fst (classify (Some text) op ctx) in
  exists action,
    recommended_action a = Some action
    /\ (action = "No suggestions"
        <-> status a = "warning" \/ status a = "rejected"
            \/ status a = "unknown_response").
Proof.
  intros a.
  destruct (classify_action text op ctx) as (Hop & Hact & _).
  cbv zeta in Hop, Hact. fold a in Hop, Hact.
  exists (_suggest_action a). split; [exact Hact|].
  pose proof (classify_status_in (Some text) op ctx) as Hin. fold a in Hin.
  unfold _suggest_action. rewrite Hop.
  set (b1 := String.eqb op "connection_request").
  set (b2 := contains "length_request" op).
  clearbody b1 b2. clear Hop Hact.
  unfold final_statuses in Hin. cbn [In] in Hin.
  destruct Hin as [E|[E|[E|[E|[E|[E|[E|[E|[]]]]]]]]]; rewrite <- E;
    destruct b1, b2; vm_compute;
    (split; [try discriminate; auto | try (intros [?|[?|?]]; discriminate); auto]).
Qed.
End Classifier.

Section Classifier2.
Import PyStr Analyzer.
Context `{Constant}.

(** *** Blank answers *)

Lemma lstrip_nil_iff (s : string) :
  lstrip s = "" <-> all_chars is_space s = true.
Proof.
  induction s as [|c s IH]; cbn; [tauto|].
  destruct (is_space c); cbn; [exact IH|].
  split; discriminate.
Qed.

Lemma rev_nil (s : string) : rev s = "" -> s = "".
Proof.
  destruct s as [|c s]; [reflexivity|]. cbn.
  destruct (rev s); discriminate.
Qed.

Lemma lstrip_head (s : string) :
  lstrip s = "" \/ exists c t, lstrip s = String c t /\ is_space c = false.
Proof.
  induction s as [|c s IH]; cbn; [auto|].
  destruct (is_space c) eqn:Hc; [exact IH|].
  right. eauto.
Qed.

Lemma all_chars_app (p : ascii -> bool) (a b : string) :
  all_chars p (a ++ b) = all_chars p a && all_chars p b.
Proof.
  induction a as [|c a IH]; cbn; [reflexivity|].
  rewrite IH, andb_assoc. reflexivity.
Qed.

Lemma all_chars_rev (p : ascii -> bool) (s : string) :
  all_chars p (rev s) = all_chars p s.
Proof.
  induction s as [|c s IH]; cbn; [reflexivity|].
  rewrite all_chars_app, IH. cbn. rewrite andb_true_r. apply andb_comm.
Qed.

(** [not s.strip()] holds exactly for the strings of white space *)
Lemma strip_nil_iff (s : string) :
  truthy (strip s) = false <-> all_chars is_space s = true.
Proof.
  unfold strip, rstrip.
  assert (Ht : forall t, truthy t = false <-> t = "")
    by (intros [|? ?]; cbn; split; congruence).
  rewrite Ht. split.
  - intros Hr. apply rev_nil in Hr. apply lstrip_nil_iff in Hr.
    rewrite all_chars_rev in Hr.
    destruct (lstrip_head s) as [E | (c & t & E & Hc)].
    + apply lstrip_nil_iff. exact E.
    + rewrite E in Hr. cbn in Hr. rewrite Hc in Hr. discriminate.
  - intros Hall. apply lstrip_nil_iff in Hall. rewrite Hall. reflexivity.
Qed.

Lemma blank_has_no_token (s : string) (x : ascii) (needle : string) :
  all_chars is_space s = true -> is_space x = false ->
  contains (String x needle) s = false.
Proof. intros Hall Hx. exact (contains_excluded is_space x needle s Hx Hall). Qed.

Lemma no_match_no_codes (s : string) :
  contains "0x" s = false -> forall skip, findall_from skip s = [].
Proof.
  induction s as [|c s IH]; intros Hc skip; [reflexivity|].
  cbn [findall_from].
  pose proof (contains_false_tail _ _ _ Hc) as Hrest.
  destruct skip as [|k]; [|apply IH; exact Hrest].
  destruct (match_hex_here (String c s)) as [m|] eqn:Hm; [|apply IH; exact Hrest].
  destruct (match_hex_here_spec _ _ Hm) as (digits & rest & -> & Hs & _).
  assert (Hin : contains "0x" (String c s) = true).
  { apply contains_split. exists "", (digits ++ rest). rewrite Hs.
    cbn. reflexivity. }
  congruence.
Qed.

(** an empty answer: the word [Empty] or white space only *)
Lemma empty_response_facts (text : string) :
  is_empty_response text = true ->
  contains "LL_LENGTH_RSP" text = false
  /\ contains "LL_SLAVE_FEATURE_REQ" text = false
  /\ has_zero_length_field text = false
  /\ _extract_error_codes text = [].
Proof.
  unfold is_empty_response. intros He. apply orb_true_iff in He.
  destruct He as [He | He].
  - apply String.eqb_eq in He. subst text. vm_compute. auto.
  - apply negb_true_iff, strip_nil_iff in He.
    unfold has_zero_length_field, _extract_error_codes, findall_hex.
    rewrite !(blank_has_no_token text) by (auto; reflexivity).
    rewrite no_match_no_codes by (apply blank_has_no_token; auto).
    auto.
Qed.

(** X6. When the answer to a fuzzed length request is [Empty] or blank,
    the analysis has status [no_response], no error flag, the warning
    [No response to length request], the two hints about abnormal length
    requests, and the advice to try normal values, whatever the context. *)
Theorem silent_length_request_is_flagged (text : string) (ctx : option string) :
  is_empty_response text = true ->
  let a := fst (classify (Some text) "length_request" ctx) in
  status a = "no_response"
  /\ is_error a = false
  /\ success_indicators a = []
  /\ warning_indicators a = ["No response to length request"]
  /\ vulnerability_hints a
     = [ "Device may not handle abnormal length requests";
         "Device has no response to abnormal length request - may trigger SweynTooth vulnerability" ]
  /\ recommended_action a
     = Some "Device may be sensitive to abnormal length requests, try testing with normal values".
Proof.
  intros He a.
  destruct (empty_response_facts text He) as (Hl & Hf & Hz & Hcodes).
  assert (Hop : _analyze_by_operation text "length_request"
                = mk_op_result "no_response" [] ["No response to length request"]
                    (Some ["Device may not handle abnormal length requests"])).
  { change (_analyze_by_operation text "length_request")
      with (_analyze_length_response text).
    unfold _analyze_length_response. rewrite Hl, He. reflexivity. }
  assert (Hd : _detect_vulnerability_hints text "length_request" ctx
               = ["Device has no response to abnormal length request - may trigger SweynTooth vulnerability"]).
  { unfold _detect_vulnerability_hints.
    change (String.eqb "length_request" "length_request") with true.
    change (contains "connection" (lower "length_request")) with false.
    cbv iota. rewrite He, Hz, Hf. reflexivity. }
  destruct (AnalyzerFacts.classify_lists text "length_request" ctx) as (Hs & Hw & Hv).
  destruct (classify_action text "length_request" ctx) as (Hopn & Hact & _).
  cbv zeta in Hs, Hw, Hv, Hopn, Hact. fold a in Hs, Hw, Hv, Hopn, Hact.
  assert (Hst : status a = "no_response").
  { subst a. rewrite AnalyzerFacts.classify_status, Hop, Hcodes. reflexivity. }
  split; [exact Hst|].
  split; [subst a; rewrite AnalyzerFacts.classify_is_error, Hcodes; reflexivity|].
  rewrite Hs, Hw, Hv, Hop, Hd, Hact.
  repeat split.
  unfold _suggest_action. rewrite Hopn, Hst. reflexivity.
Qed.
End Classifier2.

Section Classifier3.
Import PyStr Analyzer.
Context `{Constant}.

Lemma string_of_uint_digits (d : Decimal.uint) :
  all_chars is_digit (NilEmpty.string_of_uint d) = true.
Proof. induction d; cbn [NilEmpty.string_of_uint all_chars]; auto. Qed.

Lemma str_of_nat_digits (n : nat) : all_chars is_digit (str_of_nat n) = true.
Proof. apply string_of_uint_digits. Qed.

Lemma no_attack_in_digits (s : string) :
  all_chars is_digit s = true -> contains "attack" s = false.
Proof. intros Hall. exact (contains_excluded is_digit "a" "ttack" s eq_refl Hall). Qed.

Lemma attempt_context_has_no_attack (n : nat) :
  contains "attack" ("attempt_" ++ str_of_nat n) = false.
Proof.
  pose proof (no_attack_in_digits _ (str_of_nat_digits n)) as Hd.
  cbn [append contains prefix].
  repeat match goal with
         | |- context [Ascii.ascii_dec ?a ?b] =>
             destruct (Ascii.ascii_dec a b); [try discriminate|try congruence]
         end; exact Hd.
Qed.

Lemma recovery_context_has_no_attack (n : nat) :
  contains "attack" ("recovery_attempt_" ++ str_of_nat n) = false.
Proof.
  pose proof (no_attack_in_digits _ (str_of_nat_digits n)) as Hd.
  cbn [append contains prefix].
  repeat match goal with
         | |- context [Ascii.ascii_dec ?a ?b] =>
             destruct (Ascii.ascii_dec a b); [try discriminate|try congruence]
         end; exact Hd.
Qed.

Lemma connection_result_has_no_hints (text : string) :
  r_vulnerability_hints (_analyze_connection_response text) = None.
Proof.
  unfold _analyze_connection_response.
  set (m1 := first_match CONNECTION_SUCCESS_INDICATORS text).
  set (m2 := first_match CONNECTION_FAILURE_INDICATORS text).
  set (m3 := first_match (map fst LL_CONNECTION_PDUS) text).
  set (b := contains "BTLE" text || contains "BLE" text).
  clearbody m1 m2 m3 b.
  destruct m1, m2, m3, b; reflexivity.
Qed.

Lemma no_hint_without_attack (text op c : string) :
  String.eqb op "length_request" = false ->
  contains "length_request" op = false ->
  contains "attack" c = false ->
  _detect_vulnerability_hints text op (Some c) = [].
Proof.
  intros H1 H2 H3. unfold _detect_vulnerability_hints.
  rewrite H1, H2, H3, andb_false_r, andb_false_r.
  destruct (contains "connection" (lower op) && contains "LL_TERMINATE_IND" text);
    reflexivity.
Qed.

(** X7. The analyses made of connection attempts and of recovery
    probes never carry a vulnerability hint, whatever the answer: hints need
    a length-request operation or the word [attack] in the context, and the
    contexts [attempt_N] and [recovery_attempt_N] do not have it. *)
Theorem connection_analyses_carry_no_hint (attempt i : nat) (resp : response) :
  vulnerability_hints (connection_analysis attempt resp) = []
  /\ vulnerability_hints (recovery_analysis i resp) = [].
Proof.
  unfold connection_analysis, recovery_analysis.
  destruct resp as [text|]; [|split; reflexivity].
  split.
  - destruct (AnalyzerFacts.classify_lists text "connection_request"
                (Some ("attempt_" ++ str_of_nat attempt))) as (_ & _ & Hv).
    cbv zeta in Hv. rewrite Hv.
    change (_analyze_by_operation text "connection_request")
      with (_analyze_connection_response text).
    rewrite connection_result_has_no_hints.
    rewrite no_hint_without_attack; auto using attempt_context_has_no_attack.
  - destruct (AnalyzerFacts.classify_lists text "post_attack_connection"
                (Some ("recovery_attempt_" ++ str_of_nat (i + 1)))) as (_ & _ & Hv).
    cbv zeta in Hv. rewrite Hv.
    change (_analyze_by_operation text "post_attack_connection") with unknown_result.
    rewrite no_hint_without_attack; auto using recovery_context_has_no_attack.
Qed.

(** X8. For a connection answer without success indicator the
    branches apply in this order: a failure indicator gives [error] with the
    first indicator found; otherwise a Link Layer PDU name gives [success]
    with the non-standard-format warning; otherwise [BTLE] or [BLE] in the
    text gives [partial_success]; otherwise the status is [error] when an
    error code was extracted and [unknown] when not. *)
Theorem connection_fallback_order (text : string) (ctx : option string) :
  first_match CONNECTION_SUCCESS_INDICATORS text = None ->
  let a := fst (classify (Some text) "connection_request" ctx) in
  (forall tok,
      first_match CONNECTION_FAILURE_INDICATORS text = Some tok ->
      status a = "error"
      /\ success_indicators a = []
      /\ warning_indicators a = ["Found connection failure indicator: " ++ tok]
      /\ recommended_action a
         = Some "Check if device is in advertising state, adjust scan parameters")
  /\ (first_match CONNECTION_FAILURE_INDICATORS text = None ->
      forall pdu,
        first_match (map fst LL_CONNECTION_PDUS) text = Some pdu ->
        status a = "success"
        /\ warning_indicators a
           = ["Connection response format non-standard, but Link Layer interaction exists"]
        /\ recommended_action a = Some "Proceed to next operation")
  /\ (first_match CONNECTION_FAILURE_INDICATORS text = None ->
      first_match (map fst LL_CONNECTION_PDUS) text = None ->
      (contains "BTLE" text || contains "BLE" text = true ->
       status a = "partial_success"
       /\ success_indicators a = []
       /\ warning_indicators a
          = ["Received BLE frame packet, but no clear connection status"])
      /\ (contains "BTLE" text || contains "BLE" text = false ->
          status a = (if is_error a then "error" else "unknown")
          /\ success_indicators a = []
          /\ warning_indicators a = [])).
Proof.
  intros H1 a.
  destruct (AnalyzerFacts.classify_lists text "connection_request" ctx) as (Hs & Hw & _).
  destruct (classify_action text "connection_request" ctx) as (Hop & Hact & _).
  cbv zeta in Hs, Hw, Hop, Hact. fold a in Hs, Hw, Hop, Hact.
  assert (Hst : status a
                = final_status_of (_analyze_connection_response text)
                    (_extract_error_codes text))
    by (subst a; apply AnalyzerFacts.classify_status).
  assert (He : is_error a = nonempty (_extract_error_codes text))
    by (subst a; apply AnalyzerFacts.classify_is_error).
  change (_analyze_by_operation text "connection_request")
    with (_analyze_connection_response text) in Hs, Hw.
  unfold _suggest_action in Hact. rewrite Hop in Hact.
  change (String.eqb "connection_request" "connection_request") with true in Hact.
  change (contains "length_request" "connection_request") with false in Hact.
  cbn [andb] in Hact.
  clearbody a.
  revert Hs Hw Hst.
  unfold _analyze_connection_response. rewrite H1.
  set (m2 := first_match CONNECTION_FAILURE_INDICATORS text).
  set (m3 := first_match (map fst LL_CONNECTION_PDUS) text).
  set (b := contains "BTLE" text || contains "BLE" text).
  clearbody m2 m3 b.
  destruct m2 as [tok|].
  - cbn. intros Hs Hw Hst. rewrite Hst in Hact.
    split; [|split; intros; discriminate].
    intros ? [= <-]. rewrite Hs, Hw, Hact. auto.
  - split; [intros; discriminate|].
    destruct m3 as [pdu|].
    + cbn in Hs, Hw, Hst. rewrite Hst in Hact.
      split; [|intros; discriminate].
      intros _ ? _. rewrite Hw, Hact. auto.
    + split; [intros; discriminate|]. intros _ _.
      destruct b; split; intros Hb; try discriminate Hb.
      * cbn in Hs, Hw, Hst. auto.
      * cbn [unknown_result r_status r_success_indicators r_warning_indicators
             String.eqb Ascii.eqb Bool.eqb andb] in Hs, Hw, Hst.
        unfold final_status_of in Hst. cbn in Hst. rewrite He, Hs, Hw.
        destruct (nonempty (_extract_error_codes text)); auto.
Qed.

Lemma substring_prefix (n : nat) :
  forall s, String.length (substring 0 n s) = Nat.min n (String.length s)
            /\ exists rest, s = substring 0 n s ++ rest.
Proof.
  induction n as [|n IH]; intros s.
  - destruct s; cbn; split; eauto.
  - destruct s as [|c s]; cbn; [split; eauto|].
    destruct (IH s) as (Hlen & rest & Hrest).
    rewrite Hlen. split; [reflexivity|]. exists rest. rewrite <- Hrest. reflexivity.
Qed.

Lemma length_append (a b : string) :
  String.length (a ++ b) = String.length a + String.length b.
Proof. induction a as [|c a IH]; cbn; [reflexivity|]. rewrite IH. reflexivity. Qed.

(** X9. The response summary of an analysis is the text itself when it has
    at most 100 characters, and its first 100 characters followed by [...]
    otherwise; it never has more than 103 characters. *)
Theorem summary_is_bounded (text op : string) (ctx : option string) :
  exists summary,
    response_summary (fst (classify (Some text) op ctx)) = Some summary
    /\ String.length summary <= 103
    /\ (String.length text <= 100 -> summary = text)
    /\ (100 < String.length text ->
        exists head rest,
          text = head ++ rest
          /\ String.length head = 100
          /\ summary = head ++ "...").
Proof.
  destruct (classify_action text op ctx) as (_ & _ & Hsum & _). cbv zeta in Hsum.
  exists (_summarize_response text). split; [exact Hsum|].
  unfold _summarize_response.
  destruct (substring_prefix 100 text) as (Hlen & rest & Hrest).
  destruct (Nat.ltb_spec 100 (String.length text)) as [Hlt|Hle].
  - rewrite length_append, Hlen. cbn [String.length].
    split; [lia|]. split; [lia|].
    intros _. exists (substring 0 100 text), rest.
    split; [exact Hrest|]. split; [lia|reflexivity].
  - split; [lia|]. split; [reflexivity|lia].
Qed.
End Classifier3.

Section ScanAnalysis.
Import PyStr Analyzer.
Context `{Constant}.

(** X10. When [constant.ERROR] is a non-empty string, a scan answer is
    classified [success] if its text has [scanning] or [advertising] (in any
    case of letters) and [error] otherwise: the test [... or constant.ERROR]
    is always true, so the branch [partial_success] with
    [Ambiguous scan response] is never taken. *)
Theorem scan_is_never_ambiguous (text : string) (ctx : option string) :
  truthy constant_ERROR = true ->
  let a := fst (classify (Some text) "scan_req" ctx) in
  let active := contains "scanning" (lower text) || contains "advertising" (lower text) in
  status a = (if active then "success" else "error")
  /\ success_indicators a = (if active then ["Scan operation normal"] else [])
  /\ warning_indicators a = (if active then [] else ["Scan failed"])
  /\ status a <> "partial_success".
Proof.
  intros Ht a active.
  assert (Hop : _analyze_by_operation text "scan_req"
                = if active then mk_op_result "success" ["Scan operation normal"] [] None
                  else mk_op_result "error" [] ["Scan failed"] None).
  { unfold _analyze_by_operation.
    change (String.eqb "scan_req" "connection_request") with false.
    change (String.eqb "scan_req" "scan_req") with true. cbv iota.
    fold active. rewrite Ht, orb_true_r. reflexivity. }
  destruct (AnalyzerFacts.classify_lists text "scan_req" ctx) as (Hs & Hw & _).
  cbv zeta in Hs, Hw. fold a in Hs, Hw.
  assert (Hst : status a = (if active then "success" else "error")).
  { subst a. rewrite AnalyzerFacts.classify_status, Hop.
    destruct active; reflexivity. }
  rewrite Hs, Hw, Hst, Hop.
  destruct active; repeat split; discriminate.
Qed.
End ScanAnalysis.

(** ** Further properties of the connection test and of a campaign *)

Section ConnectionTest.
Import Py SmartBLETester.
Context {Dev : Type} `{BLESUL Dev} `{Constant}.

Lemma smart_loop_first_success (k : nat) :
  forall (remaining attempt max_retries : nat) (w : world Dev) (resp : response),
    attempt + remaining = S max_retries ->
    nth_error (outcomes connection_request remaining (ble w)) k = Some (Val resp) ->
    connection_ok (connection_analysis (attempt + k) resp) = true ->
    all_attempts_fail attempt (firstn k (outcomes connection_request remaining (ble w)))
    = true ->
    exists w',
      smart_connection_loop remaining attempt max_retries w
      = (Val (Some (true, resp, Some (connection_analysis (attempt + k) resp))), w')
      /\ ble w' = after_calls connection_request (S k) (ble w)
      /\ trace w'
         = (trace w ++ retry_trace EvConnectionRequest 2 (S k) ++ [EvSleep (1#2)])%list
      /\ elapsed_time_assigned w' = true
      /\ total_attempts (connection_stats w')
         = total_attempts (connection_stats w)
           + length (filter returned
                       (firstn (S k) (outcomes connection_request remaining (ble w))))
      /\ successful (connection_stats w') = successful (connection_stats w) + 1
      /\ failed (connection_stats w') = failed (connection_stats w) + k
      /\ recovery_results w' = recovery_results w.
Proof.
  induction k as [|k IH];
    intros remaining attempt max_retries w resp Hsum Hnth Hok Hfail;
    (destruct remaining as [|r]; [discriminate|]);
    rewrite smart_loop_step, connection_attempt_run;
    cbn [outcomes after_calls] in *;
    destruct (connection_request (ble w)) as [o d] eqn:Hreq;
    cbn [nth_error firstn all_attempts_fail snd] in *.
  - injection Hnth as ->. rewrite Nat.add_0_r in *. cbv zeta. rewrite Hok.
    eexists. split; [reflexivity|].
    cbn. rewrite <- app_assoc. repeat split; lia.
  - assert (Hr : r <> 0) by (intros ->; destruct k; discriminate).
    assert (Hlt : (attempt <? max_retries) = true) by (apply Nat.ltb_lt; lia).
    replace (attempt + S k) with (S attempt + k) in * by lia.
    destruct o as [resp0|e].
    + apply andb_true_iff in Hfail. destruct Hfail as [Hno Hrest].
      apply negb_true_iff in Hno. cbv zeta. rewrite Hno, Hlt.
      match goal with
      | |- context [smart_connection_loop _ _ _ ?w1] =>
          destruct (IH r (S attempt) max_retries w1 resp ltac:(lia) Hnth Hok Hrest)
            as (w' & Hrun & Hble & Htr & Hel & Htot & Hsuc & Hfl & Hrec)
      end.
      exists w'. split; [exact Hrun|].
      cbn [sleep log snd ble trace connection_stats elapsed_time_assigned
           recovery_results incr_failed incr_total total_attempts successful
           failed] in *.
      rewrite retry_trace_S.
      repeat split; try assumption;
        try (rewrite Htr, <- !app_assoc; reflexivity);
        cbn [filter returned length]; lia.
    + rewrite Hlt.
      match goal with
      | |- context [smart_connection_loop _ _ _ ?w1] =>
          destruct (IH r (S attempt) max_retries w1 resp ltac:(lia) Hnth Hok Hfail)
            as (w' & Hrun & Hble & Htr & Hel & Htot & Hsuc & Hfl & Hrec)
      end.
      exists w'. split; [exact Hrun|].
      cbn [sleep log snd ble trace connection_stats elapsed_time_assigned
           recovery_results incr_failed incr_total total_attempts successful
           failed] in *.
      rewrite retry_trace_S.
      repeat split; try assumption;
        try (rewrite Htr, <- !app_assoc; reflexivity);
        cbn [filter returned length]; lia.
Qed.

Lemma first_ok_or_all_fail (os : list (res response)) :
  forall attempt,
    all_attempts_fail attempt os = true
    \/ exists k resp,
         nth_error os k = Some (Val resp)
         /\ connection_ok (connection_analysis (attempt + k) resp) = true
         /\ all_attempts_fail attempt (firstn k os) = true.
Proof.
  induction os as [|o os IH]; intros attempt; [left; reflexivity|].
  destruct o as [resp|e].
  - destruct (connection_ok (connection_analysis attempt resp)) eqn:Hok.
    + right. exists 0, resp. rewrite Nat.add_0_r.
      cbn [nth_error firstn all_attempts_fail]. auto.
    + destruct (IH (S attempt)) as [Hall | (k & r & Hnth & Hk & Hpre)].
      * left. cbn [all_attempts_fail]. rewrite Hok. exact Hall.
      * right. exists (S k), r.
        replace (attempt + S k) with (S attempt + k) by lia.
        cbn [nth_error firstn all_attempts_fail]. rewrite Hok. auto.
  - destruct (IH (S attempt)) as [Hall | (k & r & Hnth & Hk & Hpre)].
    + left. exact Hall.
    + right. exists (S k), r.
      replace (attempt + S k) with (S attempt + k) by lia. auto.
Qed.

(** X11. If attempt [k+1] of [smart_connection_test] is the first
    whose answer is classified with a status code of at most 1, the test
    returns [(True, answer, analysis)] after exactly [k+1] connection
    requests, with a pause of 2 seconds between them and one of 0.5 second
    at the end; [successful] grows by one, [failed] by [k], and
    [total_attempts] by the number of calls that returned. *)
Theorem connection_test_stops_at_first_success
    (max_retries k : nat) (w : world Dev) (resp : response) :
  let os := outcomes connection_request max_retries (ble w) in
  nth_error os k = Some (Val resp) ->
  connection_ok (connection_analysis (S k) resp) = true ->
  all_attempts_fail 1 (firstn k os) = true ->
  exists w',
    smart_connection_test max_retries w
    = (Val (true, resp, Some (connection_analysis (S k) resp)), w')
    /\ trace w'
       = (trace w ++ retry_trace EvConnectionRequest 2 (S k) ++ [EvSleep (1#2)])%list
    /\ total_attempts (connection_stats w')
       = total_attempts (connection_stats w) + length (filter returned (firstn (S k) os))
    /\ successful (connection_stats w') = successful (connection_stats w) + 1
    /\ failed (connection_stats w') = failed (connection_stats w) + k.
Proof.
  intros os Hnth Hok Hfail. subst os.
  unfold smart_connection_test, bind at 1, set_elapsed_time. unfold bind at 1.
  match goal with
  | |- context [smart_connection_loop _ 1 _ ?w0] =>
      destruct (smart_loop_first_success k max_retries 1 max_retries w0 resp
                  eq_refl Hnth Hok Hfail)
        as (w' & Hrun & _ & Htr & _ & Htot & Hsuc & Hfl & _)
  end.
  rewrite Hrun. exists w'. split; [reflexivity|]. auto.
Qed.
End ConnectionTest.

Section Campaign2.
Import Py SmartBLETester.
Context {Dev : Type} `{BLESUL Dev} `{Constant}.

(** Phase 2, step by step *)
Lemma send_length_request_exact (max_rx : Z) (w : world Dev) :
  let p := FuzzedParam "max_rx_bytes" max_rx in
  send_length_request max_rx w
  = match length_request_fuzzed p (ble w) with
    | (Val resp, d) =>
        (Val (length_request_result max_rx (Val resp)),
         mk_world d ((trace w ++ [EvLengthRequestFuzzed p]) ++ [EvSleep 3])
           (connection_stats w)
           (protocol_analysis w
              ++ recorded resp "length_request"
                   (Some ("attack_max_rx_" ++ PyStr.str_of_Z max_rx)%string))
           (elapsed_time_assigned w) (recovery_results w))
    | (Exc e, d) =>
        (Val (length_request_result max_rx (Exc e)),
         mk_world d (trace w ++ [EvLengthRequestFuzzed p])
           (connection_stats w) (protocol_analysis w)
           (elapsed_time_assigned w) (recovery_results w))
    end.
Proof.
  cbv zeta.
  unfold send_length_request, try_except, bind, ble_length_request_fuzzed, call.
  destruct (length_request_fuzzed _ (ble w)) as [[resp|e] d]; [|reflexivity].
  rewrite analyze_run. reflexivity.
Qed.

(** the recovery loop, step by step *)
Lemma recovery_loop_exact (n : nat) :
  forall (i : nat) (w : world Dev),
  exists w',
    recovery_loop n i w = (Val tt, w')
    /\ recovery_results w'
       = (recovery_results w
            ++ probe_entries i (outcomes connection_request n (ble w)))%list
    /\ trace w' = (trace w ++ probe_trace n)%list
    /\ connection_stats w' = connection_stats w
    /\ ble w' = after_calls connection_request n (ble w).
Proof.
  induction n as [|n IH]; intros i w.
  - exists w. cbn. rewrite !app_nil_r. auto.
  - cbn [recovery_loop after_calls outcomes probe_trace]. unfold bind at 1.
    rewrite recovery_probe_run.
    destruct (connection_request (ble w)) as [[resp|e] d];
      match goal with
      | |- context [recovery_loop n (S i) ?w1] =>
          destruct (IH (S i) w1) as (w' & Hrun & Hrec & Htr & Hst & Hble)
      end;
      cbn [ble trace connection_stats recovery_results snd probe_entries
           probe_entry] in *;
      exists w';
      (split; [exact Hrun|]);
      (split; [rewrite Hrec, <- app_assoc; reflexivity|]);
      (split; [rewrite Htr, <- !app_assoc; reflexivity|]);
      auto.
Qed.

Lemma probe_entries_length (os : list (res response)) :
  forall i, length (probe_entries i os) = length os.
Proof. induction os as [|o os IH]; intros i; cbn; [reflexivity|]. rewrite IH. reflexivity. Qed.

Lemma outcomes_length {A : Type} (method : Dev -> res A * Dev) (n : nat) :
  forall d, length (outcomes method n d) = n.
Proof.
  induction n as [|n IH]; intros d; cbn; [reflexivity|].
  destruct (method d) as [o d']. cbn. rewrite IH. reflexivity.
Qed.

Lemma probe_entries_no_success (os : list (res response)) :
  forall i, successful_recoveries (probe_entries i os) = 0.
Proof.
  unfold successful_recoveries.
  induction os as [|[resp|e] os IH]; intros i; cbn; auto.
Qed.

Lemma judge_probe_entries (r : test_result) (os : list (res response)) (i : nat) :
  judge r (probe_entries i os)
  = mk_test_result (test r) (max_rx_bytes r) (result r) (details r)
      (response_analysis r) (vulnerability_indicated r) (error r)
      (Some (probe_entries i os)) (Some "device_crashed")
      (Some "Confirmed - Denial of Service vulnerability").
Proof. unfold judge. rewrite probe_entries_no_success. reflexivity. Qed.

(** Phase 3, step by step *)
Lemma test_recovery_exact (r : test_result) (w : world Dev) :
  exists w',
    test_recovery r w
    = (Val (judge r (probe_entries 0 (outcomes connection_request 7 (ble w)))), w')
    /\ trace w' = (trace w ++ probe_trace 7)%list
    /\ connection_stats w' = connection_stats w
    /\ ble w' = after_calls connection_request 7 (ble w).
Proof.
  unfold test_recovery, bind at 1, set_recovery_results. unfold bind at 1.
  match goal with
  | |- context [recovery_loop 7 0 ?w1] =>
      destruct (recovery_loop_exact 7 0 w1) as (w' & Hrun & Hrec & Htr & Hst & Hble)
  end.
  rewrite Hrun. unfold bind, get_recovery_results, ret.
  cbn [recovery_results connection_stats ble trace app] in *.
  exists w'. rewrite Hrec. auto.
Qed.

Lemma connection_test_first_success
    (max_retries k : nat) (w : world Dev) (resp : response) :
  nth_error (outcomes connection_request max_retries (ble w)) k = Some (Val resp) ->
  connection_ok (connection_analysis (S k) resp) = true ->
  all_attempts_fail 1 (firstn k (outcomes connection_request max_retries (ble w)))
  = true ->
  exists w',
    smart_connection_test max_retries w
    = (Val (true, resp, Some (connection_analysis (S k) resp)), w')
    /\ ble w' = after_calls connection_request (S k) (ble w)
    /\ trace w'
       = (trace w ++ retry_trace EvConnectionRequest 2 (S k) ++ [EvSleep (1#2)])%list.
Proof.
  intros Hnth Hok Hfail.
  unfold smart_connection_test, bind at 1, set_elapsed_time. unfold bind at 1.
  match goal with
  | |- context [smart_connection_loop _ 1 _ ?w0] =>
      destruct (smart_loop_first_success k max_retries 1 max_retries w0 resp
                  eq_refl Hnth Hok Hfail)
        as (w' & Hrun & Hble & Htr & _)
  end.
  rewrite Hrun. exists w'. split; [reflexivity|]. auto.
Qed.

(** the connection test when every attempt fails: it returns, or raises on
    the unassigned [elapsed_time] *)
Lemma connection_test_all_fail (max_retries : nat) (w : world Dev) :
  all_attempts_fail 1 (outcomes connection_request max_retries (ble w)) = true ->
  exists w',
    smart_connection_test max_retries w
    = ((if existsb returned (outcomes connection_request max_retries (ble w))
        then Val (false, None, None)
        else if 0 <? total_attempts (connection_stats w)
             then Exc (UnboundLocalError "elapsed_time")
             else Val (false, None, None)), w')
    /\ trace w' = (trace w ++ retry_trace EvConnectionRequest 2 max_retries)%list.
Proof.
  intros Hfail.
  unfold smart_connection_test, bind at 1, set_elapsed_time. unfold bind at 1.
  match goal with
  | |- context [smart_connection_loop _ 1 _ ?w0] =>
      destruct (smart_loop_all_fail max_retries 1 max_retries w0 eq_refl Hfail)
        as (w' & Hrun & _ & Htr & Hel & Htot & _)
  end.
  rewrite Hrun.
  cbn [ble trace connection_stats elapsed_time_assigned orb] in *.
  unfold bind, get_stats, get_elapsed_time, ret, raise.
  exists w'. split; [|exact Htr].
  rewrite Htot.
  destruct (existsb returned (outcomes connection_request max_retries (ble w))) eqn:Hex.
  - destruct (0 <? _); [rewrite Hel|]; reflexivity.
  - rewrite (filter_none _ _ Hex). cbn [length]. rewrite Nat.add_0_r.
    destruct (0 <? total_attempts (connection_stats w)); [rewrite Hel|]; reflexivity.
Qed.

Lemma nth_error_returned (os : list (res response)) (k : nat) (resp : response) :
  nth_error os k = Some (Val resp) -> existsb returned os = true.
Proof.
  intros Hnth. apply existsb_exists. exists (Val resp).
  split; [eapply nth_error_In; eassumption|reflexivity].
Qed.

Lemma connected_campaign_runs_to_the_verdict_aux
    (max_rx : Z) (k : nat) (w : world Dev) (resp : response) :
  nth_error (outcomes connection_request 7 (ble w)) k = Some (Val resp) ->
  connection_ok (connection_analysis (S k) resp) = true ->
  all_attempts_fail 1 (firstn k (outcomes connection_request 7 (ble w))) = true ->
  exists r w', test_length_vulnerability max_rx w = (Val r, w').
Proof.
  intros Hnth Hok Hfail.
  rewrite test_length_vulnerability_run.
  destruct (connection_test_first_success 7 k w resp Hnth Hok Hfail)
    as (w1 & Hrun1 & _).
  rewrite Hrun1.
  destruct (send_length_request_run max_rx w1) as (r & w2 & Hrun2 & _).
  rewrite Hrun2.
  destruct (test_recovery_exact r w2) as (w3 & Hrun3 & _).
  rewrite Hrun3. eauto.
Qed.

(** X12. A campaign whose connection test succeeds at attempt [k+1]
    never raises: it sends one fuzzed length request, waits 3 seconds if the
    call returned, makes 7 recovery probes 4 seconds apart, and returns a
    result with 7 probe records, none of them [success], overall result
    [device_crashed] and the vulnerability reported as confirmed. *)
Theorem connected_campaign_runs_to_the_verdict
    (max_rx : Z) (k : nat) (w : world Dev) (resp : response) :
  let os := outcomes connection_request 7 (ble w) in
  nth_error os k = Some (Val resp) ->
  connection_ok (connection_analysis (S k) resp) = true ->
  all_attempts_fail 1 (firstn k os) = true ->
  let p := FuzzedParam "max_rx_bytes" max_rx in
  let d1 := after_calls connection_request (S k) (ble w) in
  let o := fst (length_request_fuzzed p d1) in
  let d2 := snd (length_request_fuzzed p d1) in
  let r2 := length_request_result max_rx o in
  exists w',
    test_length_vulnerability max_rx w
    = (Val (mk_test_result "length_vulnerability" max_rx (result r2) None
              (response_analysis r2) (vulnerability_indicated r2) (error r2)
              (Some (probe_entries 0 (outcomes connection_request 7 d2)))
              (Some "device_crashed")
              (Some "Confirmed - Denial of Service vulnerability")), w')
    /\ trace w'
       = (trace w ++ retry_trace EvConnectionRequest 2 (S k)
            ++ [EvSleep (1#2); EvLengthRequestFuzzed p]
            ++ (if returned o then [EvSleep 3] else [])
            ++ probe_trace 7)%list
    /\ ble w' = after_calls connection_request 7 d2.
Proof.
  intros os Hnth Hok Hfail p d1 o d2 r2. subst os.
  rewrite test_length_vulnerability_run.
  destruct (connection_test_first_success 7 k w resp Hnth Hok Hfail)
    as (w1 & Hrun1 & Hble1 & Htr1).
  rewrite Hrun1.
  pose proof (send_length_request_exact max_rx w1) as Hrun2. cbv zeta in Hrun2.
  rewrite Hrun2, Hble1. fold p d1.
  subst r2 o d2.
  destruct (length_request_fuzzed p d1) as [[resp2|e] d] eqn:Hreq; cbn [fst snd];
    match goal with
    | |- context [test_recovery ?r ?w2] =>
        destruct (test_recovery_exact r w2) as (w3 & Hrun3 & Htr3 & _ & Hble3)
    end;
    rewrite Hrun3, judge_probe_entries; cbn [ble trace] in *;
    exists w3; (split; [reflexivity|]); (split; [|exact Hble3]);
    rewrite Htr3, Htr1; cbn [returned]; rewrite <- !app_assoc; reflexivity.
Qed.

(** X13. The only exception [test_length_vulnerability] can raise is
    the [UnboundLocalError] on [elapsed_time], and it is raised exactly when
    all 7 connection requests of the connection test raise while
    [total_attempts] is already positive. *)
Theorem campaign_raises_only_on_unassigned_local (max_rx : Z) (w : world Dev) :
  let os := outcomes connection_request 7 (ble w) in
  (fst (test_length_vulnerability max_rx w) = Exc (UnboundLocalError "elapsed_time")
   <-> existsb returned os = false /\ 0 < total_attempts (connection_stats w))
  /\ (forall e, fst (test_length_vulnerability max_rx w) = Exc e ->
                e = UnboundLocalError "elapsed_time").
Proof.
  intros os. subst os.
  destruct (first_ok_or_all_fail (outcomes connection_request 7 (ble w)) 1)
    as [Hall | (k & resp & Hnth & Hok & Hpre)].
  - rewrite test_length_vulnerability_run.
    destruct (connection_test_all_fail 7 w Hall) as (w' & Hrun & _).
    rewrite Hrun.
    destruct (existsb returned (outcomes connection_request 7 (ble w))).
    + cbn. split; [split; [discriminate|intros [? _]; discriminate]|discriminate].
    + destruct (Nat.ltb_spec 0 (total_attempts (connection_stats w))).
      * cbn. split; [tauto|]. intros e [= <-]. reflexivity.
      * cbn. split; [split; [discriminate|intros [_ ?]; lia]|discriminate].
  - destruct (connected_campaign_runs_to_the_verdict_aux max_rx k w resp Hnth Hok Hpre)
      as (r & w' & Hrun).
    rewrite Hrun. rewrite (nth_error_returned _ _ _ Hnth). cbn.
    split; [split; [discriminate|intros [? _]; discriminate]|discriminate].
Qed.
End Campaign2.

(** ** The assessment of a sweep *)

Section Assessment.
Import Py SmartBLETester.

Lemma judge_finding (r0 : test_result) (entries : list recovery_entry) :
  let r := judge r0 entries in
  let s := successful_recoveries entries in
  vulnerability r
  = Some (if s =? 0 then "Confirmed - Denial of Service vulnerability"
          else if s <? length entries then "Suspected - Partial Denial of Service"
          else "No vulnerability")
  /\ recovery_tests r = Some entries
  /\ test r = test r0
  /\ max_rx_bytes r = max_rx_bytes r0
  /\ is_finding r = (s =? 0) || (s <? length entries).
Proof.
  cbv zeta. unfold judge, is_finding.
  destruct (successful_recoveries entries =? 0); [cbn; auto|].
  destruct (successful_recoveries entries <? length entries); cbn; auto.
Qed.

Lemma collect_findings_spec (results : list test_result) :
  Forall from_campaign results ->
  forall vs ws,
    Analyzer.nonempty (fst (collect_findings results vs ws))
    = Analyzer.nonempty vs || existsb is_finding results
    /\ Analyzer.nonempty (snd (collect_findings results vs ws))
       = Analyzer.nonempty ws || existsb is_finding results.
Proof.
  assert (Hne : forall (A : Type) (l : list A) (x : A),
             Analyzer.nonempty (l ++ [x]) = true)
    by (intros A [|? ?] x; reflexivity).
  induction 1 as [|r results Hr _ IH]; intros vs ws.
  - cbn. rewrite !orb_false_r. auto.
  - cbn [collect_findings existsb].
    destruct Hr as [Hr | (r0 & entries & Hr)].
    + rewrite Hr. cbn [failed_pre_connection vulnerability recovery_tests is_finding
                       overall_result orb].
      apply IH.
    + destruct (judge_finding r0 entries) as (Hv & Hrt & _ & _ & Hf).
      cbv zeta in Hv, Hrt, Hf. rewrite <- Hr in Hv, Hrt, Hf.
      rewrite Hv, Hrt, Hf.
      destruct (successful_recoveries entries =? 0).
      * cbn [orb]. change (PyStr.contains "Confirmed" _) with true. cbn [orb].
        destruct (IH (vs ++ [mk_vulnerability_entry (test r) (max_rx_bytes r)
                               "Confirmed - Denial of Service vulnerability"])%list
                     (ws ++ [(test r ++ ": Device completely unresponsive")%string])%list)
          as (H1 & H2).
        rewrite H1, H2, !Hne, !orb_true_r. auto.
      * destruct (successful_recoveries entries <? length entries).
        -- change (PyStr.contains "Confirmed" _) with false.
           change (PyStr.contains "Suspected" _) with true. cbn [orb].
           destruct (IH (vs ++ [mk_vulnerability_entry (test r) (max_rx_bytes r)
                                  "Suspected - Partial Denial of Service"])%list
                        (ws ++ [(test r ++ ": Device partially recovered")%string])%list)
             as (H1 & H2).
           rewrite H1, H2, !Hne, !orb_true_r. auto.
        -- change (PyStr.contains "Confirmed" _) with false.
           change (PyStr.contains "Suspected" _) with false. cbn [orb].
           apply IH.
Qed.

Lemma assessment_of_campaign_results (results : list test_result) :
  Forall from_campaign results ->
  analyze_test_results results
  = (if existsb is_finding results then SecurityVulnerabilitiesFound
     else DeviceSecurityGood).
Proof.
  intros Hall.
  destruct (collect_findings_spec results Hall [] []) as (H1 & H2).
  unfold analyze_test_results.
  destruct (collect_findings results [] []) as [vs ws]. cbn [fst snd] in *.
  rewrite H1, H2. cbn [Analyzer.nonempty orb].
  destruct (existsb is_finding results); reflexivity.
Qed.

(** X14. On results built by [test_length_vulnerability], the
    assessment of [analyze_test_results] is [Security vulnerabilities found]
    when some result has overall result [device_crashed] or
    [partial_recovery], and [Device security is good] otherwise; the
    assessment [Abnormal behavior found] is never given. *)
Theorem findings_decide_the_assessment (results : list test_result) :
  Forall from_campaign results ->
  analyze_test_results results
  = (if existsb is_finding results then SecurityVulnerabilitiesFound
     else DeviceSecurityGood)
  /\ analyze_test_results results <> AbnormalBehaviorFound.
Proof.
  intros Hall.
  destruct (collect_findings_spec results Hall [] []) as (Hvs & Hws).
  unfold analyze_test_results.
  destruct (collect_findings results [] []) as [vs ws]. cbn [fst snd] in *.
  rewrite Hvs, Hws. cbn [Analyzer.nonempty orb].
  destruct (existsb is_finding results); split; try reflexivity; discriminate.
Qed.
End Assessment.

Section Sweep.
Import Py SmartBLETester.
Context {Dev : Type} `{BLESUL Dev} `{Constant}.

(** what a campaign can return *)
Lemma campaign_result_shape (max_rx : Z) (w w' : world Dev) (r : test_result) :
  test_length_vulnerability max_rx w = (Val r, w') ->
  max_rx_bytes r = max_rx
  /\ (r = failed_pre_connection max_rx
      \/ (is_finding r = true
          /\ overall_result r = Some "device_crashed"
          /\ exists r0 entries, r = judge r0 entries)).
Proof.
  rewrite test_length_vulnerability_run.
  destruct (smart_connection_test 7 w) as [[[[[|] resp] a]|e] w1]; [| |discriminate].
  - pose proof (send_length_request_exact max_rx w1) as Hrun2. cbv zeta in Hrun2.
    rewrite Hrun2.
    destruct (length_request_fuzzed _ (ble w1)) as [o d];
      destruct o as [resp2|e2];
      match goal with
      | |- context [test_recovery ?r ?w2] =>
          destruct (test_recovery_exact r w2) as (w3 & Hrun3 & _)
      end;
      rewrite Hrun3; intros [= <- _];
      (split; [rewrite judge_probe_entries; reflexivity|]);
      right; (split; [rewrite judge_probe_entries; reflexivity|]);
      (split; [rewrite judge_probe_entries; reflexivity|]); eauto.
  - intros [= <- _]. split; [reflexivity|]. left. reflexivity.
Qed.

Lemma finding_cases (l : list test_result) :
  Forall (fun r => (is_finding r = false
                    /\ r = failed_pre_connection (max_rx_bytes r)
                    /\ overall_result r <> Some "device_crashed")
                   \/ (is_finding r = true
                       /\ overall_result r = Some "device_crashed"
                       /\ r <> failed_pre_connection (max_rx_bytes r))) l ->
  (existsb is_finding l = false
   <-> Forall (fun r => r = failed_pre_connection (max_rx_bytes r)) l)
  /\ (existsb is_finding l = true
      <-> Exists (fun r => overall_result r = Some "device_crashed") l).
Proof.
  induction 1 as [|r l Hr _ [IH1 IH2]]; cbn [existsb].
  - split; split; auto; try discriminate. intros Hx. inversion Hx.
  - destruct Hr as [(F & E & N) | (F & E & N)]; rewrite F; cbn [orb].
    + split.
      * rewrite IH1. split; [intros Hl; constructor; assumption|].
        intros Hl. inversion Hl; assumption.
      * rewrite IH2. split; [intros Hl; apply Exists_cons_tl; exact Hl|].
        intros Hl. inversion Hl; [contradiction|assumption].
    + split.
      * split; [discriminate|]. intros Hl. inversion Hl. contradiction.
      * split; [intros _; apply Exists_cons_hd; exact E|reflexivity].
Qed.

(** X15. When [comprehensive_vulnerability_test] returns, it returns
    three results, for the values 0, 3000 and 251 in this order; each is the
    failed-connection record or has overall result [device_crashed]; the
    assessment is good exactly when no campaign could connect, and
    [Security vulnerabilities found] exactly when one did. *)
Theorem sweep_results_and_assessment (w w' : world Dev) (results : list test_result) :
  comprehensive_vulnerability_test w = (Val results, w') ->
  map max_rx_bytes results = [0%Z; 3000%Z; 251%Z]
  /\ Forall (fun r => r = failed_pre_connection (max_rx_bytes r)
                      \/ overall_result r = Some "device_crashed") results
  /\ (analyze_test_results results = DeviceSecurityGood
      <-> Forall (fun r => r = failed_pre_connection (max_rx_bytes r)) results)
  /\ (analyze_test_results results = SecurityVulnerabilitiesFound
      <-> Exists (fun r => overall_result r = Some "device_crashed") results).
Proof.
  unfold comprehensive_vulnerability_test.
  unfold bind at 1.
  destruct (test_length_vulnerability 0 w) as [[r1|e1] w1] eqn:H1; [|discriminate].
  unfold bind at 1. cbn [sleep log]. unfold bind at 1.
  match goal with
  | |- context [test_length_vulnerability 3000 ?w1'] =>
      destruct (test_length_vulnerability 3000 w1') as [[r2|e2] w2] eqn:H2
  end; [|discriminate].
  unfold bind at 1. cbn [sleep log]. unfold bind at 1.
  match goal with
  | |- context [test_length_vulnerability 251 ?w2'] =>
      destruct (test_length_vulnerability 251 w2') as [[r3|e3] w3] eqn:H3
  end; [|discriminate].
  cbn [ret]. intros [= <- _].
  apply campaign_result_shape in H1, H2, H3.
  destruct H1 as (M1 & S1), H2 as (M2 & S2), H3 as (M3 & S3).
  assert (Hfc : forall r v,
             max_rx_bytes r = v ->
             r = failed_pre_connection v
             \/ is_finding r = true /\ overall_result r = Some "device_crashed"
                /\ (exists r0 entries, r = judge r0 entries) ->
             from_campaign r
             /\ ((is_finding r = false
                  /\ r = failed_pre_connection (max_rx_bytes r)
                  /\ overall_result r <> Some "device_crashed")
                 \/ (is_finding r = true
                     /\ overall_result r = Some "device_crashed"
                     /\ r <> failed_pre_connection (max_rx_bytes r)))).
  { intros r v <- [Hr | (Hf & Ho & Hj)].
    - split; [left; exact Hr|]. left. rewrite Hr. repeat split. discriminate.
    - split; [right; exact Hj|]. right. repeat split; auto.
      intros Hr. rewrite Hr in Ho. discriminate. }
  destruct (Hfc _ _ M1 S1) as (C1 & K1).
  destruct (Hfc _ _ M2 S2) as (C2 & K2).
  destruct (Hfc _ _ M3 S3) as (C3 & K3).
  assert (Hfrom : Forall from_campaign [r1; r2; r3])
    by (constructor; [exact C1|constructor; [exact C2|constructor; [exact C3|constructor]]]).
  pose proof (assessment_of_campaign_results _ Hfrom) as Ha.
  destruct (finding_cases [r1; r2; r3]) as (G1 & G2);
    [constructor; [exact K1|constructor; [exact K2|constructor; [exact K3|constructor]]]|].
  split; [cbn [map]; rewrite M1, M2, M3; reflexivity|].
  split.
  { assert (Hor : forall r,
               (is_finding r = false /\ r = failed_pre_connection (max_rx_bytes r)
                /\ overall_result r <> Some "device_crashed")
               \/ (is_finding r = true /\ overall_result r = Some "device_crashed"
                   /\ r <> failed_pre_connection (max_rx_bytes r)) ->
               r = failed_pre_connection (max_rx_bytes r)
               \/ overall_result r = Some "device_crashed")
      by (intros r [(_ & ? & _)|(_ & ? & _)]; auto).
    constructor; [auto|constructor; [auto|constructor; [auto|constructor]]]. }
  rewrite Ha, <- G1, <- G2.
  destruct (existsb is_finding [r1; r2; r3]);
    split; split; intros Hx; try discriminate Hx; reflexivity.
Qed.
End Sweep.

(** ** The command lines and the serial port *)

Section CommandLine.
Import PyStrMore.

Lemma endswith_refl (s : string) : endswith s s = true.
Proof. destruct s; cbn [endswith]; rewrite String.eqb_refl; reflexivity. Qed.

Lemma endswith_app (s suffix : string) : endswith (s ++ suffix) suffix = true.
Proof.
  induction s as [|c s IH]; cbn [append]; [apply endswith_refl|].
  cbn [endswith]. rewrite IH. destruct (String.eqb _ _); reflexivity.
Qed.

Lemma endswith_split (s suffix : string) :
  endswith s suffix = true <-> exists head, s = head ++ suffix.
Proof.
  split.
  - induction s as [|c s IH]; cbn [endswith].
    + destruct (String.eqb_spec "" suffix) as [<-|]; [|discriminate].
      intros _. exists "". reflexivity.
    + destruct (String.eqb_spec (String c s) suffix) as [<-|].
      * intros _. exists "". reflexivity.
      * intros Hs. destruct (IH Hs) as (head & ->). exists (String c head). reflexivity.
  - intros (head & ->). apply endswith_app.
Qed.

Lemma normalize_address_chars (arg : string) :
  normalize_address arg = map_chars address_char arg.
Proof.
  unfold normalize_address.
  induction arg as [|c arg IH]; cbn [upper replace_char map_chars]; [reflexivity|].
  rewrite IH. reflexivity.
Qed.

Lemma address_char_facts (c : ascii) :
  address_char (address_char c) = address_char c
  /\ address_char_ok (address_char c) = true.
Proof.
  destruct c as [[|] [|] [|] [|] [|] [|] [|] [|]]; vm_compute; split; reflexivity.
Qed.

(** X16. The normalisation of the address argument
    ([upper().replace('-', ':')]) is idempotent, and its result has no dash
    and no lower-case letter; for an ASCII argument it keeps the length. *)
Theorem address_normalisation (arg : string) :
  normalize_address (normalize_address arg) = normalize_address arg
  /\ (isascii arg = true ->
      String.length (normalize_address arg) = String.length arg)
  /\ all_chars address_char_ok (normalize_address arg) = true
  /\ PyStr.contains "-" (normalize_address arg) = false.
Proof.
  assert (Hall : forall a, all_chars address_char_ok (normalize_address a) = true).
  { intros a. rewrite normalize_address_chars.
    induction a as [|c a IH]; [reflexivity|].
    cbn [map_chars all_chars]. rewrite IH, andb_true_r.
    apply address_char_facts. }
  split; [|split; [|split; [apply Hall|]]].
  - rewrite !normalize_address_chars.
    induction arg as [|c arg IH]; [reflexivity|].
    destruct (address_char_facts c) as (Hi & _).
    cbn [map_chars]. rewrite Hi. f_equal. exact IH.
  - intros _. rewrite normalize_address_chars.
    induction arg as [|c arg IH]; [reflexivity|].
    cbn [map_chars String.length]. f_equal. exact IH.
  - eapply contains_excluded; [|apply Hall]. reflexivity.
Qed.

Lemma replace_char_removes (old new : ascii) (s : string) :
  old <> new ->
  all_chars (fun c => negb (Ascii.eqb c old)) (replace_char old new s) = true.
Proof.
  intros Hne. induction s as [|c s IH]; [reflexivity|].
  cbn [replace_char all_chars]. rewrite IH, andb_true_r.
  destruct (Ascii.eqb_spec c old) as [->|Hc].
  - destruct (Ascii.eqb_spec new old); [congruence|reflexivity].
  - destruct (Ascii.eqb_spec c old); [contradiction|reflexivity].
Qed.

(** X17. The capture file names of both programs end in [.pcap];
    a name that already ends in [.pcap] is kept as it is (the computation is
    idempotent), a given name only ever gets [.pcap] appended, and the
    default name of the pairing program has no colon. *)
Theorem capture_file_names_end_in_pcap
    (arg : option string) (ble_address timestamp : string) :
  endswith (pairing_pcap_filename arg ble_address) ".pcap" = true
  /\ endswith (smart_pcap_filename arg timestamp) ".pcap" = true
  /\ pairing_pcap_filename (Some (pairing_pcap_filename arg ble_address)) ble_address
     = pairing_pcap_filename arg ble_address
  /\ smart_pcap_filename (Some (smart_pcap_filename arg timestamp)) timestamp
     = smart_pcap_filename arg timestamp
  /\ (forall name,
        arg = Some name ->
        exists suffix,
          (suffix = "" \/ suffix = ".pcap")
          /\ pairing_pcap_filename arg ble_address = name ++ suffix
          /\ smart_pcap_filename arg timestamp = name ++ suffix)
  /\ PyStr.contains ":" (pairing_pcap_filename None ble_address) = false.
Proof.
  assert (Hfix : forall f,
             endswith (if negb (endswith f ".pcap") then f ++ ".pcap" else f) ".pcap"
             = true).
  { intros f. destruct (endswith f ".pcap") eqn:He; cbn [negb]; [exact He|].
    apply endswith_app. }
  assert (Hp : endswith (pairing_pcap_filename arg ble_address) ".pcap" = true).
  { destruct arg as [f|]; cbn [pairing_pcap_filename]; [apply Hfix|].
    apply endswith_split.
    exists ("pairing_test_" ++ replace_char ":" "_" ble_address).
    rewrite append_assoc. reflexivity. }
  assert (Hs : endswith (smart_pcap_filename arg timestamp) ".pcap" = true)
    by (unfold smart_pcap_filename; apply Hfix).
  split; [exact Hp|]. split; [exact Hs|].
  split; [cbn [pairing_pcap_filename]; rewrite Hp; reflexivity|].
  split; [unfold smart_pcap_filename at 1; rewrite Hs; reflexivity|].
  split.
  - intros name ->. cbn [pairing_pcap_filename]. unfold smart_pcap_filename.
    destruct (endswith name ".pcap"); cbn [negb].
    + exists "". rewrite append_nil_r. auto.
    + exists ".pcap". auto.
  - cbn [pairing_pcap_filename].
    apply (contains_excluded (fun c => negb (Ascii.eqb c ":")) ":" ""); [reflexivity|].
    change ("pairing_test_" ++ replace_char ":" "_" ble_address ++ ".pcap")
      with ("pairing_test_" ++ (replace_char ":" "_" ble_address ++ ".pcap")).
    rewrite !all_chars_app, replace_char_removes by discriminate.
    reflexivity.
Qed.
End CommandLine.

Section SerialPort.
Import PyStrMore.

Lemma upper_ascii_idempotent (c : ascii) : upper_ascii (upper_ascii c) = upper_ascii c.
Proof. destruct c as [[|] [|] [|] [|] [|] [|] [|] [|]]; reflexivity. Qed.

Lemma upper_idempotent (s : string) : upper (upper s) = upper s.
Proof.
  induction s as [|c s IH]; cbn [upper]; [reflexivity|].
  rewrite upper_ascii_idempotent, IH. reflexivity.
Qed.

(** X18. [_fix_serial_port]: under Windows the result always starts
    with [COM] (in upper case); under Linux it never does and fixing it again
    changes nothing; on any other system the port is returned unchanged. *)
Theorem serial_port_fix (system port : string) :
  (system = "Windows" ->
   startswith (upper (_fix_serial_port system port)) "COM" = true)
  /\ (system = "Linux" ->
      startswith (upper (_fix_serial_port system port)) "COM" = false
      /\ _fix_serial_port system (_fix_serial_port system port)
         = _fix_serial_port system port)
  /\ (system <> "Windows" -> system <> "Linux" -> _fix_serial_port system port = port).
Proof.
  split; [|split].
  - intros ->. unfold _fix_serial_port. cbn [String.eqb Ascii.eqb Bool.eqb andb].
    change (String.eqb "Windows" "Windows") with true. cbv iota.
    assert (Hcom : startswith (upper ("COM" ++ port)) "COM" = true)
      by (apply prefix_app; exists (upper port); reflexivity).
    destruct (isdigit port); [exact Hcom|].
    destruct (startswith (upper port) "COM") eqn:Hs; cbn [negb]; [|exact Hcom].
    rewrite upper_idempotent. exact Hs.
  - intros ->. unfold _fix_serial_port.
    change (String.eqb "Linux" "Windows") with false.
    change (String.eqb "Linux" "Linux") with true. cbv iota.
    destruct (startswith (upper port) "COM") eqn:Hs.
    + assert (Hd : startswith (upper ("/dev/ttyACM" ++ digits_of port)) "COM" = false)
        by (vm_compute; reflexivity).
      rewrite Hd. split; reflexivity.
    + rewrite Hs. split; reflexivity.
  - intros Hw Hl. unfold _fix_serial_port.
    apply String.eqb_neq in Hw, Hl. rewrite Hw, Hl. reflexivity.
Qed.
End SerialPort.

Section PairingResponse.
Import PairingTest.

(** X19. The acceptance test of [robust_pairing_test]: no response
    object is a rejection; a [str] response is accepted exactly when it has
    [Pairing], [pairing] or [Security]; another object exactly when its text
    has [Pairing_Response]; so every text accepted for an object is accepted
    for a [str]. *)
Theorem pairing_acceptance_criterion (s : string) :
  response_accepted None = false
  /\ response_accepted (Some (PyString s))
     = PyStr.contains "Pairing" s || PyStr.contains "pairing" s
       || PyStr.contains "Security" s
  /\ response_accepted (Some (PyObject s)) = PyStr.contains "Pairing_Response" s
  /\ (response_accepted (Some (PyObject s)) = true ->
      response_accepted (Some (PyString s)) = true).
Proof.
  assert (H1 : PyStr.contains "SM_Pairing_Response" s = true ->
               PyStr.contains "Pairing_Response" s = true)
    by (apply contains_trans; reflexivity).
  assert (H2 : PyStr.contains "Pairing_Response" s = true ->
               PyStr.contains "Pairing" s = true)
    by (apply contains_trans; reflexivity).
  assert (Hs : response_accepted (Some (PyString s))
               = PyStr.contains "Pairing" s || PyStr.contains "pairing" s
                 || PyStr.contains "Security" s).
  { cbn [response_accepted existsb].
    destruct (PyStr.contains "SM_Pairing_Response" s) eqn:E.
    - rewrite (H2 (H1 eq_refl)). reflexivity.
    - rewrite orb_false_r, orb_assoc. reflexivity. }
  assert (Ho : response_accepted (Some (PyObject s)) = PyStr.contains "Pairing_Response" s).
  { cbn [response_accepted].
    destruct (PyStr.contains "SM_Pairing_Response" s) eqn:E; [|reflexivity].
    rewrite (H1 eq_refl). reflexivity. }
  split; [reflexivity|]. split; [exact Hs|]. split; [exact Ho|].
  rewrite Hs, Ho. intros Hp. rewrite (H2 Hp). reflexivity.
Qed.
End PairingResponse.

(** ** The pairing tests *)

Section RetryRuns.
Import Py PairingTester.
Context {Dev : Type} `{BLESUL Dev} `{Constant}.

(** what a retry loop does to the session, whatever the engine answers *)
Lemma retry_run (method : Dev -> res response * Dev) (ev : event)
    (max_retries : nat) (delay : Q) (w : world Dev) :
  exists b v w' n,
    retry_loop (call ev method) max_retries 1 max_retries delay w = (Val (b, v), w')
    /\ trace w' = (trace w ++ retry_trace ev delay n)%list
    /\ ble w' = after_calls method n (ble w)
    /\ n <= max_retries
    /\ (b = false -> n = max_retries /\ v = None).
Proof.
  destruct (first_success_or_none (outcomes method max_retries (ble w)))
    as [Hall | (k & v & Hnth & Hv & Hpre)].
  - destruct (retry_exhausted method ev max_retries 1 max_retries delay w eq_refl Hall)
      as (w' & Hrun & Htr & Hble).
    exists false, None, w', max_retries. repeat split; auto.
  - destruct (retry_first_success method ev k max_retries 1 max_retries delay w v
                eq_refl Hnth Hv Hpre) as (w' & Hrun & Htr & Hble).
    exists true, v, w', (S k).
    assert (Hk : k < max_retries).
    { assert (Hs : nth_error (outcomes method max_retries (ble w)) k <> None)
        by congruence.
      apply nth_error_Some in Hs. rewrite outcomes_length in Hs. exact Hs. }
    split; [exact Hrun|]. split; [exact Htr|]. split; [exact Hble|].
    split; [lia|discriminate].
Qed.

Lemma retry_trace_no_termination (ev : event) (delay : Q) (n : nat) :
  is_termination_indication ev = false ->
  filter is_termination_indication (retry_trace ev delay n) = [].
Proof.
  intros Hev. induction n as [|[|n] IH]; cbn [retry_trace filter].
  - reflexivity.
  - rewrite Hev. reflexivity.
  - rewrite Hev. cbn [is_termination_indication]. exact IH.
Qed.
End RetryRuns.

Section PairingRuns.
Import Py PairingTester PairingTest.
Context {Dev : Type} `{BLESUL Dev} `{BLESUL_SM Dev} `{Constant}.

(** one pairing test, whatever the engine answers *)
Lemma robust_pairing_test_returns (key_size : Z) (max_scan max_connect : nat)
    (w : world Dev) :
  exists accepted details w',
    robust_pairing_test key_size max_scan max_connect w = (Val (accepted, details), w').
Proof.
  unfold robust_pairing_test, robust_scan, robust_connect.
  rewrite robust_scan_is_retry, robust_connect_is_retry.
  unfold bind at 1.
  destruct (retry_run scan_req EvScanReq max_scan 1 w)
    as (b1 & v1 & w1 & n1 & Hrun1 & _).
  unfold ble_scan_req. rewrite Hrun1.
  destruct b1; cbn [negb]; [|do 3 eexists; reflexivity].
  unfold bind at 1.
  destruct (retry_run connection_request EvConnectionRequest max_connect 1 w1)
    as (b2 & v2 & w2 & n2 & Hrun2 & _).
  unfold ble_connection_request. rewrite Hrun2.
  destruct b2; cbn [negb]; [|do 3 eexists; reflexivity].
  unfold bind at 1. cbn [sleep log].
  unfold bind at 1, try_except at 1, bind at 1, ble_pairing_request_fuzzed.
  cbn [ble trace connection_stats protocol_analysis elapsed_time_assigned
       recovery_results].
  destruct (pairing_request_fuzzed _ (ble w2)) as [[resp|e] d3];
    cbn [sleep log ret bind];
    unfold bind at 1, try_except, bind at 1, ble_termination_indication, call;
    cbn [ble trace connection_stats protocol_analysis elapsed_time_assigned
         recovery_results];
    destruct (termination_indication d3) as [[[]|e4] d4];
    cbn [sleep log ret bind];
    do 3 eexists; reflexivity.
Qed.

(** X20. [robust_pairing_test] never raises, whatever the engine
    does.  If the scan fails it stops after the scan retries with
    [(False, ...)] and without connecting; if scan or connection fails no
    termination is sent and no pairing response is recorded; if the
    connection succeeds exactly one termination is sent, also when the
    pairing request raises, and the verdict is the acceptance test of the
    recorded response. *)
Theorem pairing_test_never_raises_and_disconnects
    (key_size : Z) (max_scan max_connect : nat) (w : world Dev) :
  exists accepted details w' evs,
    robust_pairing_test key_size max_scan max_connect w = (Val (accepted, details), w')
    /\ trace w' = (trace w ++ evs)%list
    /\ (scan_success details = false ->
        accepted = false
        /\ connect_success details = false
        /\ pairing_response details = None
        /\ evs = retry_trace EvScanReq 1 max_scan
        /\ ble w' = after_calls scan_req max_scan (ble w))
    /\ (connect_success details = false ->
        accepted = false
        /\ pairing_response details = None
        /\ filter is_termination_indication evs = [])
    /\ (connect_success details = true ->
        scan_success details = true
        /\ filter is_termination_indication evs = [EvTerminationIndication]
        /\ exists resp,
             pairing_response details = Some resp
             /\ accepted = response_accepted resp).
Proof.
  unfold robust_pairing_test, robust_scan, robust_connect.
  rewrite robust_scan_is_retry, robust_connect_is_retry.
  unfold bind at 1.
  destruct (retry_run scan_req EvScanReq max_scan 1 w)
    as (b1 & v1 & w1 & n1 & Hrun1 & Htr1 & Hble1 & Hn1 & Hf1).
  unfold ble_scan_req. rewrite Hrun1.
  destruct b1; cbn [negb].
  2:{ destruct (Hf1 eq_refl) as (-> & ->).
      exists false, (mk_pairing_details false false None), w1,
        (retry_trace EvScanReq 1 max_scan).
      cbn. repeat split; auto; try discriminate.
      apply retry_trace_no_termination. reflexivity. }
  unfold bind at 1.
  destruct (retry_run connection_request EvConnectionRequest max_connect 1 w1)
    as (b2 & v2 & w2 & n2 & Hrun2 & Htr2 & Hble2 & Hn2 & Hf2).
  unfold ble_connection_request. rewrite Hrun2.
  destruct b2; cbn [negb].
  2:{ exists false, (mk_pairing_details true false None), w2,
        (retry_trace EvScanReq 1 n1 ++ retry_trace EvConnectionRequest 1 n2)%list.
      cbn. rewrite Htr2, Htr1, <- app_assoc.
      repeat split; auto; try discriminate.
      rewrite filter_app, !retry_trace_no_termination by reflexivity. reflexivity. }
  unfold bind at 1. cbn [sleep log].
  unfold bind at 1, try_except at 1, bind at 1, ble_pairing_request_fuzzed.
  cbn [ble trace connection_stats protocol_analysis elapsed_time_assigned
       recovery_results].
  destruct (pairing_request_fuzzed _ (ble w2)) as [[resp|e] d3];
    cbn [sleep log ret bind];
    unfold bind at 1, try_except, bind at 1, ble_termination_indication, call;
    cbn [ble trace connection_stats protocol_analysis elapsed_time_assigned
         recovery_results];
    destruct (termination_indication d3) as [[[]|e4] d4];
    cbn [sleep log ret bind];
    do 3 eexists; eexists (retry_trace EvScanReq 1 n1
                            ++ retry_trace EvConnectionRequest 1 n2 ++ _)%list;
    (split; [reflexivity|]);
    cbn [trace scan_success connect_success pairing_response];
    rewrite Htr2, Htr1;
    (split; [rewrite <- !app_assoc; cbn [app]; reflexivity|]);
    (split; [discriminate|]); (split; [discriminate|]);
    intros _; (split; [reflexivity|]);
    (split; [rewrite !filter_app, !retry_trace_no_termination by reflexivity;
             reflexivity|]);
    eexists; split; reflexivity.
Qed.

Lemma count_test_invariants (k : Z) (accepted : bool) (details : pairing_details)
    (acc : list Z) (st : test_stats) :
  let acc' := fst (count_test k accepted details acc st) in
  let st' := snd (count_test k accepted details acc st) in
  total_tests st' = total_tests st
  /\ no_response st' = no_response st
  /\ successful_tests st' + failed_tests st' = successful_tests st + failed_tests st + 1
  /\ failed_tests st' + scan_failures st + connect_failures st + pairing_rejections st
     = failed_tests st + scan_failures st' + connect_failures st'
       + pairing_rejections st'
  /\ ((acc' = acc /\ successful_tests st' = successful_tests st)
      \/ (acc' = (acc ++ [k])%list /\ successful_tests st' = successful_tests st + 1)).
Proof.
  cbv zeta. unfold count_test.
  destruct (scan_success details), (connect_success details), accepted;
    cbn; repeat split; try lia; auto.
Qed.

(** the loop over the key sizes runs to its end within the fuel and keeps the
    books *)
Lemma pairing_loop_invariants (fuel : nat) :
  forall (current end_key : Z) (acc : list Z) (st : test_stats) (w : world Dev),
    Z.to_nat (current - end_key + 1) <= fuel ->
    exists new st' w',
      pairing_loop fuel current end_key acc st w = (Val (Some ((acc ++ new)%list, st')), w')
      /\ total_tests st' = total_tests st + Z.to_nat (current - end_key + 1)
      /\ no_response st' = no_response st
      /\ successful_tests st' + failed_tests st'
         = successful_tests st + failed_tests st + Z.to_nat (current - end_key + 1)
      /\ failed_tests st' + scan_failures st + connect_failures st + pairing_rejections st
         = failed_tests st + scan_failures st' + connect_failures st'
           + pairing_rejections st'
      /\ successful_tests st' = successful_tests st + length new
      /\ Forall (fun k => (end_key <= k <= current)%Z) new
      /\ StronglySorted Z.gt new.
Proof.
  induction fuel as [|fuel IH]; intros current end_key acc st w Hfuel.
  - cbn [pairing_loop].
    destruct (Z.geb_spec current end_key) as [Hge|Hlt]; [lia|].
    exists [], st, w. rewrite app_nil_r.
    replace (Z.to_nat (current - end_key + 1)) with 0 by lia.
    repeat split; auto; try lia. constructor.
  - cbn [pairing_loop].
    destruct (Z.geb_spec current end_key) as [Hge|Hlt].
    2:{ exists [], st, w. rewrite app_nil_r.
        replace (Z.to_nat (current - end_key + 1)) with 0 by lia.
        repeat split; auto; try lia. constructor. }
    unfold bind at 1.
    destruct (robust_pairing_test_returns current 7 7 w)
      as (accepted & details & w1 & Hrun).
    rewrite Hrun. cbv beta iota zeta.
    set (st1 := mk_test_stats (total_tests st + 1) (successful_tests st)
                  (failed_tests st) (scan_failures st) (connect_failures st)
                  (pairing_rejections st) (no_response st)).
    pose proof (count_test_invariants current accepted details acc st1) as Hc.
    destruct (count_test current accepted details acc st1) as [acc1 st1'].
    subst st1.
    cbv zeta in Hc. cbn [fst snd total_tests successful_tests failed_tests
                         scan_failures connect_failures pairing_rejections
                         no_response] in Hc.
    destruct Hc as (Ht & Hnr & Hsf & Hfl & Hacc).
    unfold bind at 1.
    replace (Z.to_nat (current - end_key + 1))
      with (S (Z.to_nat (current - 1 - end_key + 1))) by lia.
    destruct (current >? end_key)%Z; cbn [sleep log ret];
      match goal with
      | |- context [pairing_loop fuel _ _ _ _ ?w2] =>
          destruct (IH (current - 1)%Z end_key acc1 st1' w2 ltac:(lia))
            as (new & st' & w' & Hloop & Ht' & Hnr' & Hsf' & Hfl' & Hsu' & Hrange
                & Hsorted)
      end;
      (assert (Hrange' : Forall (fun k => (end_key <= k <= current)%Z) new)
        by (eapply Forall_impl; [|exact Hrange]; cbn; intros k Hk; lia));
      (destruct Hacc as [(-> & Hs) | (-> & Hs)];
       [ exists new, st', w';
         (split; [exact Hloop|]); repeat split; auto; lia
       | exists (current :: new), st', w';
         rewrite <- app_assoc in Hloop; cbn [app] in Hloop;
         (split; [exact Hloop|]); cbn [length];
         repeat split; auto; try lia;
         [ constructor; [lia|exact Hrange']
         | constructor; [exact Hsorted|];
           eapply Forall_impl; [|exact Hrange]; cbn; intros k Hk; lia ] ]).
Qed.

Lemma run_pairing_invariants (start_key end_key : Z) (w : world Dev) :
  exists accepted st w',
    run_comprehensive_pairing_test start_key end_key w = (Val (Some (accepted, st)), w')
    /\ total_tests st = Z.to_nat (Z.abs (start_key - end_key) + 1)
    /\ successful_tests st + failed_tests st = total_tests st
    /\ failed_tests st = scan_failures st + connect_failures st + pairing_rejections st
    /\ no_response st = 0
    /\ length accepted = successful_tests st
    /\ Forall (fun k => (Z.min start_key end_key <= k <= Z.max start_key end_key)%Z)
         accepted
    /\ StronglySorted Z.gt accepted.
Proof.
  unfold run_comprehensive_pairing_test.
  destruct (Z.ltb_spec start_key end_key) as [Hlt|Hge].
  - destruct (pairing_loop_invariants (Z.to_nat (end_key - start_key + 1))
                end_key start_key [] (mk_test_stats 0 0 0 0 0 0 0) w (le_n _))
      as (new & st & w' & Hrun & Ht & Hnr & Hsf & Hfl & Hsu & Hrange & Hsorted).
    cbn [app total_tests successful_tests failed_tests scan_failures connect_failures
         pairing_rejections no_response] in *.
    exists new, st, w'. split; [exact Hrun|].
    replace (Z.abs (start_key - end_key)) with (end_key - start_key)%Z by lia.
    repeat split; auto; try lia.
    eapply Forall_impl; [|exact Hrange]. cbn. intros k Hk. lia.
  - destruct (pairing_loop_invariants (Z.to_nat (start_key - end_key + 1))
                start_key end_key [] (mk_test_stats 0 0 0 0 0 0 0) w (le_n _))
      as (new & st & w' & Hrun & Ht & Hnr & Hsf & Hfl & Hsu & Hrange & Hsorted).
    cbn [app total_tests successful_tests failed_tests scan_failures connect_failures
         pairing_rejections no_response] in *.
    exists new, st, w'. split; [exact Hrun|].
    replace (Z.abs (start_key - end_key)) with (start_key - end_key)%Z by lia.
    repeat split; auto; try lia.
    eapply Forall_impl; [|exact Hrange]. cbn. intros k Hk. lia.
Qed.

(** X21. [run_comprehensive_pairing_test] terminates without raising
    for every pair of bounds, and the order of the bounds does not matter.
    It runs one test per key size of the range; successful and failed tests
    add up to the total; the failed tests are the scan failures, connection
    failures and rejections; [no_response] stays 0; the accepted key sizes
    are as many as the successful tests, lie in the range and are strictly
    decreasing; for bounds within 7..16 none of them is non-standard. *)
Theorem pairing_sweep_keeps_the_books (start_key end_key : Z) (w : world Dev) :
  exists accepted st w',
    run_comprehensive_pairing_test start_key end_key w = (Val (Some (accepted, st)), w')
    /\ run_comprehensive_pairing_test end_key start_key w
       = run_comprehensive_pairing_test start_key end_key w
    /\ total_tests st = Z.to_nat (Z.abs (start_key - end_key) + 1)
    /\ successful_tests st + failed_tests st = total_tests st
    /\ failed_tests st = scan_failures st + connect_failures st + pairing_rejections st
    /\ no_response st = 0
    /\ length accepted = successful_tests st
    /\ Forall (fun k => (Z.min start_key end_key <= k <= Z.max start_key end_key)%Z)
         accepted
    /\ StronglySorted Z.gt accepted
    /\ ((7 <= Z.min start_key end_key)%Z -> (Z.max start_key end_key <= 16)%Z ->
        non_standard accepted = []).
Proof.
  destruct (run_pairing_invariants start_key end_key w)
    as (accepted & st & w' & Hrun & Ht & Hsf & Hfl & Hnr & Hlen & Hrange & Hsorted).
  exists accepted, st, w'.
  split; [exact Hrun|]. split.
  { unfold run_comprehensive_pairing_test.
    destruct (Z.ltb_spec start_key end_key), (Z.ltb_spec end_key start_key);
      try reflexivity; try lia.
    assert (start_key = end_key) by lia. subst. reflexivity. }
  repeat (split; [assumption|]).
  intros Hmin Hmax. unfold non_standard.
  clear -Hrange Hmin Hmax.
  induction Hrange as [|k l Hk _ IH]; [reflexivity|].
  cbn [filter].
  destruct (Z.ltb_spec k 7); [lia|].
  destruct (Z.gtb_spec k 16); [lia|]. exact IH.
Qed.
End PairingRuns.

(** ** The further properties on concrete sessions *)

Section MoreSessions.
Import Py SmartBLETester PairingTester PairingTest.
#[local] Existing Instance sample_constant.

(** X2 on a text with a code of the table and a code outside it *)
Lemma unknown_code_label_iff_outside_table_witness :
  In (ErrCode "0x99" 153 "Unknown error code")
     (error_details
        (fst (Analyzer.classify (Some "status 0x3e then 0x99") "scan_req" None)))
  /\ 64 <= 153.
Proof.
  assert (Hin : In (ErrCode "0x99" 153 "Unknown error code")
                  (error_details
                     (fst (Analyzer.classify (Some "status 0x3e then 0x99")
                             "scan_req" None))))
    by (vm_compute; right; left; reflexivity).
  split; [exact Hin|].
  exact (proj1 (unknown_code_label_iff_outside_table _ _ _ _ _ _ Hin) eq_refl).
Defined.

(** X4 on the operation tag of the recovery probes *)
Lemma unhandled_operation_is_error_or_unknown_witness :
  let a := fst (Analyzer.classify (Some "BTLE_DATA / LL_FEATURE_RSP")
                  "post_attack_connection" None) in
  status a = (if is_error a then "error" else "unknown")
  /\ success_indicators a = [].
Proof.
  intros a.
  destruct (unhandled_operation_is_error_or_unknown "BTLE_DATA / LL_FEATURE_RSP"
              "post_attack_connection" None)
    as (Hs & _ & Hst & _); try discriminate.
  split; [exact Hst | exact Hs].
Defined.

(** X6 on the answer [Empty] *)
Lemma silent_length_request_is_flagged_witness :
  let a := fst (Analyzer.classify (Some "Empty") "length_request"
                  (Some "attack_max_rx_0")) in
  status a = "no_response" /\ length (vulnerability_hints a) = 2.
Proof.
  intros a.
  destruct (silent_length_request_is_flagged "Empty" (Some "attack_max_rx_0") eq_refl)
    as (Hst & _ & _ & _ & Hv & _).
  split; [exact Hst|]. fold a in Hv. rewrite Hv. reflexivity.
Defined.

(** X8 on a ping request, which is no success indicator *)
Lemma connection_fallback_order_witness :
  let a := fst (Analyzer.classify (Some "BTLE_DATA / LL_PING_REQ")
                  "connection_request" None) in
  status a = "success"
  /\ warning_indicators a
     = ["Connection response format non-standard, but Link Layer interaction exists"].
Proof.
  intros a.
  destruct (connection_fallback_order "BTLE_DATA / LL_PING_REQ" None
              ltac:(vm_compute; reflexivity)) as (_ & Hpdu & _).
  destruct (Hpdu ltac:(vm_compute; reflexivity) "LL_PING_REQ"
              ltac:(vm_compute; reflexivity)) as (Hst & Hw & _).
  split; [exact Hst | exact Hw].
Defined.

(** X10 with the sentinel [Error] *)
Lemma scan_is_never_ambiguous_witness :
  status (fst (Analyzer.classify (Some "BTLE_ADV / BTLE_SCAN_RSP") "scan_req" None))
  = "error".
Proof.
  destruct (@scan_is_never_ambiguous sample_constant "BTLE_ADV / BTLE_SCAN_RSP" None
              eq_refl)
    as (Hst & _).
  cbv zeta in Hst. rewrite Hst. vm_compute. reflexivity.
Defined.

(** X11 on an engine that answers at the third attempt *)
Lemma connection_test_stops_at_first_success_witness :
  exists w',
    smart_connection_test 7 (fresh_world contested_script)
    = (Val (true, Some "BTLE_DATA / LL_VERSION_IND",
            Some (connection_analysis 3 (Some "BTLE_DATA / LL_VERSION_IND"))), w')
    /\ connection_stats w' = mk_stats 2 1 2.
Proof.
  destruct (connection_test_stops_at_first_success 7 2 (fresh_world contested_script)
              (Some "BTLE_DATA / LL_VERSION_IND"))
    as (w' & Hrun & _ & Htot & Hsuc & Hfl);
    try (vm_compute; reflexivity).
  exists w'. split; [exact Hrun|].
  destruct (connection_stats w') as [t s f].
  cbn in Htot, Hsuc, Hfl. subst. reflexivity.
Defined.

(** X12 on the same engine *)
Lemma connected_campaign_runs_to_the_verdict_witness :
  exists r w',
    test_length_vulnerability 0 (fresh_world contested_script) = (Val r, w')
    /\ overall_result r = Some "device_crashed"
    /\ option_map (@length _) (recovery_tests r) = Some 7.
Proof.
  destruct (connected_campaign_runs_to_the_verdict 0 2 (fresh_world contested_script)
              (Some "BTLE_DATA / LL_VERSION_IND"))
    as (w' & Hrun & _); try (vm_compute; reflexivity).
  do 2 eexists. split; [exact Hrun|]. split; reflexivity.
Defined.

(** X14 on a failed connection and a partial recovery *)
Lemma findings_decide_the_assessment_witness :
  analyze_test_results
    [failed_pre_connection 0; judge (failed_pre_connection 3000) sample_entries]
  = SecurityVulnerabilitiesFound.
Proof.
  destruct (findings_decide_the_assessment
              [failed_pre_connection 0; judge (failed_pre_connection 3000) sample_entries])
    as (Ha & _).
  - constructor; [left; reflexivity|].
    constructor; [right; eauto|constructor].
  - rewrite Ha. reflexivity.
Defined.

(** X15 on a device that answers the eight connection requests of the first
    campaign only *)
Lemma sweep_results_and_assessment_witness :
  exists results w',
    comprehensive_vulnerability_test (fresh_world healthy_script) = (Val results, w')
    /\ map max_rx_bytes results = [0%Z; 3000%Z; 251%Z].
Proof.
  destruct (comprehensive_vulnerability_test (fresh_world healthy_script))
    as [[results|e] w'] eqn:E.
  - exists results, w'. split; [reflexivity|].
    exact (proj1 (sweep_results_and_assessment _ _ _ E)).
  - exfalso. vm_compute in E. discriminate E.
Defined.

(** X18 on a bare port number under Windows *)
Lemma serial_port_fix_witness :
  PyStrMore.startswith (PyStrMore.upper (_fix_serial_port "Windows" "74")) "COM" = true.
Proof. exact (proj1 (serial_port_fix "Windows" "74") eq_refl). Defined.

(** X9 on a short answer *)
Lemma summary_is_bounded_witness :
  response_summary (fst (Analyzer.classify (Some "BTLE_ADV") "scan_req" None))
  = Some "BTLE_ADV".
Proof.
  destruct (@summary_is_bounded sample_constant "BTLE_ADV" "scan_req" None)
    as (summary & Hs & _ & Hshort & _).
  rewrite Hs, (Hshort ltac:(cbn; lia)). reflexivity.
Defined.

(** X13 on an engine whose connection calls all raise, in a session that has
    already counted an attempt *)
Lemma campaign_raises_only_on_unassigned_local_witness :
  fst (test_length_vulnerability 0 (later_world faulty_script))
  = Exc (UnboundLocalError "elapsed_time").
Proof.
  destruct (campaign_raises_only_on_unassigned_local 0 (later_world faulty_script))
    as (Hiff & _).
  apply (proj2 Hiff). split; [vm_compute; reflexivity | vm_compute; lia].
Defined.

(** X19 on the text of a pairing response *)
Lemma pairing_acceptance_criterion_witness :
  response_accepted (Some (PyString "SM_Pairing_Response")) = true.
Proof.
  destruct (pairing_acceptance_criterion "SM_Pairing_Response") as (_ & _ & _ & Himp).
  exact (Himp ltac:(vm_compute; reflexivity)).
Defined.

(** X20 on a device that scans but does not connect *)
Lemma pairing_test_never_raises_and_disconnects_witness :
  exists details w',
    robust_pairing_test 16 7 7 (fresh_world unreachable_script)
    = (Val (false, details), w')
    /\ pairing_response details = None.
Proof.
  destruct (pairing_test_never_raises_and_disconnects 16 7 7
              (fresh_world unreachable_script))
    as (accepted & details & w' & evs & Hrun & _ & _ & Hconn & _).
  assert (Hc : connect_success details = false).
  { vm_compute in Hrun. injection Hrun as _ Hd _. rewrite <- Hd. reflexivity. }
  destruct (Hconn Hc) as (Ha & Hp & _). subst accepted.
  exists details, w'. split; [exact Hrun | exact Hp].
Defined.

(** X21 on the same device, for the key sizes 8 and 7 *)
Lemma pairing_sweep_keeps_the_books_witness :
  exists accepted st w',
    run_comprehensive_pairing_test 8 7 (fresh_world unreachable_script)
    = (Val (Some (accepted, st)), w')
    /\ non_standard accepted = [].
Proof.
  destruct (pairing_sweep_keeps_the_books 8 7 (fresh_world unreachable_script))
    as (accepted & st & w' & Hrun & _ & _ & _ & _ & _ & _ & _ & _ & Hns).
  exists accepted, st, w'. split; [exact Hrun|].
  apply Hns; lia.
Defined.

(** X16 on an address written with dashes and small letters *)
Lemma address_normalisation_witness :
  String.length (normalize_address "aa-bb-cc-dd-ee-ff") = 17.
Proof.
  destruct (address_normalisation "aa-bb-cc-dd-ee-ff") as (_ & Hlen & _).
  rewrite (Hlen ltac:(vm_compute; reflexivity)). reflexivity.
Defined.

(** X17 on a name without suffix *)
Lemma capture_file_names_end_in_pcap_witness :
  exists suffix,
    (suffix = "" \/ suffix = ".pcap")
    /\ pairing_pcap_filename (Some "capture") "AA:BB" = "capture" ++ suffix.
Proof.
  destruct (capture_file_names_end_in_pcap (Some "capture") "AA:BB" "20260101_000000")
    as (_ & _ & _ & _ & Hname & _).
  destruct (Hname "capture" eq_refl) as (suffix & Hs & Hp & _).
  exists suffix. auto.
Defined.
End MoreSessions.
